(** * Streaming transport of the museum pose-detection frontend

    A shallow embedding of the transport code of the frontend:

    - [ArrayBufferUtils]  (utils/performanceUtils.ts): the 24-byte metadata
      header, [addMetadata] / [extractMetadata];
    - [FrameRateOptimizer] and [LatencyMonitor] (utils/performanceUtils.ts);
    - [useWebSocket] (the hook that follows the coordinate transformer in
      utils/coordinateTransform.ts): connection callbacks, the outbound
      queue, the inbound handler, the flush and reconnect effects;
    - [CoordinateTransformer] (utils/coordinateTransform.ts) and the step
      of [HumanoidSkeleton.updateFromKeypoints] that calls it;
    - the frame-rate effect of [PoseDetector] (components/PoseDetector.tsx).

    JavaScript values are modelled as the code has them: an [ArrayBuffer] is
    a list of bytes, a string a list of UTF-16 code units, the numbers the
    optimizer and the monitor compute with are binary64 floats (Rocq's
    primitive floats are the same IEEE 754 format), integer counters and
    array lengths are [nat]/[Z]/[N], and an exception is a [Throw] result. *)

From Stdlib Require Import String Ascii Strings.Byte.
From Stdlib Require Import ZArith NArith List Bool Lia.
From Stdlib Require Import Uint63 PrimFloat SpecFloat FloatOps FloatAxioms.
Import ListNotations.

Local Open Scope Z_scope.

(** ** Exceptions *)

(** The only exception the modelled code can raise is the platform's
    [RangeError] ([BigInt] of a non-integer, a [DataView] read or a typed
    array view outside its buffer). *)
Inductive exn : Type := RangeError.

Inductive result (A : Type) : Type :=
| Ok (a : A)
| Throw (e : exn).
Arguments Ok {A} a.
Arguments Throw {A} e.

Definition bind {A B : Type} (r : result A) (k : A -> result B) : result B :=
  match r with
  | Ok a => k a
  | Throw e => Throw e
  end.

Notation "x <- r ;; k" := (bind r (fun x => k))
  (at level 61, r at next level, right associativity).

(** ** JavaScript strings and bytes *)

(** A string is its sequence of UTF-16 code units. *)
Definition jsstring : Type := list N.

(** The code units of an ASCII literal. *)
Fixpoint js (s : string) : jsstring :=
  match s with
  | EmptyString => []
  | String c r => N_of_ascii c :: js r
  end.

Definition ArrayBuffer : Type := list byte.

(** [ToUint8]: the value stored by an assignment into a [Uint8Array]. *)
Definition byte_of_Z (z : Z) : byte :=
  match Byte.of_N (Z.to_N (z mod 256)) with
  | Some b => b
  | None => x00
  end.

Definition Z_of_byte (b : byte) : Z := Z.of_N (Byte.to_N b).

(** [String.prototype.substr(start, length)] and [slice(a, b)] for the
    non-negative arguments the code passes. *)
Definition substr (s : jsstring) (start len : nat) : jsstring :=
  firstn len (skipn start s).

Definition str_slice (s : jsstring) (a b : nat) : jsstring :=
  firstn (b - a) (skipn a s).

(** [TypedArray.prototype.set(src, offset)]: overwrite [dst] from [offset];
    a [RangeError] when [src] does not fit. *)
Definition typed_set (dst : list byte) (src : list byte) (offset : nat)
  : result (list byte) :=
  if (length dst <? offset + length src)%nat then Throw RangeError
  else Ok (firstn offset dst ++ src ++ skipn (offset + length src) dst).

Module ArrayBufferUtils.

Definition METADATA_SIZE : nat := 24.
Definition TIMESTAMP_OFFSET : nat := 0.
Definition UUID_OFFSET : nat := 8.

(** *** Numbers and BigInts *)

(** The [timestamp] argument is a JavaScript number. [Integral z] is the
    number whose value is the integer [z] (so [z] is a binary64 value, see
    [toDouble]); [NonIntegral] stands for every other number: a fraction,
    [NaN] or an infinity. *)
Inductive number : Type :=
| Integral (z : Z)
| NonIntegral.

(** [BigInt(number)] *)
Definition BigInt (n : number) : result Z :=
  match n with
  | Integral z => Ok z
  | NonIntegral => Throw RangeError
  end.

(** [Number(bigint)] for a non-negative BigInt: the nearest binary64
    value (53 significant bits, ties to even). *)
Definition toDouble (z : Z) : Z :=
  let k := Z.log2 z - 52 in
  if k <=? 0 then z
  else
    let q := Z.shiftr z k in
    let r := Z.land z (Z.ones k) in
    let half := 2 ^ (k - 1) in
    let q' := if (half <? r) || ((r =? half) && Z.odd q) then q + 1 else q in
    Z.shiftl q' k.

(** *** DataView *)

(** The [n] big-endian bytes of [v]. *)
Fixpoint bigEndian (n : nat) (v : Z) : list byte :=
  match n with
  | O => []
  | S k => byte_of_Z (Z.shiftr v (8 * Z.of_nat k)) :: bigEndian k v
  end.

Definition fromBigEndian (bs : list byte) : Z :=
  fold_left (fun acc b => acc * 256 + Z_of_byte b) bs 0.

(** [view.setBigUint64(offset, v, false)] *)
Definition setBigUint64 (buf : list byte) (offset : nat) (v : Z)
  : result (list byte) :=
  typed_set buf (bigEndian 8 (v mod 2 ^ 64)) offset.

(** [view.getBigUint64(offset, false)] *)
Definition getBigUint64 (buf : list byte) (offset : nat) : result Z :=
  if (length buf <? offset + 8)%nat then Throw RangeError
  else Ok (fromBigEndian (firstn 8 (skipn offset buf))).

(** [new Uint8Array(buffer, byteOffset, length)] *)
Definition Uint8Array_view (buf : list byte) (offset len : nat)
  : result (list byte) :=
  if (length buf <? offset + len)%nat then Throw RangeError
  else Ok (firstn len (skipn offset buf)).

(** [new Uint8Array(buffer, byteOffset, length).set(src)]: the view checks
    its bounds when it is made, [set] checks that [src] fits the view, and
    the bytes land in the buffer the view is on. *)
Definition view_set (buf : list byte) (offset len : nat) (src : list byte)
  : result (list byte) :=
  view <- Uint8Array_view buf offset len ;;
  if (length view <? length src)%nat then Throw RangeError
  else typed_set buf src offset.

(** *** parseInt(s, 16) *)

(** [StrWhiteSpaceChar]: white space and line terminators. *)
Definition isStrWhiteSpaceChar (c : N) : bool :=
  ((9 <=? c) && (c <=? 13) || (c =? 32) || (c =? 160) || (c =? 5760)
   || (8192 <=? c) && (c <=? 8202) || (c =? 8232) || (c =? 8233)
   || (c =? 8239) || (c =? 8287) || (c =? 12288) || (c =? 65279))%N.

Definition hexValue (c : N) : option Z :=
  (if (48 <=? c) && (c <=? 57) then Some (Z.of_N (c - 48))
   else if (97 <=? c) && (c <=? 102) then Some (Z.of_N (c - 87))
   else if (65 <=? c) && (c <=? 70) then Some (Z.of_N (c - 55))
   else None)%N.

Definition isHexDigit (c : N) : bool :=
  match hexValue c with Some _ => true | None => false end.

Fixpoint trimStart (s : jsstring) : jsstring :=
  match s with
  | c :: r => if isStrWhiteSpaceChar c then trimStart r else s
  | [] => []
  end.

(** The value of the longest prefix of hexadecimal digits, with the number
    of digits read. *)
Fixpoint hexPrefix (s : jsstring) (acc : Z) (n : nat) : Z * nat :=
  match s with
  | c :: r =>
      match hexValue c with
      | Some d => hexPrefix r (16 * acc + d) (S n)
      | None => (acc, n)
      end
  | [] => (acc, n)
  end.

(** [parseInt(s, 16)]; [None] is [NaN]. The code applies it to strings of
    at most two code units, where the value is exact. *)
Definition parseInt16 (s : jsstring) : option Z :=
  let s1 := trimStart s in
  let '(sign, s2) :=
    match s1 with
    | c :: r => if (c =? 45)%N then (-1, r)
                else if (c =? 43)%N then (1, r) else (1, s1)
    | [] => (1, s1)
    end in
  let s3 :=
    match s2 with
    | c0 :: cx :: r =>
        if ((c0 =? 48) && ((cx =? 120) || (cx =? 88)))%N then r else s2
    | _ => s2
    end in
  match hexPrefix s3 0 O with
  | (_, O) => None
  | (v, S _) => Some (sign * v)
  end.

(** Storing [parseInt]'s result into a [Uint8Array]: [NaN] becomes 0. *)
Definition ToUint8 (v : option Z) : byte :=
  match v with
  | Some z => byte_of_Z z
  | None => x00
  end.

(** *** UUID conversion *)

Definition hyphen : N := 45.

Definition uuidToBytes (uuid : jsstring) : list byte :=
  let cleanUuid := filter (fun c => negb (c =? hyphen)%N) uuid in
  map (fun i => ToUint8 (parseInt16 (substr cleanUuid (i * 2) 2))) (seq 0 16).

Definition hexDigit (d : N) : N :=
  (if d <? 10 then 48 + d else 87 + d)%N.

(** [byte.toString(16)] *)
Definition toString16 (b : byte) : jsstring :=
  let n := Byte.to_N b in
  (if n <? 16 then [hexDigit n] else [hexDigit (n / 16); hexDigit (n mod 16)])%N.

(** [s.padStart(len, fill)] for a one-unit [fill]. *)
Definition padStart (s : jsstring) (len : nat) (fill : N) : jsstring :=
  repeat fill (len - length s) ++ s.

Definition bytesToUuid (bytes : list byte) : jsstring :=
  let hex := concat (map (fun b => padStart (toString16 b) 2 48%N) bytes) in
  str_slice hex 0 8 ++ [hyphen] ++ str_slice hex 8 12 ++ [hyphen]
    ++ str_slice hex 12 16 ++ [hyphen] ++ str_slice hex 16 20 ++ [hyphen]
    ++ str_slice hex 20 32.

(** *** addMetadata / extractMetadata *)

Definition addMetadata (buffer : ArrayBuffer) (timestamp : number)
    (uuid : jsstring) : result ArrayBuffer :=
  let metadata := repeat x00 METADATA_SIZE in
  t <- BigInt timestamp ;;
  metadata <- setBigUint64 metadata TIMESTAMP_OFFSET t ;;
  let uuidBytes := uuidToBytes uuid in
  metadata <- view_set metadata UUID_OFFSET 16 uuidBytes ;;
  let combined := repeat x00 (length buffer + METADATA_SIZE) in
  combined <- typed_set combined metadata 0 ;;
  combined <- typed_set combined buffer METADATA_SIZE ;;
  Ok combined.

Record Extracted : Type := mkExtracted {
  timestamp : Z;
  uuid : jsstring;
  data : ArrayBuffer
}.

Definition extractMetadata (buffer : ArrayBuffer) : result Extracted :=
  t <- getBigUint64 buffer TIMESTAMP_OFFSET ;;
  let timestamp := toDouble t in
  uuidBytes <- Uint8Array_view buffer UUID_OFFSET 16 ;;
  let uuid := bytesToUuid uuidBytes in
  let data := skipn METADATA_SIZE buffer in
  Ok (mkExtracted timestamp uuid data).

End ArrayBufferUtils.

(** ** Numbers of the optimizer and the monitor *)

(** [Math.max(a, b)] and [Math.min(a, b)]: [NaN] when an argument is [NaN],
    and [+0] counts as larger than [-0]. *)
Definition Math_max (a b : float) : float :=
  if is_nan a || is_nan b then nan
  else if (a <? b)%float then b
  else if (b <? a)%float then a
  else if get_sign a then b else a.

Definition Math_min (a b : float) : float :=
  if is_nan a || is_nan b then nan
  else if (a <? b)%float then a
  else if (b <? a)%float then b
  else if get_sign a then a else b.

(** An array length, or a small integer, as a number. *)
Definition float_of_Z (z : Z) : float :=
  if z <? 0 then (- of_uint63 (Uint63.of_Z (- z)))%float
  else of_uint63 (Uint63.of_Z z).

Definition float_of_nat (n : nat) : float := float_of_Z (Z.of_nat n).

(** [Array.prototype.slice(start, end)]: a negative index counts from the
    end, and every index is clamped to the array. *)
Definition relativeIndex (len : nat) (i : Z) : nat :=
  if i <? 0 then Z.to_nat (Z.max (Z.of_nat len + i) 0)
  else Nat.min (Z.to_nat i) len.

Definition slice {A : Type} (l : list A) (start : Z) (end_ : option Z) : list A :=
  let len := length l in
  let k := relativeIndex len start in
  let final := match end_ with
               | Some e => relativeIndex len e
               | None => len
               end in
  firstn (final - k) (skipn k l).

(** [Array.prototype.push] and [shift] *)
Definition push {A : Type} (l : list A) (x : A) : list A := l ++ [x].
Definition shift {A : Type} (l : list A) : list A := tl l.

Module FrameRateOptimizer.

#[local] Set Warnings "-inexact-float".

(** The fields of the class; the set of sent frame ids, which only
    [trackSentFrame] touches, is left out. Counters are exact integers. *)
Record state : Type := mkState {
  frameHistory : list float;
  maxHistorySize : nat;
  lastFrameTime : float;
  frameCount : N;
  lastFpsUpdate : float;
  droppedFramesCount : N;
  sentFrameTimes : list float;
  targetFps : float
}.

(** [new FrameRateOptimizer(targetFps)]; the parameter defaults to 10. *)
Definition new (targetFps : float) : state :=
  mkState [] 10 0%float 0 0%float 0 [] targetFps.

Definition default : state := new 10%float.

(** [shouldDropFrame()], with the reading [now] of [performance.now()]. *)
Definition shouldDropFrame (s : state) (now : float) : bool * state :=
  let timeSinceLastFrame := (now - lastFrameTime s)%float in
  let minFrameInterval := (1000 / targetFps s)%float in
  if (timeSinceLastFrame <? minFrameInterval)%float then
    (true,
     mkState (frameHistory s) (maxHistorySize s) (lastFrameTime s)
       (frameCount s) (lastFpsUpdate s) (droppedFramesCount s + 1)
       (sentFrameTimes s) (targetFps s))
  else
    let history := push (frameHistory s) now in
    let history :=
      if (maxHistorySize s <? length history)%nat then shift history
      else history in
    (false,
     mkState history (maxHistorySize s) now (frameCount s + 1)
       (lastFpsUpdate s) (droppedFramesCount s) (sentFrameTimes s)
       (targetFps s)).

Definition getDroppedFramesCount (s : state) : N := droppedFramesCount s.

(** [adjustFrameRate(currentFps, latency)] *)
Definition adjustFrameRate (s : state) (currentFps latency : float)
  : float * state :=
  let newFrameRate :=
    if ((currentFps <? targetFps s * 0.4) || (300 <? latency))%float
    then Math_max 5 (targetFps s - 1)
    else if ((targetFps s * 1.5 <? currentFps) && (latency <? 50))%float
    then Math_min 15 (targetFps s + 1)
    else targetFps s in
  (newFrameRate,
   mkState (frameHistory s) (maxHistorySize s) (lastFrameTime s)
     (frameCount s) (lastFpsUpdate s) (droppedFramesCount s)
     (sentFrameTimes s) newFrameRate).

(** The optimizer after a sequence of [adjustFrameRate] calls, each with
    its measured fps and latency. *)
Definition adjustAll (s : state) (calls : list (float * float)) : state :=
  fold_left (fun st c => snd (adjustFrameRate st (fst c) (snd c))) calls s.

End FrameRateOptimizer.

Module LatencyMonitor.

Inductive trend : Type := improving | stable | degrading.

Record state : Type := mkState {
  latencyHistory : list float;
  maxHistorySize : nat
}.

Definition new : state := mkState [] 20.

(** [addLatency(latency)] *)
Definition addLatency (s : state) (latency : float) : state :=
  if ((0 <? latency) && (latency <? 10000))%float then
    let history := push (latencyHistory s) latency in
    let history :=
      if (maxHistorySize s <? length history)%nat then shift history
      else history in
    mkState history (maxHistorySize s)
  else s.

Definition sum (l : list float) : float :=
  fold_left (fun acc latency => (acc + latency)%float) l 0%float.

(** [getLatencyTrend()] *)
Definition getLatencyTrend (s : state) : trend :=
  if (length (latencyHistory s) <? 5)%nat then stable
  else
    let recent := slice (latencyHistory s) (-5) None in
    let older := slice (latencyHistory s) (-10) (Some (-5)) in
    if (length older =? 0)%nat then stable
    else
      let recentAvg := (sum recent / float_of_nat (length recent))%float in
      let olderAvg := (sum older / float_of_nat (length older))%float in
      let difference := (recentAvg - olderAvg)%float in
      if (difference <? -10)%float then improving
      else if (10 <? difference)%float then degrading
      else stable.

(** The monitor after feeding it the samples in order. *)
Definition feed (samples : list float) : state :=
  fold_left addLatency samples new.

End LatencyMonitor.

Module UseWebSocket.

Inductive ReadyState : Type := CONNECTING | OPEN | CLOSING | CLOSED.

Inductive ConnectionStatus : Type :=
  connecting | connected | disconnected | reconnecting.

(** What a caller hands to [sendMessage]: an [ArrayBuffer], or an object
    (kept as its JSON text). *)
Inductive message : Type :=
| BinaryData (buffer : ArrayBuffer)
| ObjectData (json : jsstring).

(** What [ws.send] is given: the buffer as it is, or the object with the
    [timestamp] field that [sendMessage] adds. *)
Inductive frame : Type :=
| BinaryFrame (buffer : ArrayBuffer)
| JsonFrame (json : jsstring) (timestamp : Z).

(** The hook's React state and refs, the [readyState] of the socket that
    [wsRef] holds, the frames given to [ws.send] (oldest first) and the
    [console.warn] lines. *)
Record state : Type := mkState {
  isConnected : bool;
  error : option string;
  messageQueueSize : nat;
  connectionStatus : ConnectionStatus;
  wsRef : option ReadyState;
  messageQueue : list message;
  reconnectTimeoutRef : option Z;
  heartbeatRef : bool;
  reconnectAttempts : nat;
  sent : list frame;
  warnings : list string
}.

Definition maxReconnectAttempts : nat := 5.

(** The hook at its first render. *)
Definition initial : state :=
  mkState false None 0 disconnected None [] None false 0 [] [].

Definition set_queue (s : state) (q : list message) : state :=
  mkState (isConnected s) (error s) (messageQueueSize s) (connectionStatus s)
    (wsRef s) q (reconnectTimeoutRef s) (heartbeatRef s)
    (reconnectAttempts s) (sent s) (warnings s).

Definition setMessageQueueSize (s : state) (n : nat) : state :=
  mkState (isConnected s) (error s) n (connectionStatus s)
    (wsRef s) (messageQueue s) (reconnectTimeoutRef s) (heartbeatRef s)
    (reconnectAttempts s) (sent s) (warnings s).

Definition ws_send (s : state) (f : frame) : state :=
  mkState (isConnected s) (error s) (messageQueueSize s) (connectionStatus s)
    (wsRef s) (messageQueue s) (reconnectTimeoutRef s) (heartbeatRef s)
    (reconnectAttempts s) (push (sent s) f) (warnings s).

Definition console_warn (s : state) (line : string) : state :=
  mkState (isConnected s) (error s) (messageQueueSize s) (connectionStatus s)
    (wsRef s) (messageQueue s) (reconnectTimeoutRef s) (heartbeatRef s)
    (reconnectAttempts s) (sent s) (push (warnings s) line).

(** [wsRef.current && wsRef.current.readyState === WebSocket.OPEN] *)
Definition socketOpen (s : state) : bool :=
  match wsRef s with
  | Some OPEN => true
  | _ => false
  end.

(** [connect()]: close the socket held so far and hold a new one, still
    connecting. The model follows the socket in [wsRef]; [new WebSocket] is
    taken not to throw, so the [catch] branch is left out. *)
Definition connect (s : state) : state :=
  mkState (isConnected s) (error s) (messageQueueSize s) connecting
    (Some CONNECTING) (messageQueue s) (reconnectTimeoutRef s)
    (heartbeatRef s) (reconnectAttempts s) (sent s) (warnings s).

(** The browser moves the socket to another [readyState] before it calls
    the handler of the event. *)
Definition set_readyState (s : state) (r : ReadyState) : state :=
  mkState (isConnected s) (error s) (messageQueueSize s) (connectionStatus s)
    (Some r) (messageQueue s) (reconnectTimeoutRef s) (heartbeatRef s)
    (reconnectAttempts s) (sent s) (warnings s).

(** [ws.onopen]; it also starts the heartbeat interval. *)
Definition onopen (s : state) : state :=
  mkState true None 0 connected (wsRef s) [] (reconnectTimeoutRef s)
    true 0 (sent s) (warnings s).

(** [ws.onclose]; it also clears the heartbeat interval. *)
Definition onclose (s : state) : state :=
  mkState false (error s) (messageQueueSize s) disconnected (wsRef s)
    (messageQueue s) (reconnectTimeoutRef s) false (reconnectAttempts s)
    (sent s) (warnings s).

(** [ws.onerror] *)
Definition onerror (s : state) : state :=
  mkState (isConnected s) (Some "WebSocket error occurred"%string)
    (messageQueueSize s) disconnected (wsRef s) (messageQueue s)
    (reconnectTimeoutRef s) (heartbeatRef s) (reconnectAttempts s)
    (sent s) (warnings s).

(** [sendMessage(data)], with the reading [now] of [Date.now()]. *)
Definition sendMessage (now : Z) (s : state) (data : message) : state :=
  if socketOpen s then
    match data with
    | BinaryData buffer => ws_send s (BinaryFrame buffer)
    | ObjectData json => ws_send s (JsonFrame json now)
    end
  else
    let s := set_queue s (push (messageQueue s) data) in
    let s := setMessageQueueSize s (length (messageQueue s)) in
    if (50 <? length (messageQueue s))%nat then
      console_warn (set_queue s (shift (messageQueue s)))
        "Message queue limit reached, dropping oldest message"
    else s.

(** The effect "Process queued messages when connected". *)
Definition flushEffect (now : Z) (s : state) : state :=
  if isConnected s && (0 <? length (messageQueue s))%nat then
    let queuedMessages := messageQueue s in
    let s := setMessageQueueSize (set_queue s []) 0 in
    fold_left (sendMessage now) queuedMessages s
  else s.

(** [Math.min(1000 * Math.pow(2, attempts), 30000)]; on these arguments
    the number arithmetic is exact, or overflows to the ceiling. *)
Definition backoffTime (attempts : nat) : Z :=
  Z.min (1000 * 2 ^ Z.of_nat attempts) 30000.

(** The effect "Reconnect on connection loss with exponential backoff":
    it arms the timer, or gives up. *)
Definition reconnectEffect (s : state) : state :=
  if negb (isConnected s)
     && match error s with None => true | Some _ => false end
     && (reconnectAttempts s <? maxReconnectAttempts)%nat
  then
    mkState (isConnected s) (error s) (messageQueueSize s) reconnecting
      (wsRef s) (messageQueue s) (Some (backoffTime (reconnectAttempts s)))
      (heartbeatRef s) (reconnectAttempts s) (sent s) (warnings s)
  else if (maxReconnectAttempts <=? reconnectAttempts s)%nat then
    mkState (isConnected s) (Some "Max reconnection attempts reached"%string)
      (messageQueueSize s) disconnected (wsRef s) (messageQueue s)
      (reconnectTimeoutRef s) (heartbeatRef s) (reconnectAttempts s)
      (sent s) (warnings s)
  else s.

(** The timer's callback: [reconnectAttempts.current++; connect()]. *)
Definition reconnectTimeout (s : state) : state :=
  let s :=
    mkState (isConnected s) (error s) (messageQueueSize s)
      (connectionStatus s) (wsRef s) (messageQueue s)
      (reconnectTimeoutRef s) (heartbeatRef s) (S (reconnectAttempts s))
      (sent s) (warnings s) in
  connect s.

(** The connection becomes [Connected]: the socket opens, [onopen] runs,
    then, on the render that follows, the flush effect. *)
Definition opened (now : Z) (s : state) : state :=
  flushEffect now (onopen (set_readyState s OPEN)).

End UseWebSocket.

(** ** The rest of [ArrayBufferUtils] *)

Module UuidUtils.
Import ArrayBufferUtils.

(** [a === b] on strings. *)
Fixpoint strictEq (a b : jsstring) : bool :=
  match a, b with
  | [], [] => true
  | x :: a', y :: b' => (x =? y)%N && strictEq a' b'
  | _, _ => false
  end.

(** [v.toString(16)] for a digit value. *)
Definition digitToString (v : N) : jsstring :=
  (if v <? 16 then [hexDigit v] else [hexDigit (v / 16); hexDigit (v mod 16)])%N.

(** [template.replace(/[xy]/g, callback)]: every [x] and [y] is replaced,
    left to right, by what the callback returns. [random k] is the value of
    [Math.random() * 16 | 0] at the k-th call of the callback. *)
Fixpoint replaceXY (template : jsstring) (random : nat -> N) (k : nat)
  : jsstring :=
  match template with
  | [] => []
  | c :: rest =>
      if ((c =? 120) || (c =? 121))%N then
        let r := random k in
        let v := if (c =? 120)%N then r else N.lor (N.land r 3) 8 in
        digitToString v ++ replaceXY rest random (S k)
      else c :: replaceXY rest random k
  end.

(** [generateUuid()] *)
Definition generateUuid (random : nat -> N) : jsstring :=
  replaceXY (js "xxxxxxxx-xxxx-4xxx-yxxx-xxxxxxxxxxxx") random 0.

(** [testMetadataHandling()], with the reading [now] of [Date.now()] (an
    integer) and the random draws of [generateUuid]; an exception is
    caught and gives [false]. *)
Definition testMetadataHandling (now : Z) (random : nat -> N) : bool :=
  let originalData := repeat x00 100 in
  let timestamp := Integral now in
  let testUuid := generateUuid random in
  match
    (bufferWithMetadata <- addMetadata originalData timestamp testUuid ;;
     extractMetadata bufferWithMetadata)
  with
  | Ok extracted =>
      (ArrayBufferUtils.timestamp extracted =? now)
      && strictEq (uuid extracted) testUuid
      && (length (data extracted) =? length originalData)%nat
  | Throw _ => false
  end.

End UuidUtils.

(** ** The rest of [LatencyMonitor] *)

Module LatencyAverage.
Import LatencyMonitor.

(** [getAverageLatency()] *)
Definition getAverageLatency (s : state) : float :=
  if (length (latencyHistory s) =? 0)%nat then 0%float
  else
    let validLatencies :=
      filter (fun l => ((0 <? l) && (l <? 10000))%float) (latencyHistory s) in
    if (length validLatencies =? 0)%nat then 0%float
    else (sum validLatencies / float_of_nat (length validLatencies))%float.

End LatencyAverage.

(** ** The rest of [FrameRateOptimizer] *)

Module FpsMeasurement.
Import FrameRateOptimizer.

(** The optimizer together with its [sentFrames] set: a [Set] keeps its
    elements in insertion order, without duplicates. *)
Record tracker : Type := mkTracker {
  optimizer : state;
  sentFrames : list jsstring
}.

(** [set.add(uuid)] *)
Definition set_add (set : list jsstring) (uuid : jsstring) : list jsstring :=
  if existsb (UuidUtils.strictEq uuid) set then set else push set uuid.

Definition set_sentFrameTimes (s : state) (times : list float) : state :=
  mkState (frameHistory s) (maxHistorySize s) (lastFrameTime s)
    (frameCount s) (lastFpsUpdate s) (droppedFramesCount s) times
    (targetFps s).

Definition set_lastFpsUpdate (s : state) (t : float) : state :=
  mkState (frameHistory s) (maxHistorySize s) (lastFrameTime s)
    (frameCount s) t (droppedFramesCount s) (sentFrameTimes s)
    (targetFps s).

(** [trackSentFrame(uuid)], with the reading [now] of [performance.now()]. *)
Definition trackSentFrame (t : tracker) (uuid : jsstring) (now : float)
  : tracker :=
  let frames := set_add (sentFrames t) uuid in
  let times := push (sentFrameTimes (optimizer t)) now in
  let frames :=
    if (100 <? length frames)%nat then slice frames (-50) None else frames in
  let times :=
    if (20 <? length times)%nat then slice times (-10) None else times in
  mkTracker (set_sentFrameTimes (optimizer t) times) frames.

(** [resetDroppedFramesCount()] *)
Definition resetDroppedFramesCount (s : state) : state :=
  mkState (frameHistory s) (maxHistorySize s) (lastFrameTime s)
    (frameCount s) (lastFpsUpdate s) 0 [] (targetFps s).

(** [_calculateFps()]; reading an array past its end gives [undefined],
    a [NaN] in the subtraction. *)
Definition _calculateFps (s : state) : float :=
  if (length (sentFrameTimes s) <? 2)%nat then 0%float
  else
    let recentSentFrames := slice (sentFrameTimes s) (-5) None in
    if (length recentSentFrames <? 2)%nat then 0%float
    else
      let timeSpan :=
        (nth (length recentSentFrames - 1) recentSentFrames nan
         - nth 0 recentSentFrames nan)%float in
      if (timeSpan =? 0)%float then 0%float
      else ((float_of_nat (length recentSentFrames) - 1) * 1000 / timeSpan)%float.

(** [getCurrentFps()], with the reading [now] of [performance.now()]. *)
Definition getCurrentFps (s : state) (now : float) : float * state :=
  if (now - lastFpsUpdate s <? 500)%float then (_calculateFps s, s)
  else
    let s := set_lastFpsUpdate s now in
    (_calculateFps s, s).

(** [forceFpsUpdate()] *)
Definition forceFpsUpdate (s : state) (now : float) : float * state :=
  getCurrentFps (set_lastFpsUpdate s 0) now.

(** [getFpsDebugInfo()]: the fields [sentFrames], [timeSpan] and [fps]. *)
Definition getFpsDebugInfo (s : state) : nat * float * float :=
  let fps := _calculateFps s in
  let sentFrames := length (sentFrameTimes s) in
  let timeSpan :=
    if (2 <=? sentFrames)%nat
    then (nth (sentFrames - 1) (sentFrameTimes s) nan
          - nth 0 (sentFrameTimes s) nan)%float
    else 0%float in
  (sentFrames, timeSpan, fps).

(** The tracker after the sends, each with its frame id and send time. *)
Definition trackAll (t : tracker) (sends : list (jsstring * float)) : tracker :=
  fold_left (fun t e => trackSentFrame t (fst e) (snd e)) sends t.

(** The optimizer after the admission attempts at the given times. *)
Definition attemptAll (s : state) (attempts : list float) : state :=
  fold_left (fun s now => snd (shouldDropFrame s now)) attempts s.

End FpsMeasurement.

(** ** The caller: [PoseDetector] (components/PoseDetector.tsx) *)

Module PoseDetector.

(** What the component keeps for the frame rate: the optimizer and the
    monitor held in refs, the [frameRate] state and the [fps] and
    [droppedFrames] fields of [performanceStats]. *)
Record detector : Type := mkDetector {
  frameRateOptimizer : FpsMeasurement.tracker;
  latencyMonitor : LatencyMonitor.state;
  frameRate : float;
  statsFps : float;
  statsDroppedFrames : N
}.

(** The component at its first render: [useState(10)],
    [new FrameRateOptimizer(frameRate)], [new LatencyMonitor()]. *)
Definition initial : detector :=
  mkDetector (FpsMeasurement.mkTracker (FrameRateOptimizer.new 10) [])
    LatencyMonitor.new 10 0 0.

(** [updateFrameRate()], with the reading [now] of [performance.now()] and
    the [averageLatency] the hook reports. *)
Definition updateFrameRate (d : detector) (now averageLatency : float)
  : detector :=
  let ids := FpsMeasurement.sentFrames (frameRateOptimizer d) in
  let (currentFps, optimizer) :=
    FpsMeasurement.getCurrentFps
      (FpsMeasurement.optimizer (frameRateOptimizer d)) now in
  let droppedFrames := FrameRateOptimizer.getDroppedFramesCount optimizer in
  let monitor := LatencyMonitor.addLatency (latencyMonitor d) averageLatency in
  if ((currentFps <? 5) || (500 <? averageLatency))%float then
    let (newFrameRate, optimizer) :=
      FrameRateOptimizer.adjustFrameRate optimizer currentFps averageLatency in
    mkDetector (FpsMeasurement.mkTracker optimizer ids) monitor newFrameRate
      currentFps droppedFrames
  else
    mkDetector (FpsMeasurement.mkTracker optimizer ids) monitor (frameRate d)
      currentFps droppedFrames.

(** The component after the timer ticks, each with its clock reading and
    the latency reported then. *)
Definition updateAll (d : detector) (ticks : list (float * float)) : detector :=
  fold_left (fun d e => updateFrameRate d (fst e) (snd e)) ticks d.

(** What the component does with the optimizer: a tick of
    [updateFrameRate]; the admission check of [sendFrame]; the tracking of
    a frame that [sendFrame] hands to the hook; the reset in
    [startStream]. *)
Inductive action : Type :=
| Tick (now averageLatency : float)
| Capture (now : float)
| Track (uuid : jsstring) (now : float)
| StartStream.

Definition act (d : detector) (a : action) : detector :=
  match a with
  | Tick now averageLatency => updateFrameRate d now averageLatency
  | Capture now =>
      let t := frameRateOptimizer d in
      let optimizer :=
        snd (FrameRateOptimizer.shouldDropFrame (FpsMeasurement.optimizer t)
               now) in
      mkDetector (FpsMeasurement.mkTracker optimizer (FpsMeasurement.sentFrames t))
        (latencyMonitor d) (frameRate d) (statsFps d) (statsDroppedFrames d)
  | Track uuid now =>
      mkDetector (FpsMeasurement.trackSentFrame (frameRateOptimizer d) uuid now)
        (latencyMonitor d) (frameRate d) (statsFps d) (statsDroppedFrames d)
  | StartStream =>
      let t := frameRateOptimizer d in
      mkDetector
        (FpsMeasurement.mkTracker
           (FpsMeasurement.resetDroppedFramesCount (FpsMeasurement.optimizer t))
           (FpsMeasurement.sentFrames t))
        (latencyMonitor d) (frameRate d) 0 0
  end.

Definition actAll (d : detector) (actions : list action) : detector :=
  fold_left act actions d.

End PoseDetector.

(** ** The rest of [useWebSocket] *)

Module Connection.
Import UseWebSocket.

(** [disconnect()] *)
Definition disconnect (s : state) : state :=
  mkState (isConnected s) (error s) (messageQueueSize s) (connectionStatus s)
    None (messageQueue s) None false (reconnectAttempts s) (sent s)
    (warnings s).

(** The JSON text of [{ type: 'heartbeat' }]; 34 is the double quote. *)
Definition heartbeatObject : jsstring :=
  js "{" ++ [34%N] ++ js "type" ++ [34%N] ++ js ":" ++ [34%N]
    ++ js "heartbeat" ++ [34%N] ++ js "}".

(** The callback of the heartbeat interval that [onopen] starts, while
    [heartbeatRef] holds it: it sends [{ type: 'heartbeat', timestamp }]
    when its socket is open. *)
Definition heartbeat (now : Z) (s : state) : state :=
  if heartbeatRef s && socketOpen s
  then ws_send s (JsonFrame heartbeatObject now)
  else s.

(** What can happen to the hook: a call of [connect] or [disconnect], a
    socket event (the browser sets the [readyState], then calls the
    handler; a socket is [CLOSING] before it is closed; a socket that
    [connect] has replaced still reports its close to the same handler), a
    call of [sendMessage], a tick of the heartbeat
    interval, a run of the flush or of the reconnect effect, the reconnect
    timer firing. *)
Inductive event : Type :=
| Connect
| Disconnect
| SocketOpens
| SocketClosing
| SocketCloses
| OldSocketCloses
| SocketFails
| Send (now : Z) (data : message)
| Heartbeat (now : Z)
| FlushEffect (now : Z)
| ReconnectEffect
| ReconnectTimer.

Definition step (s : state) (e : event) : state :=
  match e with
  | Connect => connect s
  | Disconnect => disconnect s
  | SocketOpens => onopen (set_readyState s OPEN)
  | SocketClosing => set_readyState s CLOSING
  | SocketCloses => onclose (set_readyState s CLOSED)
  | OldSocketCloses => onclose s
  | SocketFails => onerror s
  | Send now data => sendMessage now s data
  | Heartbeat now => heartbeat now s
  | FlushEffect now => flushEffect now s
  | ReconnectEffect => reconnectEffect s
  | ReconnectTimer => reconnectTimeout s
  end.

Definition run (s : state) (events : list event) : state :=
  fold_left step events s.

(** React runs an effect after a render in which one of its dependencies
    differs from the render before. The dependencies of the reconnect
    effect are [isConnected], [error], [connect] and [messageQueueSize];
    [connect] is the same callback in every render. *)
Definition reconnectDepsChanged (before after : state) : bool :=
  negb (Bool.eqb (isConnected before) (isConnected after))
  || negb match error before, error after with
          | None, None => true
          | Some a, Some b => String.eqb a b
          | _, _ => false
          end
  || negb (messageQueueSize before =? messageQueueSize after)%nat.

(** The hook after the render that follows a handler which took it from
    [before] to [after]: the reconnect effect has run if one of its
    dependencies has changed. (What the effect sets does not make it run
    to another result: see [reconnectEffect_idempotent].) *)
Definition afterRender (before after : state) : state :=
  if reconnectDepsChanged before after then reconnectEffect after else after.

End Connection.

Module Inbound.
Import UseWebSocket.

(** What [JSON.parse(event.data)] gives, as far as [onmessage] looks at it:
    a [SyntaxError]; a value whose property read throws ([null]); or a
    value with its [type] property when that is a string, and its
    [timestamp] property when that is truthy, as the number it converts
    to. *)
Inductive parsed : Type :=
| NotJson
| JsonNull
| JsonValue (type_ : option jsstring) (timestamp : option float).

(** The state [onmessage] writes. *)
Record inbox : Type := mkInbox {
  hook : state;
  lastMessage : option jsstring;
  latencyHistory : list float;
  averageLatency : float
}.

Definition initial : inbox := mkInbox UseWebSocket.initial None [] 0.

Definition setLastMessage (b : inbox) (data : jsstring) : inbox :=
  mkInbox (hook b) (Some data) (latencyHistory b) (averageLatency b).

Section WithParser.

(** [JSON.parse], as far as the handler reads its result. *)
Variable parse : jsstring -> parsed.

(** The JSON text of [{ type: 'pong' }]; 34 is the double quote. *)
Definition pongObject : jsstring :=
  js "{" ++ [34%N] ++ js "type" ++ [34%N] ++ js ":" ++ [34%N] ++ js "pong"
    ++ [34%N] ++ js "}".

(** [ws.onmessage] for a text message [data], with the reading [now] of
    [Date.now()]. A message arrives on an open socket, so the pong,
    [{ type: 'pong', timestamp: now }], is sent. *)
Definition onmessage (b : inbox) (data : jsstring) (now : Z) : inbox :=
  match parse data with
  | NotJson => setLastMessage b data
  | JsonNull => setLastMessage b data
  | JsonValue type_ timestamp =>
      if match type_ with
         | Some t => UuidUtils.strictEq t (js "ping")
         | None => false
         end
      then mkInbox (ws_send (hook b) (JsonFrame pongObject now))
             (lastMessage b) (latencyHistory b) (averageLatency b)
      else if match type_ with
              | Some t => UuidUtils.strictEq t (js "heartbeat_response")
              | None => false
              end
      then b
      else
        let b := setLastMessage b data in
        match timestamp with
        | None => b
        | Some ts =>
            let latency := (float_of_Z now - ts)%float in
            if ((0 <? latency) && (latency <? 10000))%float then
              let history := push (latencyHistory b) latency in
              let history :=
                if (10 <? length history)%nat then shift history else history in
              let avgLatency :=
                (fold_left (fun a x => (a + x)%float) history 0
                 / float_of_nat (length history))%float in
              mkInbox (hook b) (lastMessage b) history avgLatency
            else b
        end
  end.

(** The inbox after the messages, each with its arrival time. *)
Definition receiveAll (b : inbox) (messages : list (jsstring * Z)) : inbox :=
  fold_left (fun b m => onmessage b (fst m) (snd m)) messages b.

End WithParser.

End Inbound.

(** ** The coordinate transformer (utils/coordinateTransform.ts) *)

Module CameraPoint.

Record t : Type := mk {
  x : float;
  y : float;
  confidence : float;
  name : jsstring
}.

End CameraPoint.

Module MuseumPoint.

Record t : Type := mk {
  x : float;
  y : float;
  z : float;
  confidence : float;
  name : jsstring
}.

End MuseumPoint.

Module MuseumConfig.

Record t : Type := mk {
  width : float;
  length : float;
  height : float;
  cameraWidth : float;
  cameraHeight : float
}.

End MuseumConfig.

(** [THREE.Vector3], its three coordinates. *)
Module Vector3.

Record t : Type := mk {
  x : float;
  y : float;
  z : float
}.

End Vector3.

(** A [Map] keyed by strings, as far as the transformer uses it: built from
    entries, a later entry replacing an earlier one with the same key, and
    read with [get]. *)
Module StringMap.

Definition t (V : Type) : Type := list (jsstring * V).

Fixpoint set {V : Type} (m : t V) (key : jsstring) (value : V) : t V :=
  match m with
  | [] => [(key, value)]
  | (k, v) :: rest =>
      if UuidUtils.strictEq k key then (k, value) :: rest
      else (k, v) :: set rest key value
  end.

Fixpoint get {V : Type} (m : t V) (key : jsstring) : option V :=
  match m with
  | [] => None
  | (k, v) :: rest => if UuidUtils.strictEq k key then Some v else get rest key
  end.

(** [new Map(entries)] *)
Definition new {V : Type} (entries : list (jsstring * V)) : t V :=
  fold_left (fun m e => set m (fst e) (snd e)) entries [].

End StringMap.

Module CoordinateTransformer.

#[local] Set Warnings "-inexact-float".

Definition Z_SENSITIVITY : float := 0.5.
Definition CAMERA_HEIGHT_3D : float := 5.0.
Definition ASSUMED_HIP_HEIGHT_3D : float := 3.6.
Definition MIN_Z : float := -6.
Definition MAX_Z : float := 7.

(** [Math.PI] *)
Definition Math_PI : float := 0x1.921fb54442d18p+1.

Record t : Type := mk {
  config : MuseumConfig.t;
  fovY : float
}.

(** The value of a pose: its centre on the floor and its depth. *)
Record PoseCenter : Type := mkPoseCenter {
  center : Vector3.t;
  z : float
}.

Record Connection : Type := mkConnection {
  start : MuseumPoint.t;
  end_ : MuseumPoint.t
}.

(** The skeleton, as pairs of keypoint names. *)
Definition connections : list (jsstring * jsstring) :=
  [ (js "nose", js "left_eye"); (js "nose", js "right_eye");
    (js "left_eye", js "left_ear"); (js "right_eye", js "right_ear");
    (js "left_shoulder", js "right_shoulder");
    (js "left_shoulder", js "left_hip"); (js "right_shoulder", js "right_hip");
    (js "left_hip", js "right_hip");
    (js "left_shoulder", js "left_elbow"); (js "left_elbow", js "left_wrist");
    (js "right_shoulder", js "right_elbow");
    (js "right_elbow", js "right_wrist");
    (js "left_hip", js "left_knee"); (js "left_knee", js "left_ankle");
    (js "right_hip", js "right_knee"); (js "right_knee", js "right_ankle") ].

(** [createSkeletonConnections(keypoints)] *)
Definition createSkeletonConnections (keypoints : list MuseumPoint.t)
    : list Connection :=
  let keypointMap :=
    StringMap.new (map (fun kp => (MuseumPoint.name kp, kp)) keypoints) in
  fold_left
    (fun skeletonConnections c =>
       let startPoint := StringMap.get keypointMap (fst c) in
       let endPoint := StringMap.get keypointMap (snd c) in
       match startPoint, endPoint with
       | Some startPoint, Some endPoint =>
           if ((0.3 <? MuseumPoint.confidence startPoint)
               && (0.3 <? MuseumPoint.confidence endPoint))%float
           then push skeletonConnections (mkConnection startPoint endPoint)
           else skeletonConnections
       | _, _ => skeletonConnections
       end)
    connections [].

(** [getDefaultConfig()] *)
Definition getDefaultConfig : MuseumConfig.t :=
  MuseumConfig.mk 16 24 6 640 480.

(** [Math.tan] and [Math.atan] are approximations that the language leaves
    to the implementation; the transformer is modelled over any two
    functions on numbers. *)
Section WithMath.

Variables Math_tan Math_atan : float -> float.

(** [new CoordinateTransformer(config, fovDegrees)] *)
Definition new (config : MuseumConfig.t) (fovDegrees : float) : t :=
  let aspect :=
    (MuseumConfig.cameraWidth config / MuseumConfig.cameraHeight config)%float in
  mk config
    (2 * Math_atan (Math_tan (fovDegrees * Math_PI / 180 / 2) / aspect))%float.

(** [transformKeypoint(keypoint, poseZ)] *)
Definition transformKeypoint (this : t) (keypoint : CameraPoint.t)
    (poseZ : float) : MuseumPoint.t :=
  let cameraHeight := MuseumConfig.cameraHeight (config this) in
  let cameraWidth := MuseumConfig.cameraWidth (config this) in
  let y_from_center := (cameraHeight / 2 - CameraPoint.y keypoint)%float in
  let x_from_center := (CameraPoint.x keypoint - cameraWidth / 2)%float in
  let worldY :=
    (y_from_center / (cameraHeight / 2) * Math_tan (fovY this / 2) * abs poseZ
     + CAMERA_HEIGHT_3D)%float in
  let worldX :=
    (x_from_center / (cameraWidth / 2)
     * Math_tan (fovY this * cameraWidth / cameraHeight / 2) * abs poseZ)%float in
  MuseumPoint.mk worldX worldY poseZ (CameraPoint.confidence keypoint)
    (CameraPoint.name keypoint).

(** [keypoints.find(kp => kp.name === name)] *)
Definition findByName (keypoints : list CameraPoint.t) (name : jsstring)
    : option CameraPoint.t :=
  find (fun kp => UuidUtils.strictEq (CameraPoint.name kp) name) keypoints.

(** [a && b && a.confidence > 0.3 && b.confidence > 0.3] *)
Definition bothConfident (a b : option CameraPoint.t)
    : option (CameraPoint.t * CameraPoint.t) :=
  match a, b with
  | Some a, Some b =>
      if ((0.3 <? CameraPoint.confidence a)
          && (0.3 <? CameraPoint.confidence b))%float
      then Some (a, b) else None
  | _, _ => None
  end.

(** [getPoseCenterAndZ(detection)] *)
Definition getPoseCenterAndZ (this : t) (keypoints : list CameraPoint.t)
    : PoseCenter :=
  let cameraHeight := MuseumConfig.cameraHeight (config this) in
  let cameraWidth := MuseumConfig.cameraWidth (config this) in
  let leftAnkle := findByName keypoints (js "left_ankle") in
  let rightAnkle := findByName keypoints (js "right_ankle") in
  let leftHip := findByName keypoints (js "left_hip") in
  let rightHip := findByName keypoints (js "right_hip") in
  let z := (-8)%float in
  let feetY := (-1)%float in
  let hipCenterX := (cameraWidth / 2)%float in
  let feetY :=
    match bothConfident leftAnkle rightAnkle with
    | Some (leftAnkle, rightAnkle) =>
        ((CameraPoint.y leftAnkle + CameraPoint.y rightAnkle) / 2)%float
    | None => feetY
    end in
  let z :=
    if negb (feetY =? -1)%float then
      let y_from_center := (cameraHeight / 2 - feetY)%float in
      let angle_from_horizontal :=
        Math_atan (y_from_center / (cameraHeight / 2)
                   * Math_tan (fovY this / 2))%float in
      (- CAMERA_HEIGHT_3D / Math_tan angle_from_horizontal)%float
    else
      match bothConfident leftHip rightHip with
      | Some (leftHip, rightHip) =>
          let hipY :=
            ((CameraPoint.y leftHip + CameraPoint.y rightHip) / 2)%float in
          let y_from_center := (cameraHeight / 2 - hipY)%float in
          let angle_from_horizontal :=
            Math_atan (y_from_center / (cameraHeight / 2)
                       * Math_tan (fovY this / 2))%float in
          (- (CAMERA_HEIGHT_3D - ASSUMED_HIP_HEIGHT_3D)
           / Math_tan angle_from_horizontal)%float
      | None => z
      end in
  let z := (z * Z_SENSITIVITY)%float in
  let z := Math_max MIN_Z (Math_min MAX_Z z) in
  let hipCenterX :=
    match bothConfident leftHip rightHip with
    | Some (leftHip, rightHip) =>
        ((CameraPoint.x leftHip + CameraPoint.x rightHip) / 2)%float
    | None => hipCenterX
    end in
  let centerTransformed :=
    transformKeypoint this (CameraPoint.mk hipCenterX 0 1.0 (js "center")) z in
  let centerVec :=
    Vector3.mk (MuseumPoint.x centerTransformed) 0
      (MuseumPoint.z centerTransformed) in
  mkPoseCenter centerVec z.

(** [transformKeypoints(keypoints, poseZ)] *)
Definition transformKeypoints (this : t) (keypoints : list CameraPoint.t)
    (poseZ : float) : list MuseumPoint.t :=
  map (fun kp => transformKeypoint this kp poseZ)
    (filter (fun kp => (0.3 <? CameraPoint.confidence kp)%float) keypoints).

(** [createCoordinateTransformer()]; 75 is the constructor's default. *)
Definition createCoordinateTransformer : t := new getDefaultConfig 75.

(** Steps 2 of [HumanoidSkeleton.updateFromKeypoints]: the depth of the
    pose, then every keypoint at that depth. *)
Definition updateFromKeypoints (this : t) (keypoints : list CameraPoint.t)
    : list MuseumPoint.t :=
  let z := z (getPoseCenterAndZ this keypoints) in
  transformKeypoints this keypoints z.

End WithMath.

End CoordinateTransformer.

(** * Vocabulary of the specification *)

Module CodecSpec.
Import ArrayBufferUtils.

Definition hyphenPosition (i : nat) : bool :=
  ((i =? 8) || (i =? 13) || (i =? 18) || (i =? 23))%nat.

(** 36 code units, hexadecimal digits in groups of 8-4-4-4-12 separated
    by hyphens. *)
Definition wellFormedUuid (s : jsstring) : bool :=
  (length s =? 36)%nat
  && forallb (fun i => let c := nth i s 0%N in
                       if hyphenPosition i then (c =? hyphen)%N
                       else isHexDigit c) (seq 0 36).

Definition toLower (c : N) : N :=
  (if (65 <=? c) && (c <=? 90) then c + 32 else c)%N.

Definition toLowerCase (s : jsstring) : jsstring := map toLower s.

(** An integer that is a binary64 value: at most 53 significant bits. *)
Definition binary64_integer (t : Z) : Prop :=
  exists m e, 0 <= m < 2 ^ 53 /\ 0 <= e /\ t = m * 2 ^ e.

(** The number a caller holds for the integer [t]: the nearest binary64
    value, as a numeric literal or [Number(t)] gives it. *)
Definition numberOf (t : Z) : number := Integral (toDouble t).

(** The filter of [uuidToBytes], named. *)
Definition notHyphen (c : N) : bool := negb (c =? hyphen)%N.

(** The two hexadecimal digits of a byte. *)
Definition hiDigit (b : byte) : N := hexDigit (Byte.to_N b / 16).
Definition loDigit (b : byte) : N := hexDigit (Byte.to_N b mod 16).

End CodecSpec.

Module ControlSpec.

(** The last [k] elements of a list (all of it when it is shorter). *)
Definition lastn {A : Type} (k : nat) (l : list A) : list A :=
  skipn (length l - k) l.

(** A list without its last [k] elements. *)
Definition droplast {A : Type} (k : nat) (l : list A) : list A :=
  firstn (length l - k) l.

Definition mean (l : list float) : float :=
  (LatencyMonitor.sum l / float_of_nat (length l))%float.

(** The hysteresis band of the trend: more than 10 ms either way. *)
Definition classify (difference : float) : LatencyMonitor.trend :=
  if (difference <? -10)%float then LatencyMonitor.improving
  else if (10 <? difference)%float then LatencyMonitor.degrading
  else LatencyMonitor.stable.

#[local] Set Warnings "-inexact-float".

(** The two conditions of the retuning rule. *)
Definition poor (s : FrameRateOptimizer.state) (currentFps latency : float)
  : bool :=
  ((currentFps <? FrameRateOptimizer.targetFps s * 0.4)
   || (300 <? latency))%float.

Definition good (s : FrameRateOptimizer.state) (currentFps latency : float)
  : bool :=
  ((FrameRateOptimizer.targetFps s * 1.5 <? currentFps)
   && (latency <? 50))%float.

(** The retuning rule on integer rates. *)
Definition retune (n : Z) (poor good : bool) : Z :=
  if poor then Z.max 5 (n - 1)
  else if good then Z.min 15 (n + 1)
  else n.

End ControlSpec.

Module QueueSpec.
Import UseWebSocket.

Definition capacity : nat := 50.

Definition dropNotice : string :=
  "Message queue limit reached, dropping oldest message".

(** Submitting the messages in order. *)
Definition sendAll (now : Z) (s : state) (msgs : list message) : state :=
  fold_left (sendMessage now) msgs s.

(** The delay of the n-th retry, in closed form. *)
Definition delayOf (n : nat) : Z :=
  match n with
  | 0%nat => 1000
  | 1%nat => 2000
  | 2%nat => 4000
  | 3%nat => 8000
  | 4%nat => 16000
  | _ => 30000
  end.

End QueueSpec.

Module MonitorSpec.

(** A latency sample the monitor accepts: strictly between 0 and 10 s. *)
Definition reasonable (l : float) : bool := ((0 <? l) && (l <? 10000))%float.

(** The window the monitor should hold after the samples: the 20 most
    recent accepted ones. *)
Definition window (samples : list float) : list float :=
  ControlSpec.lastn 20 (filter reasonable samples).

End MonitorSpec.

Module FpsSpec.

(** Frames per second over a window of send times:
    [(count - 1) * 1000 / (last - first)], and 0 for fewer than two times or
    an empty span. *)
Definition fpsOf (w : list float) : float :=
  if (length w <? 2)%nat then 0%float
  else
    let span := (last w nan - hd nan w)%float in
    if (span =? 0)%float then 0%float
    else ((float_of_nat (length w) - 1) * 1000 / span)%float.

(** The attempt times that [shouldDropFrame] admits, in order. *)
Fixpoint admissions (s : FrameRateOptimizer.state) (attempts : list float)
  : list float :=
  match attempts with
  | [] => []
  | now :: rest =>
      let r := FrameRateOptimizer.shouldDropFrame s now in
      if fst r then admissions (snd r) rest else now :: admissions (snd r) rest
  end.

(** Every time in the list is at least [interval] after the one before it,
    the first one after [prev]: the subtraction and the comparison are the
    code's. *)
Fixpoint spaced (interval prev : float) (times : list float) : Prop :=
  match times with
  | [] => True
  | t :: rest =>
      (t - prev <? interval)%float = false /\ spaced interval t rest
  end.

(** What the trimming of the send times keeps: a suffix of all of them
    that is never shorter than 10 unless it is all of them. *)
Definition kept (times all : list float) : Prop :=
  exists j, times = skipn j all
            /\ (j <= length all)%nat
            /\ (length times <= 20)%nat
            /\ (10 <= length times \/ j = 0)%nat.

End FpsSpec.

Module HookSpec.
Import UseWebSocket.

(** The frame [sendMessage] gives to the socket for a message. *)
Definition frameOf (now : Z) (data : message) : frame :=
  match data with
  | BinaryData buffer => BinaryFrame buffer
  | ObjectData json => JsonFrame json now
  end.

(** An event other than the opening of the socket. *)
Definition notOpening (e : Connection.event) : bool :=
  match e with
  | Connection.SocketOpens => false
  | _ => true
  end.

(** A delay that the reconnect timer has been armed with: one of 1000,
    2000, 4000, 8000 and 16000 ms. *)
Definition armed (timer : option Z) : Prop :=
  match timer with
  | None => True
  | Some delay =>
      exists n, (n < 5)%nat /\ delay = 1000 * 2 ^ Z.of_nat n
  end.

(** A control message: [type] is ['ping'] or ['heartbeat_response']. *)
Definition isControl (p : Inbound.parsed) : bool :=
  match p with
  | Inbound.JsonValue (Some t) _ =>
      UuidUtils.strictEq t (js "ping")
      || UuidUtils.strictEq t (js "heartbeat_response")
  | _ => false
  end.

(** A ping: [type] is ['ping']. *)
Definition isPing (p : Inbound.parsed) : bool :=
  match p with
  | Inbound.JsonValue (Some t) _ => UuidUtils.strictEq t (js "ping")
  | _ => false
  end.

(** The latency sample a message received at [now] yields: none for a
    control message, for a message with no truthy [timestamp], and for a
    latency that is not strictly between 0 and 10 s. *)
Definition sampleOf (p : Inbound.parsed) (now : Z) : list float :=
  if isControl p then []
  else
    match p with
    | Inbound.JsonValue _ (Some ts) =>
        filter MonitorSpec.reasonable [(float_of_Z now - ts)%float]
    | _ => []
    end.

(** What holds of the hook in every state it reaches. *)
Record invariant (s : state) : Prop := mkInvariant {
  inv_queue : (length (messageQueue s) <= 50)%nat;
  inv_size : (messageQueueSize s <= 51)%nat;
  inv_open :
    socketOpen s = true -> messageQueue s = [] /\ messageQueueSize s = 0%nat;
  inv_connected : connectionStatus s = connected -> isConnected s = true;
  inv_reconnecting :
    connectionStatus s = reconnecting -> isConnected s = false /\ error s = None
}.

(** The hook after an error: the error is set and no retry is under way. *)
Record failed (s : state) : Prop := mkFailed {
  failed_error : error s <> None;
  failed_status : connectionStatus s <> reconnecting
}.

(** The average the hook shows is the ControlSpec.mean of the samples it holds. *)
Definition settled (b : Inbound.inbox) : Prop :=
  Inbound.averageLatency b
  = match Inbound.latencyHistory b with
    | [] => 0%float
    | _ :: _ => ControlSpec.mean (Inbound.latencyHistory b)
    end.

(** What the hook should show as [lastMessage] after the messages (each
    with its arrival time): the last one that is no control message. *)
Definition displayed (parse : jsstring -> Inbound.parsed)
    (messages : list (jsstring * Z)) : option jsstring :=
  last (map (fun m => Some (fst m))
          (filter (fun m => negb (isControl (parse (fst m)))) messages))
    None.

(** The pongs owed: one for each ping, with its arrival time. *)
Definition pongs (parse : jsstring -> Inbound.parsed)
    (messages : list (jsstring * Z)) : list frame :=
  map (fun m => JsonFrame Inbound.pongObject (snd m))
    (filter (fun m => isPing (parse (fst m))) messages).

(** The latency samples of the messages, in arrival order. *)
Definition samples (parse : jsstring -> Inbound.parsed)
    (messages : list (jsstring * Z)) : list float :=
  flat_map (fun m => sampleOf (parse (fst m)) (snd m)) messages.

End HookSpec.

Module SceneSpec.

#[local] Set Warnings "-inexact-float".

(** A confidence the transformer accepts: above 0.3. *)
Definition confident (c : float) : bool := (0.3 <? c)%float.

(** A depth within the room: from [MIN_Z] to [MAX_Z]. *)
Definition inRange (z : float) : bool := ((-6 <=? z) && (z <=? 7))%float.

(** The connection of the two keypoints, if both are confident. *)
Definition connectionOf (a b : MuseumPoint.t)
    : list CoordinateTransformer.Connection :=
  if confident (MuseumPoint.confidence a)
     && confident (MuseumPoint.confidence b)
  then [CoordinateTransformer.mkConnection a b] else [].

End SceneSpec.

(** * Properties *)

(** ** The frame codec *)

Module CodecFacts.
Import ArrayBufferUtils CodecSpec.

(** *** Bytes *)

Lemma Z_of_byte_of_Z (z : Z) : Z_of_byte (byte_of_Z z) = z mod 256.
Proof.
  unfold Z_of_byte, byte_of_Z.
  assert (Hr : 0 <= z mod 256 < 256) by (apply Z.mod_pos_bound; lia).
  destruct (Byte.of_N (Z.to_N (z mod 256))) as [b|] eqn:E.
  - apply Byte.to_of_N in E. rewrite E. lia.
  - apply Byte.of_N_None_iff in E. lia.
Qed.

Lemma fold_bigEndian (n : nat) (v acc : Z) :
  fold_left (fun a b => a * 256 + Z_of_byte b) (bigEndian n v) acc
  = acc * 2 ^ (8 * Z.of_nat n) + v mod 2 ^ (8 * Z.of_nat n).
Proof.
  revert acc; induction n as [|k IH]; intro acc.
  - cbn. rewrite Z.mod_1_r. lia.
  - cbn [bigEndian fold_left]. rewrite IH, Z_of_byte_of_Z.
    rewrite Z.shiftr_div_pow2 by lia.
    replace (8 * Z.of_nat (S k)) with (8 * Z.of_nat k + 8) by lia.
    rewrite Z.pow_add_r by lia.
    change (2 ^ 8) with 256.
    assert (Hp : 0 < 2 ^ (8 * Z.of_nat k)) by (apply Z.pow_pos_nonneg; lia).
    rewrite (Z.rem_mul_r v (2 ^ (8 * Z.of_nat k)) 256) by lia.
    lia.
Qed.

Lemma fromBigEndian_bigEndian (v : Z) :
  fromBigEndian (bigEndian 8 v) = v mod 2 ^ 64.
Proof.
  unfold fromBigEndian. rewrite fold_bigEndian. cbn. lia.
Qed.

Lemma bigEndian_length (n : nat) (v : Z) : length (bigEndian n v) = n.
Proof. induction n; cbn; congruence. Qed.

(** *** Number(BigInt(t)) *)

Lemma toDouble_exact (t : Z) :
  binary64_integer t -> toDouble t = t.
Proof.
  intros (m & e & Hm & He & ->).
  unfold toDouble.
  destruct (Z.leb_spec (Z.log2 (m * 2 ^ e) - 52) 0) as [|Hk]; [reflexivity|].
  set (k := Z.log2 (m * 2 ^ e) - 52) in *.
  assert (Hm0 : 0 < m).
  { destruct (Z.eq_dec m 0) as [E0|]; [|lia].
    subst k. rewrite E0, Z.mul_0_l in Hk. cbn in Hk. lia. }
  assert (Hlog : Z.log2 (m * 2 ^ e) = Z.log2 m + e).
  { rewrite <- Z.shiftl_mul_pow2 by lia. apply Z.log2_shiftl; lia. }
  assert (Hlm : Z.log2 m < 53) by (apply Z.log2_lt_pow2; lia).
  assert (Hke : k <= e) by lia.
  assert (Hdiv : m * 2 ^ e = (m * 2 ^ (e - k)) * 2 ^ k).
  { rewrite <- Z.mul_assoc, <- Z.pow_add_r by lia. f_equal. f_equal. lia. }
  assert (Hr : Z.land (m * 2 ^ e) (Z.ones k) = 0).
  { rewrite Z.land_ones by lia. rewrite Hdiv. apply Z.mod_mul.
    apply Z.pow_nonzero; lia. }
  rewrite Hr.
  assert (Hh : 0 < 2 ^ (k - 1)) by (apply Z.pow_pos_nonneg; lia).
  destruct (Z.ltb_spec (2 ^ (k - 1)) 0); [lia|].
  destruct (Z.eqb_spec 0 (2 ^ (k - 1))); [lia|].
  cbn [orb andb].
  rewrite Z.shiftr_div_pow2, Z.shiftl_mul_pow2 by lia.
  rewrite Hdiv at 1. rewrite Z.div_mul by (apply Z.pow_nonzero; lia).
  symmetry; exact Hdiv.
Qed.

(** *** Hexadecimal digits *)

Ltac bool_false :=
  first [ apply N.eqb_neq; lia
        | apply andb_false_iff;
          first [ left; apply N.leb_gt; lia | right; apply N.leb_gt; lia ] ].

Lemma hex_char (c : N) :
  isHexDigit c = true ->
  exists v : N,
    hexValue c = Some (Z.of_N v) /\ (v < 16)%N /\ hexDigit v = toLower c
    /\ (v = 0%N -> c = 48%N)
    /\ isStrWhiteSpaceChar c = false
    /\ (c =? 45)%N = false /\ (c =? 43)%N = false
    /\ (c =? 120)%N = false /\ (c =? 88)%N = false.
Proof.
  unfold isHexDigit, hexValue.
  destruct ((48 <=? c) && (c <=? 57))%N eqn:D.
  { intros _. apply andb_true_iff in D as [L U].
    apply N.leb_le in L, U. exists (c - 48)%N.
    repeat split; try bool_false; try lia.
    - unfold hexDigit, toLower.
      destruct (N.ltb_spec (c - 48) 10); [|lia].
      replace ((65 <=? c) && (c <=? 90))%N with false by (symmetry; bool_false).
      lia.
    - unfold isStrWhiteSpaceChar. repeat (apply orb_false_intro); bool_false. }
  destruct ((97 <=? c) && (c <=? 102))%N eqn:L1.
  { intros _. apply andb_true_iff in L1 as [L U].
    apply N.leb_le in L, U. exists (c - 87)%N.
    repeat split; try bool_false; try lia.
    - unfold hexDigit, toLower.
      destruct (N.ltb_spec (c - 87) 10); [lia|].
      replace ((65 <=? c) && (c <=? 90))%N with false by (symmetry; bool_false).
      lia.
    - unfold isStrWhiteSpaceChar. repeat (apply orb_false_intro); bool_false. }
  destruct ((65 <=? c) && (c <=? 70))%N eqn:U1; [|discriminate].
  intros _. apply andb_true_iff in U1 as [L U].
  apply N.leb_le in L, U. exists (c - 55)%N.
  repeat split; try bool_false; try lia.
  - unfold hexDigit, toLower.
    destruct (N.ltb_spec (c - 55) 10); [lia|].
    replace ((65 <=? c) && (c <=? 90))%N with true
      by (symmetry; apply andb_true_iff; split; apply N.leb_le; lia).
    lia.
  - unfold isStrWhiteSpaceChar. repeat (apply orb_false_intro); bool_false.
Qed.

Lemma to_N_byte_of_Z (n : N) :
  (n < 256)%N -> Byte.to_N (byte_of_Z (Z.of_N n)) = n.
Proof.
  intro H. apply N2Z.inj. fold (Z_of_byte (byte_of_Z (Z.of_N n))).
  rewrite Z_of_byte_of_Z. apply Z.mod_small. lia.
Qed.

(** Two hexadecimal digits, parsed into a byte and printed again. *)
Lemma hex_pair (a b : N) :
  isHexDigit a = true -> isHexDigit b = true ->
  padStart (toString16 (ToUint8 (parseInt16 [a; b]))) 2 48%N
  = [toLower a; toLower b].
Proof.
  intros Ha Hb.
  destruct (hex_char a Ha) as (va & Hva & Ba & La & Za & Wa & A45 & A43 & _ & _).
  destruct (hex_char b Hb) as (vb & Hvb & Bb & Lb & _ & _ & _ & _ & B120 & B88).
  unfold parseInt16. cbn [trimStart]. rewrite Wa, A45, A43, B120, B88.
  rewrite andb_false_r. cbn [hexPrefix]. rewrite Hva, Hvb.
  cbn [ToUint8].
  replace (1 * (16 * (16 * 0 + Z.of_N va) + Z.of_N vb))
    with (Z.of_N (16 * va + vb)) by lia.
  unfold toString16. rewrite to_N_byte_of_Z by lia.
  destruct (N.ltb_spec (16 * va + vb) 16) as [Hs|Hs].
  - assert (va = 0%N) by lia. subst va.
    rewrite (Za eq_refl). cbn. rewrite <- Lb. reflexivity.
  - rewrite <- (N.div_unique (16 * va + vb) 16 va vb) by lia.
    rewrite <- (N.mod_unique (16 * va + vb) 16 va vb) by lia.
    cbn. rewrite La, Lb. reflexivity.
Qed.

Lemma clean_hex (c : N) (l : jsstring) :
  isHexDigit c = true -> filter notHyphen (c :: l) = c :: filter notHyphen l.
Proof.
  intro H. destruct (hex_char c H) as (_ & _ & _ & _ & _ & _ & E & _).
  cbn [filter]. unfold notHyphen at 1, hyphen. rewrite E. reflexivity.
Qed.

Lemma clean_hyphen (l : jsstring) :
  filter notHyphen (hyphen :: l) = filter notHyphen l.
Proof. reflexivity. Qed.

(** *** The identifier survives, lower-cased *)

Lemma uuidToBytes_length (id : jsstring) : length (uuidToBytes id) = 16%nat.
Proof. unfold uuidToBytes. rewrite length_map, length_seq. reflexivity. Qed.

Lemma uuid_roundtrip (id : jsstring) :
  wellFormedUuid id = true -> bytesToUuid (uuidToBytes id) = toLowerCase id.
Proof.
  unfold wellFormedUuid. intro H. apply andb_true_iff in H as [Hlen H].
  do 36 (destruct id as [|? id]; [discriminate Hlen|]).
  destruct id; [clear Hlen|discriminate Hlen].
  cbn [forallb seq nth hyphenPosition Nat.eqb orb] in H.
  repeat (apply andb_true_iff in H as [? H]). clear H.
  repeat match goal with
         | E : (?c =? hyphen)%N = true |- _ => apply N.eqb_eq in E; subst c
         end.
  unfold uuidToBytes.
  change (fun c : N => negb (c =? hyphen)%N) with notHyphen.
  repeat first [ rewrite clean_hyphen | rewrite clean_hex by assumption ].
  cbn [filter map seq substr skipn firstn Nat.mul Nat.add].
  unfold bytesToUuid. cbn [map concat].
  rewrite !hex_pair by assumption.
  reflexivity.
Qed.

Lemma toLower_idem (c : N) : toLower (toLower c) = toLower c.
Proof.
  unfold toLower.
  destruct ((65 <=? c) && (c <=? 90))%N eqn:E; [|rewrite E; reflexivity].
  apply andb_true_iff in E as [L U]. apply N.leb_le in L, U.
  replace ((65 <=? c + 32) && (c + 32 <=? 90))%N with false; [reflexivity|].
  symmetry. bool_false.
Qed.

Lemma toLower_hex (c : N) : isHexDigit c = true -> isHexDigit (toLower c) = true.
Proof.
  intro H. destruct (hex_char c H) as (v & _ & Hv & <- & _).
  unfold hexDigit, isHexDigit, hexValue.
  destruct (N.ltb_spec v 10).
  - replace ((48 <=? 48 + v) && (48 + v <=? 57))%N with true; [reflexivity|].
    symmetry. apply andb_true_iff; split; apply N.leb_le; lia.
  - replace ((48 <=? 87 + v) && (87 + v <=? 57))%N with false
      by (symmetry; bool_false).
    replace ((97 <=? 87 + v) && (87 + v <=? 102))%N with true; [reflexivity|].
    symmetry. apply andb_true_iff; split; apply N.leb_le; lia.
Qed.

(** Lower-casing a canonical UUID leaves it canonical. *)
Lemma toLowerCase_wellFormed (id : jsstring) :
  wellFormedUuid id = true -> wellFormedUuid (toLowerCase id) = true.
Proof.
  unfold wellFormedUuid, toLowerCase. intro H.
  apply andb_true_iff in H as [Hlen H]. rewrite length_map, Hlen.
  cbn [andb]. rewrite forallb_forall in *. intros i Hi.
  specialize (H i Hi). cbv beta zeta in *.
  apply in_seq in Hi. apply Nat.eqb_eq in Hlen.
  rewrite (map_nth toLower id 0%N i : nth i (map toLower id) 0%N = _).
  destruct (hyphenPosition i).
  - apply N.eqb_eq in H. rewrite H. reflexivity.
  - apply toLower_hex, H.
Qed.

(** *** The layout of an encoded frame *)

Lemma typed_set_at (pre mid post src : list byte) (offset : nat) :
  offset = length pre -> length mid = length src ->
  typed_set (pre ++ mid ++ post) src offset = Ok (pre ++ src ++ post).
Proof.
  intros -> Hm. unfold typed_set. rewrite !length_app, Hm.
  destruct (Nat.ltb_spec (length pre + (length src + length post))
              (length pre + length src)); [lia|].
  rewrite firstn_app, firstn_all, Nat.sub_diag, firstn_O, app_nil_r.
  rewrite skipn_app, skipn_all2 by lia.
  replace (length pre + length src - length pre)%nat with (length mid) by lia.
  rewrite skipn_app, skipn_all, Nat.sub_diag, skipn_O. reflexivity.
Qed.

(** [addMetadata] lays out timestamp, identifier bytes and payload. *)
Lemma addMetadata_layout (payload : ArrayBuffer) (z : Z) (id : jsstring) :
  addMetadata payload (Integral z) id
  = Ok (bigEndian 8 (z mod 2 ^ 64) ++ uuidToBytes id ++ payload).
Proof.
  unfold addMetadata, BigInt, setBigUint64, METADATA_SIZE, TIMESTAMP_OFFSET,
    UUID_OFFSET.
  cbn [bind].
  set (be := bigEndian 8 (z mod 2 ^ 64)).
  assert (Hbe : length be = 8%nat) by apply bigEndian_length.
  pose proof (uuidToBytes_length id) as Hu.
  change (repeat x00 24) with ([] ++ repeat x00 8 ++ repeat x00 16)%list.
  rewrite (typed_set_at [] (repeat x00 8) (repeat x00 16) be 0 eq_refl)
    by (rewrite repeat_length; congruence).
  cbn [bind app].
  unfold view_set, Uint8Array_view. rewrite length_app, repeat_length, Hbe.
  cbn [Nat.add Nat.ltb Nat.leb bind].
  replace (skipn 8 (be ++ repeat x00 16)) with (repeat x00 16)
    by (rewrite skipn_app, Hbe, skipn_all2 by lia; reflexivity).
  rewrite firstn_all2 by (rewrite repeat_length; lia).
  rewrite repeat_length, Hu. cbn [Nat.ltb Nat.leb].
  rewrite <- (app_nil_r (repeat x00 16)).
  rewrite (typed_set_at be (repeat x00 16) [] (uuidToBytes id) 8)
    by (rewrite ?repeat_length; congruence).
  cbn [bind]. rewrite app_nil_r.
  set (header := (be ++ uuidToBytes id)%list).
  assert (Hh : length header = 24%nat)
    by (unfold header; rewrite length_app, Hbe, Hu; reflexivity).
  rewrite Nat.add_comm, repeat_app.
  change (repeat x00 24 ++ repeat x00 (length payload))%list
    with ([] ++ repeat x00 24 ++ repeat x00 (length payload))%list.
  rewrite (typed_set_at [] (repeat x00 24) (repeat x00 (length payload))
             header 0 eq_refl)
    by (rewrite repeat_length; congruence).
  cbn [bind app].
  rewrite <- (app_nil_r (repeat x00 (length payload))).
  rewrite (typed_set_at header (repeat x00 (length payload)) [] payload 24)
    by (rewrite ?repeat_length; congruence).
  cbn [bind]. unfold header. rewrite app_nil_r, <- app_assoc. reflexivity.
Qed.

(** [extractMetadata] on header and payload. *)
Lemma extractMetadata_layout (h u payload : list byte) :
  length h = 8%nat -> length u = 16%nat ->
  extractMetadata (h ++ u ++ payload)
  = Ok (mkExtracted (toDouble (fromBigEndian h)) (bytesToUuid u) payload).
Proof.
  intros Hh Hu.
  unfold extractMetadata, getBigUint64, Uint8Array_view, METADATA_SIZE,
    TIMESTAMP_OFFSET, UUID_OFFSET.
  rewrite !length_app, Hh, Hu.
  cbn [Nat.add Nat.ltb Nat.leb bind]. rewrite skipn_O.
  rewrite (firstn_app 8 h), Hh, Nat.sub_diag, firstn_O, app_nil_r.
  rewrite <- Hh at 1. rewrite firstn_all.
  cbn [bind].
  replace (skipn 8 (h ++ u ++ payload)) with (u ++ payload)%list
    by (rewrite skipn_app, Hh, Nat.sub_diag, skipn_all2 by lia; reflexivity).
  replace (skipn 24 (h ++ u ++ payload)) with payload.
  2:{ rewrite app_assoc, skipn_app, skipn_all2 by (rewrite length_app; lia).
      rewrite length_app, Hh, Hu. reflexivity. }
  rewrite firstn_app, Hu, Nat.sub_diag, firstn_O, app_nil_r.
  rewrite <- Hu at 1. rewrite firstn_all. reflexivity.
Qed.

(** *** The claims about the codec *)

Lemma safe_integer_binary64 (t : Z) :
  0 <= t <= 2 ^ 53 -> binary64_integer t.
Proof.
  intro H. destruct (Z.eq_dec t (2 ^ 53)) as [->|].
  - exists (2 ^ 52), 1. lia.
  - exists t, 0. lia.
Qed.

Lemma numberOf_exact (t : Z) : binary64_integer t -> numberOf t = Integral t.
Proof. intro H. unfold numberOf. rewrite toDouble_exact by exact H. reflexivity. Qed.

(** C2. Round trip: for every payload, every unsigned 64-bit timestamp
    that [addMetadata] can be given (its parameter is a number, so the
    timestamp is an integer below 2^64 that a number holds, as every
    reading of [Date.now()] is), and every canonical UUID string, decoding
    the encoded frame gives back the payload byte for byte, the timestamp,
    and the identifier lower-cased, which is again canonical
    8-4-4-4-12. *)
Theorem extractMetadata_addMetadata
    (payload : ArrayBuffer) (t : Z) (id : jsstring) :
  0 <= t < 2 ^ 64 -> binary64_integer t -> wellFormedUuid id = true ->
  numberOf t = Integral t
  /\ exists frame,
       addMetadata payload (numberOf t) id = Ok frame
       /\ extractMetadata frame = Ok (mkExtracted t (toLowerCase id) payload)
       /\ toLowerCase (toLowerCase id) = toLowerCase id
       /\ wellFormedUuid (toLowerCase id) = true.
Proof.
  intros Ht Hd Hid. rewrite (numberOf_exact t Hd). split; [reflexivity|].
  eexists. split; [apply addMetadata_layout|].
  split; [|split].
  - rewrite extractMetadata_layout
      by (apply bigEndian_length || apply uuidToBytes_length).
    rewrite fromBigEndian_bigEndian, Z.mod_mod by lia.
    rewrite (Z.mod_small t) by lia.
    rewrite toDouble_exact by assumption.
    rewrite uuid_roundtrip by assumption. reflexivity.
  - unfold toLowerCase. rewrite map_map. apply map_ext.
    intro c. apply toLower_idem.
  - apply toLowerCase_wellFormed, Hid.
Qed.

Lemma extractMetadata_addMetadata_witness :
  numberOf 1700000000000 = Integral 1700000000000
  /\ exists frame,
       addMetadata [x01; x02; xff] (numberOf 1700000000000)
         (js "123E4567-e89b-12D3-a456-426614174000") = Ok frame
       /\ extractMetadata frame
          = Ok (mkExtracted 1700000000000
                  (toLowerCase (js "123E4567-e89b-12D3-a456-426614174000"))
                  [x01; x02; xff])
       /\ toLowerCase (toLowerCase (js "123E4567-e89b-12D3-a456-426614174000"))
          = toLowerCase (js "123E4567-e89b-12D3-a456-426614174000")
       /\ wellFormedUuid
            (toLowerCase (js "123E4567-e89b-12D3-a456-426614174000")) = true.
Proof.
  apply (extractMetadata_addMetadata [x01; x02; xff] 1700000000000
           (js "123E4567-e89b-12D3-a456-426614174000")).
  - lia.
  - exists 1700000000000, 0. lia.
  - reflexivity.
Defined.

(** C3, as the code has it. [addMetadata] never fails on account of the
    identifier: for every string, canonical or not, and every integer
    timestamp it returns the 8 timestamp bytes, 16 identifier bytes and
    the payload; a pair of characters that [parseInt] cannot read is
    stored as the byte 0. Its only failure is the [RangeError] of
    [BigInt] for a timestamp that is not an integer. *)
Theorem addMetadata_total
    (payload : ArrayBuffer) (t : number) (id : jsstring) :
  length (uuidToBytes id) = 16%nat
  /\ (forall i, (i < 16)%nat ->
        parseInt16 (substr (filter notHyphen id) (i * 2) 2) = None ->
        nth i (uuidToBytes id) xff = x00)
  /\ addMetadata payload t id
     = match t with
       | Integral z =>
           Ok (bigEndian 8 (z mod 2 ^ 64) ++ uuidToBytes id ++ payload)
       | NonIntegral => Throw RangeError
       end.
Proof.
  split; [apply uuidToBytes_length|]. split.
  - intros i Hi Hnan. unfold uuidToBytes.
    change (fun c : N => negb (c =? hyphen)%N) with notHyphen.
    set (f := fun k => ToUint8 (parseInt16 (substr (filter notHyphen id) (k * 2) 2))).
    rewrite (nth_indep _ xff (f 0%nat)) by (rewrite length_map, length_seq; exact Hi).
    rewrite map_nth, seq_nth by exact Hi. unfold f. cbn [Nat.add].
    rewrite Hnan. reflexivity.
  - destruct t as [z|]; [apply addMetadata_layout|reflexivity].
Qed.

(** C3, as stated, fails: a malformed identifier is encoded, as sixteen
    zero bytes, and decoding then returns another identifier. *)
Lemma addMetadata_malformed_uuid :
  wellFormedUuid (js "not-a-uuid") = false
  /\ addMetadata [x2a] (Integral 5) (js "not-a-uuid")
     = Ok (bigEndian 8 5 ++ repeat x00 16 ++ [x2a])
  /\ extractMetadata (bigEndian 8 5 ++ repeat x00 16 ++ [x2a])
     = Ok (mkExtracted 5 (js "00000000-0000-0000-0000-000000000000") [x2a]).
Proof. repeat split; vm_compute; reflexivity. Qed.

(** C4. Decoding a buffer shorter than 24 bytes throws. *)
Theorem extractMetadata_short (buffer : ArrayBuffer) :
  (length buffer < 24)%nat -> extractMetadata buffer = Throw RangeError.
Proof.
  intro H. unfold extractMetadata, getBigUint64, Uint8Array_view,
    TIMESTAMP_OFFSET, UUID_OFFSET.
  cbn [Nat.add].
  destruct (Nat.ltb_spec (length buffer) 8); [reflexivity|].
  cbn [bind].
  destruct (Nat.ltb_spec (length buffer) 24); [reflexivity|lia].
Qed.

Lemma extractMetadata_short_witness :
  extractMetadata (repeat xff 23) = Throw RangeError.
Proof. apply (extractMetadata_short (repeat xff 23)). cbn. lia. Defined.

(** C10. Decoding a buffer of at least 24 bytes succeeds, and the payload
    it returns is the buffer from offset 24 on. *)
Theorem extractMetadata_long (buffer : ArrayBuffer) :
  (24 <= length buffer)%nat ->
  exists r,
    extractMetadata buffer = Ok r
    /\ data r = skipn 24 buffer
    /\ length (data r) = (length buffer - 24)%nat
    /\ buffer = (firstn 24 buffer ++ data r)%list.
Proof.
  intro H. unfold extractMetadata, getBigUint64, Uint8Array_view,
    TIMESTAMP_OFFSET, UUID_OFFSET, METADATA_SIZE.
  cbn [Nat.add].
  destruct (Nat.ltb_spec (length buffer) 8); [lia|].
  cbn [bind].
  destruct (Nat.ltb_spec (length buffer) 24); [lia|].
  cbn [bind]. eexists. split; [reflexivity|]. cbn [data].
  split; [reflexivity|]. split.
  - apply length_skipn.
  - symmetry. apply firstn_skipn.
Qed.

Lemma extractMetadata_long_witness :
  exists r,
    extractMetadata (repeat x00 24 ++ [x07]) = Ok r
    /\ data r = skipn 24 (repeat x00 24 ++ [x07])
    /\ length (data r) = (length (repeat x00 24 ++ [x07]) - 24)%nat
    /\ (repeat x00 24 ++ [x07])%list
       = (firstn 24 (repeat x00 24 ++ [x07]) ++ data r)%list.
Proof. apply (extractMetadata_long (repeat x00 24 ++ [x07])). cbn. lia. Defined.

End CodecFacts.

(** ** Comparison of binary64 numbers *)

Module FloatFacts.

Lemma SFcompare_antisym (x y : spec_float) :
  SFcompare y x = option_map CompOpp (SFcompare x y).
Proof.
  destruct x as [sx|sx| |sx mx ex], y as [sy|sy| |sy my ey]; cbn;
    try reflexivity;
    try (destruct sx; reflexivity); try (destruct sy; reflexivity);
    try (destruct sx, sy; reflexivity).
  destruct sx, sy; cbn; try reflexivity; f_equal;
    rewrite (Z.compare_antisym ey ex);
    destruct (ey ?= ex)%Z; cbn; try reflexivity;
    rewrite (Pos.compare_cont_antisym mx my Eq);
    cbn; rewrite ?CompOpp_involutive; reflexivity.
Qed.

(** [a <= b] excludes [b < a]. *)
Lemma leb_not_ltb (a b : float) :
  (a <=? b)%float = true -> (b <? a)%float = false.
Proof.
  rewrite leb_spec, ltb_spec. unfold SFleb, SFltb.
  rewrite (SFcompare_antisym (Prim2SF a) (Prim2SF b)).
  destruct (SFcompare (Prim2SF a) (Prim2SF b)) as [[]|]; cbn;
    congruence.
Qed.

(** [a < b] excludes [b < a]. *)
Lemma ltb_asym (a b : float) :
  (a <? b)%float = true -> (b <? a)%float = false.
Proof.
  rewrite !ltb_spec. unfold SFltb.
  rewrite (SFcompare_antisym (Prim2SF a) (Prim2SF b)).
  destruct (SFcompare (Prim2SF a) (Prim2SF b)) as [[]|]; cbn;
    congruence.
Qed.

(** A number above 10 is not below -10. *)
Lemma above_10_not_below (d : float) :
  (10 <? d)%float = true -> (d <? -10)%float = false.
Proof.
  rewrite !ltb_spec. unfold SFltb.
  replace (Prim2SF 10) with (S754_finite false 5629499534213120 (-49))
    by (vm_compute; reflexivity).
  replace (Prim2SF (-10)) with (S754_finite true 5629499534213120 (-49))
    by (vm_compute; reflexivity).
  destruct (Prim2SF d) as [sd|sd| |sd md ed]; try destruct sd;
    unfold SFcompare; try discriminate; intros _; reflexivity.
Qed.

End FloatFacts.

(** ** The frame rate optimizer *)

Module OptimizerFacts.
Import FrameRateOptimizer ControlSpec.

#[local] Set Warnings "-inexact-float".

(** On a new optimizer the last admit time is the time origin: a first
    attempt at least 100 ms after it is admitted. *)
Lemma first_attempt_admitted (now : float) :
  (100 <=? now - 0)%float = true -> fst (shouldDropFrame default now) = false.
Proof.
  intro H. unfold shouldDropFrame, default, new.
  cbn [lastFrameTime targetFps].
  change (1000 / 10)%float with 100%float.
  rewrite (FloatFacts.leb_not_ltb _ _ H). reflexivity.
Qed.

(** C8, as the code has it. [shouldDropFrame] rejects the frame, and
    counts it as dropped, exactly when the time since the last admitted
    frame is below [1000 / targetFps]; otherwise it admits the frame and the
    current time becomes the last admit time. At [targetFps = 10], after an
    attempt at [now] that is admitted, a second attempt less than 100 ms
    later is dropped, and one at least 100 ms later is admitted as well. *)
Theorem shouldDropFrame_rate_limit (s : state) (now : float) :
  let tooSoon := (now - lastFrameTime s <? 1000 / targetFps s)%float in
  let r := shouldDropFrame s now in
  fst r = tooSoon
  /\ targetFps (snd r) = targetFps s
  /\ droppedFramesCount (snd r)
     = (droppedFramesCount s + (if tooSoon then 1 else 0))%N
  /\ lastFrameTime (snd r) = (if tooSoon then lastFrameTime s else now)
  /\ forall later : float,
       targetFps s = 10%float -> fst r = false ->
       let r2 := shouldDropFrame (snd r) later in
       ((later - now <? 100)%float = true ->
        fst r2 = true
        /\ droppedFramesCount (snd r2) = (droppedFramesCount s + 1)%N
        /\ lastFrameTime (snd r2) = now)
       /\ ((100 <=? later - now)%float = true ->
           fst r2 = false
           /\ droppedFramesCount (snd r2) = droppedFramesCount s
           /\ lastFrameTime (snd r2) = later).
Proof.
  cbv zeta. unfold shouldDropFrame at 1 2 3 4 5.
  destruct (now - lastFrameTime s <? 1000 / targetFps s)%float eqn:E;
    cbn [fst snd targetFps droppedFramesCount lastFrameTime].
  - do 4 (split; [reflexivity|]). intros later _ H. discriminate H.
  - do 2 (split; [reflexivity|]). split; [symmetry; apply N.add_0_r|].
    split; [reflexivity|].
    intros later Ht _. unfold shouldDropFrame. rewrite E.
    cbn [snd targetFps lastFrameTime droppedFramesCount]. rewrite Ht.
    change (1000 / 10)%float with 100%float.
    split; intro H.
    + rewrite H. cbn. repeat split; reflexivity.
    + rewrite (FloatFacts.leb_not_ltb _ _ H). cbn.
      repeat split; reflexivity.
Qed.

(** C8, as stated, fails when the first of the two attempts is not
    admitted. After a frame admitted at 1000 ms, the attempts at 1050 ms
    and 1100 ms are 50 ms apart and the second is admitted. On a new
    optimizer the attempts at 0 ms and 100 ms are 100 ms apart and the
    first is dropped. *)
Lemma first_of_two_attempts_dropped :
  targetFps default = 10%float
  /\ (let r1 := shouldDropFrame default 1000 in
      let r2 := shouldDropFrame (snd r1) 1050 in
      let r3 := shouldDropFrame (snd r2) 1100 in
      (1100 - 1050 <? 100)%float = true
      /\ (fst r1, fst r2, fst r3) = (false, true, false))
  /\ (let r1 := shouldDropFrame default 0 in
      let r2 := shouldDropFrame (snd r1) 100 in
      (100 <=? 100 - 0)%float = true
      /\ (fst r1, fst r2) = (true, false)).
Proof. repeat split; vm_compute; reflexivity. Qed.

(** Two attempts 50 ms apart and two attempts 100 ms apart, on the
    default optimizer one second after the time origin. *)
Example attempts_50ms_apart :
  let r1 := shouldDropFrame default 1000 in
  let r2 := shouldDropFrame (snd r1) 1050 in
  (fst r1, fst r2, droppedFramesCount (snd r2)) = (false, true, 1%N).
Proof. vm_compute. reflexivity. Qed.

Example attempts_100ms_apart :
  let r1 := shouldDropFrame default 1000 in
  let r2 := shouldDropFrame (snd r1) 1100 in
  (fst r1, fst r2, droppedFramesCount (snd r2)) = (false, false, 0%N).
Proof. vm_compute. reflexivity. Qed.

(** *** Retuning *)

Lemma adjustFrameRate_rule (s : state) (currentFps latency : float) :
  let r := adjustFrameRate s currentFps latency in
  fst r = targetFps (snd r)
  /\ targetFps (snd r)
     = if poor s currentFps latency then Math_max 5 (targetFps s - 1)
       else if good s currentFps latency then Math_min 15 (targetFps s + 1)
       else targetFps s.
Proof. split; reflexivity. Qed.

Lemma small_rate (n : Z) :
  5 <= n <= 15 ->
  n = 5 \/ n = 6 \/ n = 7 \/ n = 8 \/ n = 9 \/ n = 10 \/ n = 11 \/ n = 12
  \/ n = 13 \/ n = 14 \/ n = 15.
Proof. lia. Qed.

(** On an integer rate between 5 and 15 the number arithmetic of the
    rule is the integer rule. *)
Lemma adjustFrameRate_integer (s : state) (currentFps latency : float) (n : Z) :
  5 <= n <= 15 -> targetFps s = float_of_Z n ->
  targetFps (snd (adjustFrameRate s currentFps latency))
  = float_of_Z (retune n (poor s currentFps latency) (good s currentFps latency)).
Proof.
  intros Hn Ht.
  rewrite (proj2 (adjustFrameRate_rule s currentFps latency)).
  destruct (poor s currentFps latency), (good s currentFps latency);
    rewrite Ht; unfold retune;
    destruct (small_rate n Hn) as [E|[E|[E|[E|[E|[E|[E|[E|[E|[E|E]]]]]]]]]];
    rewrite E; vm_compute; reflexivity.
Qed.

Lemma retune_bounds (n : Z) (p g : bool) :
  5 <= n <= 15 -> 5 <= retune n p g <= 15.
Proof. unfold retune. destruct p, g; lia. Qed.

Lemma integer_rate_bounds (n : Z) :
  5 <= n <= 15 ->
  (5 <=? float_of_Z n)%float = true /\ (float_of_Z n <=? 15)%float = true.
Proof.
  intro Hn.
  destruct (small_rate n Hn) as [E|[E|[E|[E|[E|[E|[E|[E|[E|[E|E]]]]]]]]]];
    rewrite E; split; vm_compute; reflexivity.
Qed.

(** From the default, every sequence of calls leaves an integer rate
    between 5 and 15. *)
Lemma adjustAll_integer (calls : list (float * float)) (s : state) (n : Z) :
  5 <= n <= 15 -> targetFps s = float_of_Z n ->
  exists k, 5 <= k <= 15 /\ targetFps (adjustAll s calls) = float_of_Z k.
Proof.
  revert s n. induction calls as [|[f l] calls IH]; intros s n Hn Ht.
  - exists n. split; assumption.
  - cbn [adjustAll fold_left fst snd].
    apply (IH _ (retune n (poor s f l) (good s f l))).
    + apply retune_bounds, Hn.
    + apply adjustFrameRate_integer; assumption.
Qed.

(** C9. One call of [adjustFrameRate] lowers the target by 1, not below
    5, exactly when the measured fps is under 0.4 of the target or the
    latency is over 300 ms; otherwise it raises it by 1, not above 15,
    exactly when the fps is over 1.5 of the target and the latency under
    50 ms; otherwise the target stays. From the default of 10 the target
    is within 5 and 15 after every sequence of calls. *)
Theorem adjustFrameRate_spec
    (s : state) (currentFps latency : float) (calls : list (float * float)) :
  let poor := ((currentFps <? targetFps s * 0.4) || (300 <? latency))%float in
  let good := ((targetFps s * 1.5 <? currentFps) && (latency <? 50))%float in
  let r := adjustFrameRate s currentFps latency in
  fst r = targetFps (snd r)
  /\ targetFps (snd r)
     = (if poor then Math_max 5 (targetFps s - 1)
        else if good then Math_min 15 (targetFps s + 1)
        else targetFps s)
  /\ (forall n, 5 <= n <= 15 -> targetFps s = float_of_Z n ->
        targetFps (snd r)
        = float_of_Z (if poor then Z.max 5 (n - 1)
                      else if good then Z.min 15 (n + 1)
                      else n))
  /\ targetFps default = float_of_Z 10
  /\ exists k, 5 <= k <= 15
       /\ targetFps (adjustAll default calls) = float_of_Z k
       /\ (5 <=? targetFps (adjustAll default calls))%float = true
       /\ (targetFps (adjustAll default calls) <=? 15)%float = true.
Proof.
  cbv zeta. split; [reflexivity|]. split; [reflexivity|]. split.
  - intros n Hn Ht. apply (adjustFrameRate_integer s currentFps latency n Hn Ht).
  - split; [reflexivity|].
    destruct (adjustAll_integer calls default 10) as (k & Hk & Ek);
      [lia|reflexivity|].
    exists k. rewrite Ek. split; [exact Hk|]. split; [reflexivity|].
    apply integer_rate_bounds, Hk.
Qed.

End OptimizerFacts.

(** ** The latency monitor *)

Module MonitorFacts.
Import LatencyMonitor ControlSpec.

Lemma relativeIndex_back (len k : nat) :
  relativeIndex len (- Z.of_nat (S k)) = (len - S k)%nat.
Proof.
  unfold relativeIndex.
  destruct (Z.ltb_spec (- Z.of_nat (S k)) 0); lia.
Qed.

Lemma slice_recent {A : Type} (l : list A) : slice l (-5) None = lastn 5 l.
Proof.
  unfold slice, lastn.
  rewrite (relativeIndex_back (length l) 4 : relativeIndex _ (-5) = _).
  apply firstn_all2. rewrite length_skipn. lia.
Qed.

Lemma slice_older {A : Type} (l : list A) :
  slice l (-10) (Some (-5)) = lastn 5 (droplast 5 l).
Proof.
  unfold slice, lastn, droplast.
  rewrite (relativeIndex_back (length l) 9 : relativeIndex _ (-10) = _).
  rewrite (relativeIndex_back (length l) 4 : relativeIndex _ (-5) = _).
  rewrite length_firstn, skipn_firstn_comm.
  replace (Nat.min (length l - 5) (length l) - 5)%nat with (length l - 10)%nat
    by lia.
  reflexivity.
Qed.

Lemma lastn_length {A : Type} (k : nat) (l : list A) :
  length (lastn k l) = Nat.min k (length l).
Proof. unfold lastn. rewrite length_skipn. lia. Qed.

Lemma droplast_length {A : Type} (k : nat) (l : list A) :
  length (droplast k l) = (length l - k)%nat.
Proof. unfold droplast. rewrite length_firstn. lia. Qed.

(** The trend in terms of the two windows. *)
Lemma getLatencyTrend_windows (s : state) :
  getLatencyTrend s
  = if (length (latencyHistory s) <=? 5)%nat then stable
    else classify (mean (lastn 5 (latencyHistory s))
                   - mean (lastn 5 (droplast 5 (latencyHistory s)))).
Proof.
  unfold getLatencyTrend. rewrite slice_recent, slice_older.
  pose proof (lastn_length 5 (droplast 5 (latencyHistory s))) as Ho.
  rewrite droplast_length in Ho.
  destruct (Nat.ltb_spec (length (latencyHistory s)) 5) as [H|H].
  - destruct (Nat.leb_spec (length (latencyHistory s)) 5); [reflexivity|lia].
  - destruct (Nat.leb_spec (length (latencyHistory s)) 5) as [H5|H5];
      destruct (Nat.eqb_spec
                  (length (lastn 5 (droplast 5 (latencyHistory s)))) 0);
      try reflexivity; lia.
Qed.

Lemma classify_improving (d : float) :
  classify d = improving <-> (d <? -10)%float = true.
Proof.
  unfold classify. destruct (d <? -10)%float; [tauto|].
  destruct (10 <? d)%float; split; discriminate.
Qed.

Lemma classify_degrading (d : float) :
  classify d = degrading <-> (10 <? d)%float = true.
Proof.
  unfold classify. destruct (10 <? d)%float eqn:E.
  - rewrite (FloatFacts.above_10_not_below d E). tauto.
  - destruct (d <? -10)%float; split; discriminate.
Qed.

Lemma classify_stable (d : float) :
  classify d = stable
  <-> (d <? -10)%float = false /\ (10 <? d)%float = false.
Proof.
  unfold classify. destruct (d <? -10)%float.
  - split; [discriminate|]. intros [H _]; discriminate H.
  - destruct (10 <? d)%float.
    + split; [discriminate|]. intros [_ H]; discriminate H.
    + tauto.
Qed.

(** C5, as the code has it. The trend is [stable] whenever at most 5
    samples exist. With 6 samples or more it compares the mean of the most
    recent 5 with the mean of the samples before them, at most 5 of them
    (exactly 5 once 10 samples exist): [improving] exactly when the recent
    mean is more than 10 ms lower, [degrading] exactly when it is more
    than 10 ms higher, [stable] otherwise. Five samples of 100 followed by
    five of 50 give [improving], the reverse order gives [degrading]. *)
Theorem getLatencyTrend_spec (s : state) :
  let h := latencyHistory s in
  let recent := lastn 5 h in
  let older := lastn 5 (droplast 5 h) in
  let difference := (mean recent - mean older)%float in
  ((length h <= 5)%nat -> getLatencyTrend s = stable)
  /\ ((6 <= length h)%nat ->
      length recent = 5%nat
      /\ length older = Nat.min 5 (length h - 5)
      /\ (getLatencyTrend s = improving <-> (difference <? -10)%float = true)
      /\ (getLatencyTrend s = degrading <-> (10 <? difference)%float = true)
      /\ (getLatencyTrend s = stable
          <-> (difference <? -10)%float = false
              /\ (10 <? difference)%float = false))
  /\ ((10 <= length h)%nat -> length older = 5%nat)
  /\ getLatencyTrend (feed [100; 100; 100; 100; 100; 50; 50; 50; 50; 50]%float)
     = improving
  /\ getLatencyTrend (feed [50; 50; 50; 50; 50; 100; 100; 100; 100; 100]%float)
     = degrading.
Proof.
  cbv zeta. rewrite getLatencyTrend_windows. split; [|split; [|split]].
  - intro H. destruct (Nat.leb_spec (length (latencyHistory s)) 5);
      [reflexivity|lia].
  - intro H. destruct (Nat.leb_spec (length (latencyHistory s)) 5); [lia|].
    rewrite !lastn_length, droplast_length.
    split; [lia|]. split; [reflexivity|].
    split; [apply classify_improving|].
    split; [apply classify_degrading|apply classify_stable].
  - intro H. rewrite lastn_length, droplast_length. lia.
  - split; vm_compute; reflexivity.
Qed.

(** C5, as stated, fails below 10 samples: six samples already give a
    trend other than [stable]. *)
Lemma getLatencyTrend_six_samples :
  length (latencyHistory (feed [100; 50; 50; 50; 50; 50]%float)) = 6%nat
  /\ getLatencyTrend (feed [100; 50; 50; 50; 50; 50]%float) = improving.
Proof. split; vm_compute; reflexivity. Qed.

End MonitorFacts.

(** ** The connection hook *)

Module HookFacts.
Import UseWebSocket ControlSpec QueueSpec.

(** *** Lists *)

Lemma lastn_all {A : Type} (k : nat) (l : list A) :
  (length l <= k)%nat -> lastn k l = l.
Proof.
  intro H. unfold lastn. replace (length l - k)%nat with 0%nat by lia.
  reflexivity.
Qed.

Lemma lastn_app_lastn {A : Type} (k : nat) (a b : list A) :
  lastn k (lastn k a ++ b) = lastn k (a ++ b).
Proof.
  unfold lastn at 2.
  assert (E : (skipn (length a - k) a ++ b
               = skipn (length a - k) (a ++ b))%list).
  { rewrite skipn_app.
    replace (length a - k - length a)%nat with 0%nat by lia. reflexivity. }
  rewrite E. unfold lastn. rewrite skipn_skipn, length_skipn, !length_app.
  f_equal. lia.
Qed.

Lemma lastn_push_full {A : Type} (k : nat) (l : list A) (x : A) :
  length l = k -> lastn k (l ++ [x]) = tl (l ++ [x]).
Proof.
  intro H. unfold lastn. rewrite length_app. cbn [length].
  replace (length l + 1 - k)%nat with 1%nat by lia.
  destruct (l ++ [x])%list; reflexivity.
Qed.

(** *** One message, not connected *)

Lemma sendMessage_closed (now : Z) (s : state) (data : message) :
  socketOpen s = false -> (length (messageQueue s) <= capacity)%nat ->
  let s' := sendMessage now s data in
  messageQueue s' = lastn capacity (messageQueue s ++ [data])
  /\ (length (messageQueue s') <= capacity)%nat
  /\ sent s' = sent s
  /\ socketOpen s' = false
  /\ warnings s'
     = (warnings s
        ++ repeat dropNotice (length (messageQueue s ++ [data]) - capacity))%list.
Proof.
  intros Hc Hq. cbv zeta. unfold sendMessage. rewrite Hc.
  unfold capacity, push, shift in *.
  cbn [set_queue setMessageQueueSize messageQueue].
  rewrite length_app. cbn [length].
  destruct (Nat.ltb_spec 50 (length (messageQueue s) + 1)) as [H|H].
  - assert (E : length (messageQueue s) = 50%nat) by lia.
    unfold socketOpen in *.
    unfold push.
    cbn [console_warn set_queue messageQueue sent warnings wsRef].
    rewrite (lastn_push_full 50 _ _ E).
    split; [reflexivity|]. split.
    + destruct (messageQueue s) as [|m l]; [discriminate E|].
      change (tl ((m :: l) ++ [data])) with (l ++ [data])%list.
      rewrite length_app. cbn [length] in *. lia.
    + split; [reflexivity|]. split; [exact Hc|].
      rewrite E. reflexivity.
  - unfold socketOpen in *.
    cbn [set_queue setMessageQueueSize messageQueue sent warnings wsRef].
    rewrite lastn_all by (rewrite length_app; cbn [length]; lia).
    split; [reflexivity|]. split; [rewrite length_app; cbn [length]; lia|].
    split; [reflexivity|]. split; [exact Hc|].
    replace (length (messageQueue s) + 1 - 50)%nat with 0%nat by lia.
    cbn [repeat]. rewrite app_nil_r. reflexivity.
Qed.

(** *** Any number of messages, not connected *)

Lemma sendAll_closed (now : Z) (msgs : list message) (s : state) :
  socketOpen s = false -> (length (messageQueue s) <= capacity)%nat ->
  let s' := sendAll now s msgs in
  messageQueue s' = lastn capacity (messageQueue s ++ msgs)
  /\ sent s' = sent s
  /\ warnings s'
     = (warnings s
        ++ repeat dropNotice (length (messageQueue s ++ msgs) - capacity))%list.
Proof.
  revert s. induction msgs as [|m msgs IH]; intros s Hc Hq; cbv zeta.
  - cbn [sendAll fold_left]. rewrite app_nil_r.
    rewrite lastn_all by exact Hq.
    replace (length (messageQueue s) - capacity)%nat with 0%nat by lia.
    cbn [repeat]. rewrite app_nil_r. repeat split; reflexivity.
  - cbn [sendAll fold_left].
    destruct (sendMessage_closed now s m Hc Hq) as (Eq & Hq' & Es & Hc' & Ew).
    destruct (IH _ Hc' Hq') as (Eq2 & Es2 & Ew2).
    unfold sendAll in *. rewrite Eq2, Es2, Ew2, Ew, Es. clear Eq2 Es2 Ew2.
    rewrite Eq at 1. rewrite lastn_app_lastn, <- app_assoc.
    split; [reflexivity|]. split; [reflexivity|].
    rewrite <- app_assoc, <- repeat_app. f_equal. f_equal.
    assert (L : length (messageQueue (sendMessage now s m))
                = Nat.min capacity (length (messageQueue s) + 1)).
    { rewrite Eq. unfold lastn. rewrite length_skipn, length_app.
      cbn [length]. lia. }
    rewrite !length_app, L. cbn [length]. unfold capacity in *. lia.
Qed.

Lemma sendMessage_closed_step (now : Z) (s : state) (data : message) :
  socketOpen s = false ->
  let queued := (messageQueue s ++ [data])%list in
  let s' := sendMessage now s data in
  messageQueue s' = (if (capacity <? length queued)%nat then tl queued else queued)
  /\ sent s' = sent s
  /\ warnings s'
     = (if (capacity <? length queued)%nat
        then warnings s ++ [dropNotice] else warnings s)%list.
Proof.
  intro Hc. cbv zeta. unfold sendMessage. rewrite Hc.
  unfold capacity, push, shift.
  cbn [set_queue setMessageQueueSize messageQueue].
  destruct (50 <? length (messageQueue s ++ [data]))%nat;
    repeat split; reflexivity.
Qed.

(** C6. While the socket is not open, [sendMessage] appends the message
    to the queue and, when that makes more than 50, drops exactly the
    oldest one and logs the drop; nothing is sent and nothing is thrown.
    So the queue never exceeds 50, and 51 messages submitted to an empty
    queue leave the last 50, in order, with one drop logged. *)
Theorem sendMessage_enqueue (now : Z) (s : state) (data : message) :
  socketOpen s = false ->
  let queued := (messageQueue s ++ [data])%list in
  let s' := sendMessage now s data in
  messageQueue s' = (if (50 <? length queued)%nat then tl queued else queued)
  /\ sent s' = sent s
  /\ warnings s'
     = (if (50 <? length queued)%nat
        then warnings s ++ [dropNotice] else warnings s)%list
  /\ ((length (messageQueue s) <= 50)%nat ->
      (length (messageQueue s') <= 50)%nat)
  /\ forall (oldest : message) (rest : list message),
       messageQueue s = [] -> length rest = 50%nat ->
       let s51 := sendAll now s (oldest :: rest) in
       messageQueue s51 = rest
       /\ length (messageQueue s51) = 50%nat
       /\ sent s51 = sent s
       /\ warnings s51 = (warnings s ++ [dropNotice])%list.
Proof.
  intro Hc. cbv zeta.
  destruct (sendMessage_closed_step now s data Hc) as (Eq & Es & Ew).
  split; [exact Eq|]. split; [exact Es|]. split; [exact Ew|]. split.
  - intro Hq. apply (sendMessage_closed now s data Hc Hq).
  - intros oldest rest He Hr.
    destruct (sendAll_closed now (oldest :: rest) s Hc) as (Q & S' & W).
    { rewrite He. cbn. lia. }
    rewrite Q, S', W, He. cbn [app length]. rewrite Hr.
    unfold lastn, capacity. cbn [length]. rewrite Hr.
    cbn [Nat.sub skipn repeat].
    repeat split; try reflexivity. exact Hr.
Qed.

Lemma sendMessage_enqueue_witness :
  socketOpen (connect initial) = false
  /\ messageQueue (sendMessage 7 (connect initial) (BinaryData [x01]))
     = [BinaryData [x01]].
Proof.
  split; [reflexivity|].
  exact (proj1 (sendMessage_enqueue 7 (connect initial) (BinaryData [x01])
                  eq_refl)).
Defined.

(** The size the hook reports is read before the oldest message is
    dropped: on a full queue it shows 51 while 50 messages are held. *)
Lemma reported_size_when_full (now : Z) (s : state) (data : message) :
  socketOpen s = false -> length (messageQueue s) = 50%nat ->
  messageQueueSize (sendMessage now s data) = 51%nat
  /\ length (messageQueue (sendMessage now s data)) = 50%nat.
Proof.
  intros Hc Hq. unfold sendMessage. rewrite Hc. unfold push, shift.
  cbn [set_queue setMessageQueueSize messageQueue].
  rewrite length_app, Hq. cbn [length Nat.add Nat.ltb Nat.leb].
  cbn [console_warn set_queue messageQueueSize messageQueue].
  split; [reflexivity|].
  destruct (messageQueue s) as [|m l]; [discriminate Hq|].
  change (tl ((m :: l) ++ [data])) with (l ++ [data])%list.
  rewrite length_app. cbn [length] in *. lia.
Qed.

(** *** Backoff *)

Lemma backoffTime_closed_form (n : nat) : backoffTime n = delayOf n.
Proof.
  unfold backoffTime.
  do 5 (destruct n as [|n]; [reflexivity|]).
  cbn [delayOf].
  assert (H : 2 ^ 5 <= 2 ^ Z.of_nat (S (S (S (S (S n))))))
    by (apply Z.pow_le_mono_r; lia).
  change (2 ^ 5) with 32 in H. lia.
Qed.

(** C7, as the code has it. When the reconnect effect runs with the hook
    disconnected and without error, and the attempt counter [n] is below 5,
    it arms the timer with [min (1000 * 2^n) 30000] ms: 1000, 2000, 4000,
    8000 and 16000 for the counters 0 to 4. With the counter below 5 and
    the hook connected or in error it does nothing. With the counter at 5
    or above it arms nothing and gives up: the 30000 ms ceiling is never
    armed. The timer's callback increments the counter and then
    connects. *)
Theorem reconnect_backoff (s : state) :
  let n := reconnectAttempts s in
  backoffTime n = Z.min (1000 * 2 ^ Z.of_nat n) 30000
  /\ map backoffTime [0; 1; 2; 3; 4]%nat = [1000; 2000; 4000; 8000; 16000]
  /\ (isConnected s = false -> error s = None -> (n < 5)%nat ->
      reconnectTimeoutRef (reconnectEffect s) = Some (backoffTime n)
      /\ backoffTime n = delayOf n
      /\ backoffTime n <= 16000
      /\ connectionStatus (reconnectEffect s) = reconnecting
      /\ reconnectAttempts (reconnectEffect s) = n)
  /\ (isConnected s = true \/ error s <> None -> (n < 5)%nat ->
      reconnectEffect s = s)
  /\ ((5 <= n)%nat ->
      reconnectTimeoutRef (reconnectEffect s) = reconnectTimeoutRef s
      /\ connectionStatus (reconnectEffect s) = disconnected
      /\ error (reconnectEffect s)
         = Some "Max reconnection attempts reached"%string
      /\ reconnectAttempts (reconnectEffect s) = n)
  /\ reconnectAttempts (reconnectTimeout s) = S n
  /\ connectionStatus (reconnectTimeout s) = connecting
  /\ wsRef (reconnectTimeout s) = Some CONNECTING.
Proof.
  cbv zeta. split; [reflexivity|]. split; [reflexivity|].
  split; [|split; [|split; [|repeat split; reflexivity]]].
  - intros Hc He Ha. unfold reconnectEffect. rewrite Hc, He.
    pose proof Ha as Hb. apply Nat.ltb_lt in Hb.
    unfold maxReconnectAttempts. rewrite Hb.
    cbn [negb andb reconnectTimeoutRef connectionStatus reconnectAttempts].
    split; [reflexivity|]. split; [apply backoffTime_closed_form|].
    split; [|split; reflexivity].
    rewrite backoffTime_closed_form.
    destruct (reconnectAttempts s) as [|[|[|[|[|k]]]]]; cbn [delayOf]; lia.
  - intros H Ha. unfold reconnectEffect, maxReconnectAttempts.
    assert (E : negb (isConnected s)
                && match error s with None => true | Some _ => false end
                = false).
    { destruct H as [H|H]; [rewrite H; reflexivity|].
      destruct (error s); [apply andb_false_r|contradiction H; reflexivity]. }
    rewrite E. cbn [andb].
    destruct (Nat.leb_spec 5 (reconnectAttempts s)); [lia|reflexivity].
  - intro Ha. unfold reconnectEffect, maxReconnectAttempts.
    destruct (Nat.ltb_spec (reconnectAttempts s) 5); [lia|].
    rewrite andb_false_r.
    destruct (Nat.leb_spec 5 (reconnectAttempts s)); [|lia].
    repeat split; reflexivity.
Qed.

(** C7, as stated, fails at attempt 5. The hook mounts and arms its first
    retry; the socket of each retry closes, and each time a message is
    queued the reconnect effect runs again and arms the next retry. After
    the retries with
    the counters 0 to 4 the counter is 5, for which the formula gives
    30000 ms; the effect arms no timer ([reconnectTimeoutRef] still holds
    the 16000 ms timer of attempt 4, which has fired) and reports that it
    gives up. *)
Lemma no_delay_at_attempt_5 :
  let m := BinaryData [x01] in
  let s5 :=
    Connection.run initial
      [Connection.Connect; Connection.ReconnectEffect;
       Connection.ReconnectTimer; Connection.SocketCloses;
       Connection.Send 1 m; Connection.ReconnectEffect;
       Connection.ReconnectTimer; Connection.SocketCloses;
       Connection.Send 2 m; Connection.ReconnectEffect;
       Connection.ReconnectTimer; Connection.SocketCloses;
       Connection.Send 3 m; Connection.ReconnectEffect;
       Connection.ReconnectTimer; Connection.SocketCloses;
       Connection.Send 4 m; Connection.ReconnectEffect;
       Connection.ReconnectTimer; Connection.SocketCloses;
       Connection.Send 5 m] in
  reconnectAttempts s5 = 5%nat
  /\ isConnected s5 = false
  /\ error s5 = None
  /\ Z.min (1000 * 2 ^ Z.of_nat (reconnectAttempts s5)) 30000 = 30000
  /\ reconnectTimeoutRef s5 = Some 16000
  /\ reconnectTimeoutRef (reconnectEffect s5) = Some 16000
  /\ reconnectTimeoutRef (reconnectEffect s5) <> Some 30000
  /\ connectionStatus (reconnectEffect s5) = disconnected
  /\ error (reconnectEffect s5)
     = Some "Max reconnection attempts reached"%string.
Proof.
  cbv zeta. do 6 (split; [vm_compute; reflexivity|]).
  split; [vm_compute; discriminate|]. split; vm_compute; reflexivity.
Qed.

(** *** Opening the connection *)

Lemma opened_discards (now : Z) (s : state) :
  isConnected (opened now s) = true
  /\ messageQueue (opened now s) = []
  /\ sent (opened now s) = sent s.
Proof. repeat split; reflexivity. Qed.

(** C1, on the code. Three messages are queued while the socket is still
    connecting; when it opens, [onopen] empties the queue before the flush
    effect reads it, so none of the three reaches the socket, and the
    first frame sent is the message submitted afterwards. *)
Theorem queued_messages_lost_on_open :
  let m1 := BinaryData [x01] in
  let m2 := BinaryData [x02] in
  let m3 := BinaryData [x03] in
  let m4 := BinaryData [x04] in
  let down := connect initial in
  let queued := sendAll 10 down [m1; m2; m3] in
  let up := opened 20 queued in
  messageQueue queued = [m1; m2; m3]
  /\ sent queued = []
  /\ isConnected up = true
  /\ socketOpen up = true
  /\ messageQueue up = []
  /\ sent up = []
  /\ sent (sendMessage 30 up m4) = [BinaryFrame [x04]].
Proof. repeat split; reflexivity. Qed.

End HookFacts.

(** * Further properties of the code *)

(** ** Identifiers *)

Module UuidFacts.
Import ArrayBufferUtils CodecSpec UuidUtils.

Lemma strictEq_refl (a : jsstring) : strictEq a a = true.
Proof. induction a as [|x a IH]; cbn; [reflexivity|]. rewrite N.eqb_refl. exact IH. Qed.

Lemma hexDigit_is_hex (v : N) :
  (v < 16)%N -> isHexDigit (hexDigit v) = true /\ toLower (hexDigit v) = hexDigit v.
Proof.
  intro H. unfold hexDigit, isHexDigit, hexValue, toLower.
  destruct (N.ltb_spec v 10).
  - replace ((48 <=? 48 + v) && (48 + v <=? 57))%N with true
      by (symmetry; apply andb_true_iff; split; apply N.leb_le; lia).
    replace ((65 <=? 48 + v) && (48 + v <=? 90))%N with false
      by (symmetry; apply andb_false_iff; left; apply N.leb_gt; lia).
    split; reflexivity.
  - replace ((48 <=? 87 + v) && (87 + v <=? 57))%N with false
      by (symmetry; apply andb_false_iff; right; apply N.leb_gt; lia).
    replace ((97 <=? 87 + v) && (87 + v <=? 102))%N with true
      by (symmetry; apply andb_true_iff; split; apply N.leb_le; lia).
    replace ((65 <=? 87 + v) && (87 + v <=? 90))%N with false
      by (symmetry; apply andb_false_iff; right; apply N.leb_gt; lia).
    split; reflexivity.
Qed.

Lemma digitToString_small (v : N) : (v < 16)%N -> digitToString v = [hexDigit v].
Proof. intro H. unfold digitToString. destruct (N.ltb_spec v 16); [reflexivity|lia]. Qed.

(** The variant digit: [r & 0x3 | 0x8] is 8, 9, 10 or 11. *)
Lemma variant_digit (r : N) : (8 <= N.lor (N.land r 3) 8 <= 11)%N.
Proof.
  change 3%N with (N.ones 2). rewrite N.land_ones.
  assert (H : (r mod 2 ^ 2 < 4)%N) by (apply N.mod_upper_bound; discriminate).
  destruct (r mod 2 ^ 2)%N as [|[[]|[]|]]; cbn in *; lia.
Qed.

Lemma generateUuid_shape (random : nat -> N) :
  (forall k, (random k < 16)%N) ->
  let h k := hexDigit (random k) in
  generateUuid random
  = [h 0; h 1; h 2; h 3; h 4; h 5; h 6; h 7; hyphen;
     h 8; h 9; h 10; h 11; hyphen;
     52%N; h 12; h 13; h 14; hyphen;
     hexDigit (N.lor (N.land (random 15) 3) 8); h 16; h 17; h 18; hyphen;
     h 19; h 20; h 21; h 22; h 23; h 24; h 25; h 26; h 27; h 28; h 29;
     h 30]%nat.
Proof.
  intros H h. unfold generateUuid.
  change (js "xxxxxxxx-xxxx-4xxx-yxxx-xxxxxxxxxxxx")
    with [120; 120; 120; 120; 120; 120; 120; 120; 45; 120; 120; 120; 120; 45;
          52; 120; 120; 120; 45; 121; 120; 120; 120; 45; 120; 120; 120; 120;
          120; 120; 120; 120; 120; 120; 120; 120]%N.
  cbn [replaceXY N.eqb Pos.eqb orb].
  rewrite !digitToString_small
    by first [ apply H | pose proof (variant_digit (random 15%nat)); lia ].
  reflexivity.
Qed.

Lemma generateUuid_wellFormed (random : nat -> N) :
  (forall k, (random k < 16)%N) ->
  wellFormedUuid (generateUuid random) = true
  /\ toLowerCase (generateUuid random) = generateUuid random.
Proof.
  intro H.
  assert (Hy : (N.lor (N.land (random 15%nat) 3) 8 < 16)%N)
    by (pose proof (variant_digit (random 15%nat)); lia).
  split.
  - rewrite (generateUuid_shape random H). cbv zeta. unfold wellFormedUuid.
    cbn [length Nat.eqb andb forallb seq nth hyphenPosition orb].
    rewrite !(proj1 (hexDigit_is_hex _ (H _))),
      (proj1 (hexDigit_is_hex _ Hy)).
    reflexivity.
  - rewrite (generateUuid_shape random H). cbv zeta. unfold toLowerCase.
    cbn [map].
    rewrite !(proj2 (hexDigit_is_hex _ (H _))),
      (proj2 (hexDigit_is_hex _ Hy)).
    reflexivity.
Qed.

(** X1. Whatever [Math.random] gives, [generateUuid] returns a canonical
    8-4-4-4-12 identifier in lower case, with version digit 4 and variant
    digit 8, 9, a or b; converting it to bytes and back returns it
    unchanged. *)
Theorem generateUuid_canonical (random : nat -> N) :
  (forall k, (random k < 16)%N) ->
  let g := generateUuid random in
  wellFormedUuid g = true
  /\ toLowerCase g = g
  /\ nth 14 g 0%N = 52%N
  /\ In (nth 19 g 0%N) [56; 57; 97; 98]%N
  /\ bytesToUuid (uuidToBytes g) = g.
Proof.
  intro H. cbv zeta.
  destruct (generateUuid_wellFormed random H) as [Hw Hl].
  split; [exact Hw|]. split; [exact Hl|]. split; [|split].
  - rewrite (generateUuid_shape random H). reflexivity.
  - rewrite (generateUuid_shape random H). cbv zeta. cbn [nth].
    pose proof (variant_digit (random 15%nat)) as Hv.
    assert (E : (N.lor (N.land (random 15%nat) 3) 8 = 8
                 \/ N.lor (N.land (random 15%nat) 3) 8 = 9
                 \/ N.lor (N.land (random 15%nat) 3) 8 = 10
                 \/ N.lor (N.land (random 15%nat) 3) 8 = 11)%N) by lia.
    destruct E as [E|[E|[E|E]]]; rewrite E; cbn; tauto.
  - rewrite (CodecFacts.uuid_roundtrip _ Hw). exact Hl.
Qed.

Lemma generateUuid_canonical_witness :
  wellFormedUuid (generateUuid (fun k => N.of_nat k mod 16)%N) = true.
Proof.
  refine (proj1 (generateUuid_canonical (fun k => N.of_nat k mod 16)%N _)).
  intro k. apply N.mod_upper_bound. discriminate.
Defined.

Lemma toDouble_nonneg (z : Z) : 0 <= z -> 0 <= toDouble z.
Proof.
  intro H. unfold toDouble.
  destruct (Z.log2 z - 52 <=? 0); [exact H|].
  apply Z.shiftl_nonneg.
  assert (0 <= Z.shiftr z (Z.log2 z - 52)) by (apply Z.shiftr_nonneg; exact H).
  destruct ((2 ^ (Z.log2 z - 52 - 1) <? Z.land z (Z.ones (Z.log2 z - 52)))
            || (Z.land z (Z.ones (Z.log2 z - 52)) =? 2 ^ (Z.log2 z - 52 - 1))
               && Z.odd (Z.shiftr z (Z.log2 z - 52))); lia.
Qed.

(** X2. The self-test [testMetadataHandling] succeeds exactly when the
    clock reading survives the 64-bit field and the conversion back to a
    number: for every reading from 0 to 2^53 and all random draws it
    returns [true], and for a negative reading it returns [false]. *)
Theorem testMetadataHandling_result (now : Z) (random : nat -> N) :
  (forall k, (random k < 16)%N) ->
  testMetadataHandling now random = (toDouble (now mod 2 ^ 64) =? now)
  /\ (0 <= now <= 2 ^ 53 -> testMetadataHandling now random = true)
  /\ (now < 0 -> testMetadataHandling now random = false).
Proof.
  intro H.
  destruct (generateUuid_wellFormed random H) as [Hw Hl].
  assert (E : testMetadataHandling now random
              = (toDouble (now mod 2 ^ 64) =? now)).
  { unfold testMetadataHandling. rewrite CodecFacts.addMetadata_layout.
    cbn [bind].
    rewrite CodecFacts.extractMetadata_layout
      by (apply CodecFacts.bigEndian_length
          || apply CodecFacts.uuidToBytes_length).
    cbn [timestamp uuid data].
    rewrite CodecFacts.fromBigEndian_bigEndian, Z.mod_mod by lia.
    rewrite (CodecFacts.uuid_roundtrip _ Hw), Hl, strictEq_refl.
    rewrite Nat.eqb_refl, !andb_true_r. reflexivity. }
  split; [exact E|]. rewrite E. split.
  - intro Hn. rewrite Z.mod_small by lia.
    rewrite CodecFacts.toDouble_exact
      by (apply CodecFacts.safe_integer_binary64; lia).
    apply Z.eqb_refl.
  - intro Hn. apply Z.eqb_neq.
    assert (0 <= toDouble (now mod 2 ^ 64)).
    { apply toDouble_nonneg. apply Z.mod_pos_bound. lia. }
    lia.
Qed.

Lemma testMetadataHandling_result_witness :
  testMetadataHandling 1700000000000 (fun _ => 11%N) = true.
Proof.
  refine (proj1 (proj2 (testMetadataHandling_result 1700000000000
                          (fun _ => 11%N) _)) _).
  - intros _. reflexivity.
  - lia.
Defined.

(** *** From bytes to text and back *)

Lemma byte_to_hex (b : byte) :
  padStart (toString16 b) 2 48%N = [hiDigit b; loDigit b].
Proof. destruct b; reflexivity. Qed.

Lemma hex_to_byte (b : byte) :
  ToUint8 (parseInt16 [hiDigit b; loDigit b]) = b.
Proof. destruct b; vm_compute; reflexivity. Qed.

Lemma byte_digits_hex (b : byte) :
  isHexDigit (hiDigit b) = true /\ isHexDigit (loDigit b) = true
  /\ toLower (hiDigit b) = hiDigit b /\ toLower (loDigit b) = loDigit b.
Proof.
  pose proof (Byte.to_N_bounded b) as Hb.
  assert (H1 : (Byte.to_N b / 16 < 16)%N)
    by (apply N.Div0.div_lt_upper_bound; lia).
  assert (H2 : (Byte.to_N b mod 16 < 16)%N)
    by (apply N.mod_upper_bound; discriminate).
  unfold hiDigit, loDigit.
  destruct (hexDigit_is_hex _ H1), (hexDigit_is_hex _ H2). tauto.
Qed.

Lemma bytes_text_bytes (bytes : list byte) :
  length bytes = 16%nat ->
  wellFormedUuid (bytesToUuid bytes) = true
  /\ toLowerCase (bytesToUuid bytes) = bytesToUuid bytes
  /\ uuidToBytes (bytesToUuid bytes) = bytes.
Proof.
  intro Hlen.
  do 16 (destruct bytes as [|? bytes]; [discriminate Hlen|]).
  destruct bytes; [clear Hlen|discriminate Hlen].
  unfold bytesToUuid. cbn [map concat]. rewrite !byte_to_hex.
  cbn [app str_slice skipn firstn Nat.sub].
  assert (Hh : forall x, isHexDigit (hiDigit x) = true)
    by (intro x; apply byte_digits_hex).
  assert (Hl : forall x, isHexDigit (loDigit x) = true)
    by (intro x; apply byte_digits_hex).
  split; [|split].
  - unfold wellFormedUuid.
    cbn [length Nat.eqb andb forallb seq nth hyphenPosition orb].
    rewrite !Hh, !Hl. reflexivity.
  - unfold toLowerCase. cbn [map].
    rewrite !(fun x => proj1 (proj2 (proj2 (byte_digits_hex x)))).
    rewrite !(fun x => proj2 (proj2 (proj2 (byte_digits_hex x)))).
    reflexivity.
  - unfold uuidToBytes.
    change (fun c : N => negb (c =? hyphen)%N) with notHyphen.
    repeat first [ rewrite CodecFacts.clean_hyphen
                 | rewrite CodecFacts.clean_hex by first [apply Hh | apply Hl] ].
    cbn [filter map seq substr skipn firstn Nat.mul Nat.add].
    rewrite !hex_to_byte. reflexivity.
Qed.

(** X3. Any 16 bytes print as a canonical lower-case identifier, and
    parsing that identifier gives the 16 bytes back. *)
Theorem uuidToBytes_bytesToUuid (bytes : list byte) :
  length bytes = 16%nat ->
  wellFormedUuid (bytesToUuid bytes) = true
  /\ toLowerCase (bytesToUuid bytes) = bytesToUuid bytes
  /\ uuidToBytes (bytesToUuid bytes) = bytes.
Proof. exact (bytes_text_bytes bytes). Qed.

Lemma uuidToBytes_bytesToUuid_witness :
  uuidToBytes (bytesToUuid (repeat xa7 16)) = repeat xa7 16.
Proof.
  exact (proj2 (proj2 (uuidToBytes_bytesToUuid (repeat xa7 16) eq_refl))).
Defined.

(** *** Decoding, then encoding again *)

Lemma fromBigEndian_fold (l : list byte) (acc : Z) :
  fold_left (fun a b => a * 256 + Z_of_byte b) l acc
  = acc * 2 ^ (8 * Z.of_nat (length l)) + fromBigEndian l.
Proof.
  unfold fromBigEndian. revert acc.
  induction l as [|b l IH]; intro acc.
  - cbn. lia.
  - cbn [fold_left length]. rewrite IH, (IH (0 * 256 + Z_of_byte b)).
    replace (8 * Z.of_nat (S (length l))) with (8 + 8 * Z.of_nat (length l))
      by lia.
    rewrite Z.pow_add_r by lia. change (2 ^ 8) with 256. lia.
Qed.

Lemma Z_of_byte_range (b : byte) : 0 <= Z_of_byte b < 256.
Proof. unfold Z_of_byte. pose proof (Byte.to_N_bounded b). lia. Qed.

Lemma fromBigEndian_range (l : list byte) :
  0 <= fromBigEndian l < 2 ^ (8 * Z.of_nat (length l)).
Proof.
  induction l as [|b l IH].
  - cbn. lia.
  - unfold fromBigEndian. cbn [fold_left length].
    rewrite fromBigEndian_fold.
    replace (8 * Z.of_nat (S (length l))) with (8 + 8 * Z.of_nat (length l))
      by lia.
    rewrite Z.pow_add_r by lia. change (2 ^ 8) with 256.
    pose proof (Z_of_byte_range b). nia.
Qed.

Lemma byte_of_Z_of_byte (b : byte) : byte_of_Z (Z_of_byte b) = b.
Proof.
  unfold byte_of_Z. pose proof (Z_of_byte_range b).
  rewrite Z.mod_small by lia. unfold Z_of_byte.
  rewrite N2Z.id, Byte.of_to_N. reflexivity.
Qed.

Lemma byte_of_Z_add (x y : Z) : byte_of_Z (y * 256 + x) = byte_of_Z x.
Proof.
  unfold byte_of_Z. rewrite Z.add_comm, Z.mod_add by lia. reflexivity.
Qed.

Lemma bigEndian_high (n m : nat) (a v : Z) :
  (n <= m)%nat -> bigEndian n (a * 2 ^ (8 * Z.of_nat m) + v) = bigEndian n v.
Proof.
  induction n as [|k IH]; intro H; [reflexivity|].
  cbn [bigEndian]. rewrite IH by lia. f_equal.
  rewrite !Z.shiftr_div_pow2 by lia.
  replace (8 * Z.of_nat m) with (8 * Z.of_nat k + (8 * Z.of_nat (m - S k) + 8))
    by lia.
  rewrite !Z.pow_add_r by lia. change (2 ^ 8) with 256.
  assert (Hp : 0 < 2 ^ (8 * Z.of_nat k)) by (apply Z.pow_pos_nonneg; lia).
  replace (a * (2 ^ (8 * Z.of_nat k) * (2 ^ (8 * Z.of_nat (m - S k)) * 256)) + v)
    with (v + (a * 2 ^ (8 * Z.of_nat (m - S k)) * 256) * 2 ^ (8 * Z.of_nat k))
    by ring.
  rewrite Z.div_add by lia.
  rewrite Z.add_comm. apply byte_of_Z_add.
Qed.

Lemma bigEndian_fromBigEndian (l : list byte) :
  bigEndian (length l) (fromBigEndian l) = l.
Proof.
  induction l as [|b l IH]; [reflexivity|].
  unfold fromBigEndian. cbn [fold_left length bigEndian].
  rewrite fromBigEndian_fold.
  replace (0 * 256 + Z_of_byte b) with (Z_of_byte b) by lia.
  rewrite bigEndian_high by lia. rewrite IH. f_equal.
  rewrite Z.shiftr_div_pow2 by lia.
  pose proof (fromBigEndian_range l) as Hr.
  rewrite Z.add_comm, Z.div_add by lia.
  rewrite Z.div_small by lia. apply byte_of_Z_of_byte.
Qed.

(** X4. Re-encoding what [extractMetadata] returns gives the frame back,
    byte for byte, for every frame of at least 24 bytes whose timestamp
    field holds a value that a number represents exactly. *)
Theorem addMetadata_extractMetadata (buffer : ArrayBuffer) :
  (24 <= length buffer)%nat ->
  binary64_integer (fromBigEndian (firstn 8 buffer)) ->
  exists r,
    extractMetadata buffer = Ok r
    /\ addMetadata (data r) (Integral (timestamp r)) (uuid r) = Ok buffer.
Proof.
  intros Hlen Hd.
  set (h := firstn 8 buffer) in *.
  set (u := firstn 16 (skipn 8 buffer)).
  set (p := skipn 24 buffer).
  assert (E : buffer = (h ++ u ++ p)%list).
  { unfold h, u, p. replace (skipn 24 buffer) with (skipn 16 (skipn 8 buffer))
      by (rewrite skipn_skipn; reflexivity).
    rewrite (firstn_skipn 16), (firstn_skipn 8). reflexivity. }
  assert (Hh : length h = 8%nat) by (unfold h; rewrite length_firstn; lia).
  assert (Hu : length u = 16%nat)
    by (unfold u; rewrite length_firstn, length_skipn; lia).
  clearbody h u p. subst buffer.
  rewrite (CodecFacts.extractMetadata_layout h u p Hh Hu).
  eexists. split; [reflexivity|]. cbn [data timestamp uuid].
  rewrite CodecFacts.addMetadata_layout.
  rewrite (CodecFacts.toDouble_exact _ Hd).
  pose proof (fromBigEndian_range h) as Hr. rewrite Hh in Hr.
  change (8 * Z.of_nat 8) with 64 in Hr.
  rewrite Z.mod_small by lia.
  rewrite <- Hh at 1. rewrite bigEndian_fromBigEndian.
  rewrite (proj2 (proj2 (bytes_text_bytes u Hu))).
  reflexivity.
Qed.

Lemma addMetadata_extractMetadata_witness :
  exists r,
    extractMetadata (repeat x00 23 ++ [x09; x2a]) = Ok r
    /\ addMetadata (data r) (Integral (timestamp r)) (uuid r)
       = Ok (repeat x00 23 ++ [x09; x2a]).
Proof.
  apply (addMetadata_extractMetadata (repeat x00 23 ++ [x09; x2a])).
  - cbn. lia.
  - exists 0, 0. vm_compute. repeat split; discriminate.
Defined.

End UuidFacts.

(** ** The latency window *)

Module WindowFacts.
Import LatencyMonitor LatencyAverage ControlSpec MonitorSpec.

Lemma addLatency_step (s : state) (x : float) :
  maxHistorySize s = 20%nat -> (length (latencyHistory s) <= 20)%nat ->
  maxHistorySize (addLatency s x) = 20%nat
  /\ latencyHistory (addLatency s x)
     = lastn 20 (latencyHistory s ++ filter reasonable [x]).
Proof.
  intros Hm Hl. unfold addLatency. cbn [filter]. unfold reasonable.
  destruct ((0 <? x) && (x <? 10000))%float.
  - cbn [maxHistorySize latencyHistory]. split; [exact Hm|].
    unfold push, shift. rewrite Hm, length_app. cbn [length].
    destruct (Nat.ltb_spec 20 (length (latencyHistory s) + 1)).
    + symmetry. apply HookFacts.lastn_push_full. lia.
    + symmetry. apply HookFacts.lastn_all. rewrite length_app. cbn [length]. lia.
  - split; [exact Hm|]. rewrite app_nil_r. symmetry.
    apply HookFacts.lastn_all. exact Hl.
Qed.

Lemma feed_from (samples : list float) (s : state) :
  maxHistorySize s = 20%nat -> (length (latencyHistory s) <= 20)%nat ->
  latencyHistory (fold_left addLatency samples s)
  = lastn 20 (latencyHistory s ++ filter reasonable samples).
Proof.
  revert s. induction samples as [|x samples IH]; intros s Hm Hl.
  - cbn [fold_left filter]. rewrite app_nil_r. symmetry.
    apply HookFacts.lastn_all. exact Hl.
  - cbn [fold_left].
    destruct (addLatency_step s x Hm Hl) as (Hm' & E).
    rewrite IH.
    + rewrite E, HookFacts.lastn_app_lastn, <- app_assoc.
      change (x :: samples) with ([x] ++ samples)%list.
      rewrite filter_app. reflexivity.
    + exact Hm'.
    + rewrite E. rewrite MonitorFacts.lastn_length. lia.
Qed.

Lemma feed_window (samples : list float) :
  latencyHistory (feed samples) = window samples.
Proof. unfold feed, window. rewrite feed_from; [reflexivity|reflexivity|cbn; lia]. Qed.

Lemma window_reasonable (samples : list float) (x : float) :
  In x (window samples) -> reasonable x = true.
Proof.
  unfold window, lastn. intro H.
  assert (Hx : In x (filter reasonable samples)).
  { rewrite <- (firstn_skipn
                  (length (filter reasonable samples) - 20)
                  (filter reasonable samples)).
    apply in_or_app. right. exact H. }
  apply filter_In in Hx. apply Hx.
Qed.

(** X5. After any sequence of [addLatency] calls the monitor holds exactly
    the 20 most recent samples that lie strictly between 0 and 10000 ms, in
    arrival order; every other sample (too small, too large, [NaN]) has
    left no trace. *)
Theorem addLatency_window (samples : list float) :
  latencyHistory (feed samples) = lastn 20 (filter reasonable samples)
  /\ (length (latencyHistory (feed samples)) <= 20)%nat
  /\ (forall x, In x (latencyHistory (feed samples)) -> reasonable x = true)
  /\ reasonable nan = false.
Proof.
  rewrite feed_window. split; [reflexivity|]. split; [|split].
  - unfold window. rewrite MonitorFacts.lastn_length. lia.
  - apply window_reasonable.
  - reflexivity.
Qed.

Lemma filter_all {A : Type} (f : A -> bool) (l : list A) :
  (forall x, In x l -> f x = true) -> filter f l = l.
Proof.
  induction l as [|a l IH]; intro H; [reflexivity|].
  cbn [filter]. rewrite (H a (or_introl eq_refl)). f_equal.
  apply IH. intros x Hx. apply H. right. exact Hx.
Qed.

(** X6. On a monitor fed through [addLatency], [getAverageLatency] is 0
    when no accepted sample is held and otherwise the mean of the whole
    window: its own validity filter never removes anything. *)
Theorem getAverageLatency_window (samples : list float) :
  getAverageLatency (feed samples)
  = match window samples with
    | [] => 0%float
    | _ :: _ => mean (window samples)
    end.
Proof.
  unfold getAverageLatency. rewrite feed_window.
  change (fun l : float => ((0 <? l) && (l <? 10000))%float) with reasonable.
  rewrite (filter_all reasonable (window samples) (window_reasonable samples)).
  destruct (window samples) as [|x w]; reflexivity.
Qed.

End WindowFacts.

(** ** Measuring the send rate *)

Module FpsFacts.
Import FrameRateOptimizer FpsMeasurement ControlSpec FpsSpec.

Lemma slice_back {A : Type} (l : list A) (k : nat) :
  slice l (- Z.of_nat (S k)) None = lastn (S k) l.
Proof.
  unfold slice, lastn. rewrite MonitorFacts.relativeIndex_back.
  apply firstn_all2. rewrite length_skipn. lia.
Qed.

Lemma nth_last_default {A : Type} (l : list A) (d : A) :
  nth (length l - 1) l d = last l d.
Proof.
  destruct l as [|a l _] using rev_ind; [reflexivity|].
  rewrite length_app, last_last. cbn [length].
  replace (length l + 1 - 1)%nat with (length l) by lia.
  apply nth_middle.
Qed.

Lemma calculateFps_fpsOf (s : state) :
  _calculateFps s = fpsOf (lastn 5 (sentFrameTimes s)).
Proof.
  unfold _calculateFps, fpsOf.
  rewrite (slice_back (sentFrameTimes s) 4 : slice _ (-5) None = _).
  rewrite nth_last_default.
  pose proof (MonitorFacts.lastn_length 5 (sentFrameTimes s)) as Hl.
  destruct (Nat.ltb_spec (length (sentFrameTimes s)) 2).
  - destruct (Nat.ltb_spec (length (lastn 5 (sentFrameTimes s))) 2);
      [reflexivity|lia].
  - destruct (lastn 5 (sentFrameTimes s)); reflexivity.
Qed.

Lemma kept_track (t : tracker) (uuid : jsstring) (now : float) (all : list float) :
  kept (sentFrameTimes (optimizer t)) all ->
  kept (sentFrameTimes (optimizer (trackSentFrame t uuid now))) (all ++ [now]).
Proof.
  intros (j & E & Hj & Hl & Hs). unfold trackSentFrame.
  cbn [optimizer set_sentFrameTimes sentFrameTimes]. unfold push.
  assert (Ea : (sentFrameTimes (optimizer t) ++ [now] = skipn j (all ++ [now]))%list).
  { rewrite skipn_app, E.
    replace (j - length all)%nat with 0%nat by lia. reflexivity. }
  assert (La : length (sentFrameTimes (optimizer t) ++ [now])
               = S (length (sentFrameTimes (optimizer t))))
    by (rewrite length_app; cbn [length]; lia).
  destruct (Nat.ltb_spec 20 (length (sentFrameTimes (optimizer t) ++ [now]))).
  - rewrite (slice_back _ 9 : slice _ (-10) None = _).
    exists (length (sentFrameTimes (optimizer t) ++ [now]) - 10 + j)%nat.
    split.
    + unfold lastn. rewrite <- skipn_skipn, <- Ea. reflexivity.
    + pose proof (f_equal (@length float) E) as Ls.
      rewrite length_skipn in Ls.
      rewrite MonitorFacts.lastn_length, La, length_app. cbn [length]. lia.
  - exists j. split; [exact Ea|]. rewrite length_app. cbn [length]. lia.
Qed.

Lemma kept_trackAll (sends : list (jsstring * float)) (t : tracker) (all : list float) :
  kept (sentFrameTimes (optimizer t)) all ->
  kept (sentFrameTimes (optimizer (trackAll t sends))) (all ++ map snd sends).
Proof.
  revert t all. induction sends as [|[uuid now] sends IH]; intros t all H.
  - cbn. rewrite app_nil_r. exact H.
  - cbn [trackAll fold_left map fst snd].
    replace (all ++ now :: map snd sends)%list
      with ((all ++ [now]) ++ map snd sends)%list
      by (rewrite <- app_assoc; reflexivity).
    apply IH. apply kept_track. exact H.
Qed.

Lemma kept_lastn (times all : list float) :
  kept times all -> lastn 5 times = lastn 5 all.
Proof.
  intros (j & E & Hj & Hl & Hs). subst times. unfold lastn.
  rewrite skipn_skipn, length_skipn in *. f_equal. lia.
Qed.

(** X7. After any number of tracked sends on a tracker whose time list was
    empty (a new optimizer, or one just reset), the optimizer holds at most
    20 send times, and the measured rate is the rate over the last five
    sends, [(count - 1) * 1000 / (last - first)]: the trimming of the list
    never changes what is measured. With fewer than two sends, or when the
    first and last of the five coincide, the rate is 0. *)
Theorem trackSentFrame_fps (t : tracker) (sends : list (jsstring * float)) :
  sentFrameTimes (optimizer t) = [] ->
  let t' := trackAll t sends in
  let times := map snd sends in
  (length (sentFrameTimes (optimizer t')) <= 20)%nat
  /\ lastn 5 (sentFrameTimes (optimizer t')) = lastn 5 times
  /\ _calculateFps (optimizer t') = fpsOf (lastn 5 times)
  /\ ((length sends < 2)%nat -> _calculateFps (optimizer t') = 0%float)
  /\ targetFps (optimizer t') = targetFps (optimizer t)
  /\ droppedFramesCount (optimizer t') = droppedFramesCount (optimizer t).
Proof.
  intro He. cbv zeta.
  assert (K : kept (sentFrameTimes (optimizer (trackAll t sends)))
                ([] ++ map snd sends)).
  { apply kept_trackAll. rewrite He. exists 0%nat. cbn. repeat split; lia. }
  cbn [app] in K. pose proof (kept_lastn _ _ K) as L.
  split; [destruct K as (j & _ & _ & Hl & _); exact Hl|].
  split; [exact L|].
  split; [rewrite calculateFps_fpsOf, L; reflexivity|].
  split.
  - intro Hs. rewrite calculateFps_fpsOf, L. unfold fpsOf.
    rewrite MonitorFacts.lastn_length, length_map.
    destruct (Nat.ltb_spec (Nat.min 5 (length sends)) 2); [reflexivity|lia].
  - clear. revert t. induction sends as [|e sends IH]; intro t.
    + split; reflexivity.
    + cbn [trackAll fold_left]. destruct (IH (trackSentFrame t (fst e) (snd e)))
        as (A & B).
      unfold trackAll in *. rewrite A, B. split; reflexivity.
Qed.

Lemma trackSentFrame_fps_witness :
  _calculateFps
    (optimizer
       (trackAll (mkTracker default [])
          [(js "a", 0); (js "b", 100); (js "c", 200); (js "d", 300);
           (js "e", 400)]%float))
  = 10%float.
Proof.
  rewrite (proj1 (proj2 (proj2 (trackSentFrame_fps (mkTracker default [])
             [(js "a", 0); (js "b", 100); (js "c", 200); (js "d", 300);
              (js "e", 400)]%float eq_refl)))).
  vm_compute. reflexivity.
Defined.

(** *** The set of sent frame ids *)

Lemma strictEq_eq (a b : jsstring) : UuidUtils.strictEq a b = true <-> a = b.
Proof.
  revert b. induction a as [|x a IH]; destruct b as [|y b]; cbn;
    try (split; [discriminate|discriminate]); [tauto|].
  rewrite andb_true_iff, N.eqb_eq, IH. split.
  - intros [-> ->]. reflexivity.
  - intro E. injection E. tauto.
Qed.

Lemma set_add_spec (set : list jsstring) (uuid : jsstring) :
  NoDup set ->
  NoDup (set_add set uuid) /\ In uuid (set_add set uuid)
  /\ (set_add set uuid = set \/ set_add set uuid = (set ++ [uuid])%list).
Proof.
  intro H. unfold set_add, push.
  destruct (existsb (UuidUtils.strictEq uuid) set) eqn:E.
  - apply existsb_exists in E as (y & Hy & Ey). apply strictEq_eq in Ey.
    subst y. tauto.
  - split; [|split; [apply in_or_app; right; left; reflexivity|tauto]].
    apply NoDup_app; [exact H|constructor; [intros []|constructor]|].
    intros x Hx [Ex|[]]. subst x.
    assert (existsb (UuidUtils.strictEq uuid) set = true); [|congruence].
    apply existsb_exists. exists uuid. split; [exact Hx|].
    apply strictEq_eq. reflexivity.
Qed.

Lemma ids_step (t : tracker) (uuid : jsstring) (now : float) :
  NoDup (sentFrames t) -> (length (sentFrames t) <= 100)%nat ->
  NoDup (sentFrames (trackSentFrame t uuid now))
  /\ (length (sentFrames (trackSentFrame t uuid now)) <= 100)%nat
  /\ In uuid (sentFrames (trackSentFrame t uuid now)).
Proof.
  intros Hn Hl. unfold trackSentFrame. cbn [sentFrames].
  destruct (set_add_spec (sentFrames t) uuid Hn) as (Hn' & Hi & Hc).
  destruct (Nat.ltb_spec 100 (length (set_add (sentFrames t) uuid))) as [H|H].
  - rewrite (slice_back _ 49 : slice _ (-50) None = _).
    destruct Hc as [E|E]; [rewrite E in H; lia|].
    split; [|split].
    + unfold lastn.
      rewrite <- (firstn_skipn (length (set_add (sentFrames t) uuid) - 50))
        in Hn'.
      apply NoDup_app_remove_l in Hn'. exact Hn'.
    + rewrite MonitorFacts.lastn_length. lia.
    + unfold lastn. rewrite E, length_app, skipn_app. cbn [length].
      apply in_or_app. right.
      replace (length (sentFrames t) + 1 - 50 - length (sentFrames t))%nat
        with 0%nat by lia.
      left. reflexivity.
  - tauto.
Qed.

(** X8. However many frames are tracked, the set of sent frame ids never
    holds more than 100 ids nor the same id twice, and it always contains
    the id tracked last. *)
Theorem trackSentFrame_ids (t : tracker) (sends : list (jsstring * float)) :
  sentFrames t = [] ->
  let t' := trackAll t sends in
  NoDup (sentFrames t')
  /\ (length (sentFrames t') <= 100)%nat
  /\ (forall uuid now earlier, sends = (earlier ++ [(uuid, now)])%list ->
        In uuid (sentFrames t')).
Proof.
  intro He. cbv zeta.
  assert (G : forall sends t,
             NoDup (sentFrames t) -> (length (sentFrames t) <= 100)%nat ->
             NoDup (sentFrames (trackAll t sends))
             /\ (length (sentFrames (trackAll t sends)) <= 100)%nat).
  { clear. induction sends as [|e sends IH]; intros t Hn Hl; [tauto|].
    cbn [trackAll fold_left].
    destruct (ids_step t (fst e) (snd e) Hn Hl) as (A & B & _).
    exact (IH _ A B). }
  assert (Hn : NoDup (sentFrames t)) by (rewrite He; constructor).
  assert (Hl : (length (sentFrames t) <= 100)%nat) by (rewrite He; cbn; lia).
  destruct (G sends t Hn Hl) as (A & B).
  split; [exact A|]. split; [exact B|].
  intros uuid now earlier ->. unfold trackAll. rewrite fold_left_app.
  cbn [fold_left fst snd].
  destruct (G earlier t Hn Hl) as (A' & B').
  apply (ids_step _ uuid now A' B').
Qed.

Lemma trackSentFrame_ids_witness :
  In (js "b")
    (sentFrames (trackAll (mkTracker default [])
                   [(js "a", 1%float); (js "b", 2%float)])).
Proof.
  exact (proj2 (proj2 (trackSentFrame_ids (mkTracker default [])
                         [(js "a", 1%float); (js "b", 2%float)] eq_refl))
           (js "b") 2%float [(js "a", 1%float)] eq_refl).
Defined.

Lemma getCurrentFps_keeps (s : state) (now : float) :
  fst (getCurrentFps s now) = _calculateFps s
  /\ sentFrameTimes (snd (getCurrentFps s now)) = sentFrameTimes s
  /\ targetFps (snd (getCurrentFps s now)) = targetFps s
  /\ droppedFramesCount (snd (getCurrentFps s now)) = droppedFramesCount s.
Proof.
  unfold getCurrentFps.
  destruct (now - lastFpsUpdate s <? 500)%float; repeat split; reflexivity.
Qed.

(** X9. [getCurrentFps] and [forceFpsUpdate] return the same value at any
    time, the rate over the last five send times: the 500 ms throttle moves
    only [lastFpsUpdate]. After [resetDroppedFramesCount] that value is 0
    and the dropped-frame count is 0, whatever was measured before. *)
Theorem getCurrentFps_value (s : state) (now : float) :
  fst (getCurrentFps s now) = fpsOf (lastn 5 (sentFrameTimes s))
  /\ fst (forceFpsUpdate s now) = fst (getCurrentFps s now)
  /\ sentFrameTimes (snd (getCurrentFps s now)) = sentFrameTimes s
  /\ targetFps (snd (getCurrentFps s now)) = targetFps s
  /\ fst (getCurrentFps (resetDroppedFramesCount s) now) = 0%float
  /\ droppedFramesCount (resetDroppedFramesCount s) = 0%N.
Proof.
  assert (G : forall s now, fst (getCurrentFps s now) = _calculateFps s
                            /\ sentFrameTimes (snd (getCurrentFps s now))
                               = sentFrameTimes s
                            /\ targetFps (snd (getCurrentFps s now)) = targetFps s).
  { clear. intros s now. unfold getCurrentFps.
    destruct (now - lastFpsUpdate s <? 500)%float; repeat split; reflexivity. }
  destruct (G s now) as (A & B & C).
  split; [rewrite A; apply calculateFps_fpsOf|].
  split; [unfold forceFpsUpdate; rewrite A, (proj1 (G _ now)); reflexivity|].
  split; [exact B|]. split; [exact C|].
  split; [rewrite (proj1 (G _ now)); reflexivity|reflexivity].
Qed.

(** *** Admission bookkeeping *)

Lemma attempt_step (s : state) (now : float) :
  let r := shouldDropFrame s now in
  targetFps (snd r) = targetFps s
  /\ maxHistorySize (snd r) = maxHistorySize s
  /\ (fst r = true ->
      frameCount (snd r) = frameCount s
      /\ droppedFramesCount (snd r) = (droppedFramesCount s + 1)%N
      /\ lastFrameTime (snd r) = lastFrameTime s
      /\ frameHistory (snd r) = frameHistory s)
  /\ (fst r = false ->
      (now - lastFrameTime s <? 1000 / targetFps s)%float = false
      /\ frameCount (snd r) = (frameCount s + 1)%N
      /\ droppedFramesCount (snd r) = droppedFramesCount s
      /\ lastFrameTime (snd r) = now
      /\ frameHistory (snd r)
         = (if (maxHistorySize s <? length (frameHistory s ++ [now]))%nat
            then tl (frameHistory s ++ [now])
            else frameHistory s ++ [now])%list).
Proof.
  cbv zeta. unfold shouldDropFrame, push, shift.
  destruct (now - lastFrameTime s <? 1000 / targetFps s)%float;
    cbn [fst snd targetFps maxHistorySize frameCount droppedFramesCount
         lastFrameTime frameHistory];
    repeat split; try reflexivity; discriminate.
Qed.

Lemma last_cons_default {A : Type} (l : list A) (x d : A) :
  last (x :: l) d = last l x.
Proof.
  revert x d. induction l as [|y l IH]; intros x d; [reflexivity|].
  change (last (x :: y :: l) d) with (last (y :: l) d).
  rewrite IH. symmetry. apply IH.
Qed.

Lemma accounting_from (attempts : list float) (s : state) :
  maxHistorySize s = 10%nat -> (length (frameHistory s) <= 10)%nat ->
  let s' := attemptAll s attempts in
  let adm := admissions s attempts in
  frameCount s' = (frameCount s + N.of_nat (length adm))%N
  /\ (droppedFramesCount s' + N.of_nat (length adm)
      = droppedFramesCount s + N.of_nat (length attempts))%N
  /\ lastFrameTime s' = last adm (lastFrameTime s)
  /\ frameHistory s' = lastn 10 (frameHistory s ++ adm)
  /\ targetFps s' = targetFps s
  /\ spaced (1000 / targetFps s) (lastFrameTime s) adm.
Proof.
  revert s. induction attempts as [|now attempts IH]; intros s Hm Hl; cbv zeta.
  - cbn [attemptAll fold_left admissions length last spaced].
    rewrite app_nil_r, HookFacts.lastn_all by exact Hl.
    repeat split; lia.
  - cbn [attemptAll fold_left admissions].
    destruct (attempt_step s now) as (Ht & Hmx & Hd & Ha). cbv zeta in *.
    destruct (fst (shouldDropFrame s now)) eqn:E.
    + destruct (Hd eq_refl) as (C & D & L & F).
      destruct (IH (snd (shouldDropFrame s now))) as (I1 & I2 & I3 & I4 & I5 & I6);
        [congruence|rewrite F; exact Hl|].
      unfold attemptAll in *. cbv zeta in *.
      rewrite I1, I3, I4, I5, C, L, F, Ht. cbn [length].
      rewrite Ht, L in I6.
      repeat split; try reflexivity; try exact I6. lia.
    + destruct (Ha eq_refl) as (G & C & D & L & F).
      assert (F' : frameHistory (snd (shouldDropFrame s now))
                   = lastn 10 (frameHistory s ++ [now])).
      { rewrite F, Hm. rewrite length_app. cbn [length].
        destruct (Nat.ltb_spec 10 (length (frameHistory s) + 1)).
        - symmetry. apply HookFacts.lastn_push_full. lia.
        - symmetry. apply HookFacts.lastn_all. rewrite length_app.
          cbn [length]. lia. }
      destruct (IH (snd (shouldDropFrame s now))) as (I1 & I2 & I3 & I4 & I5 & I6);
        [congruence|rewrite F', MonitorFacts.lastn_length; lia|].
      unfold attemptAll in *. cbv zeta in *.
      rewrite I1, I3, I4, I5, C, L, F', Ht. cbn [length spaced].
      rewrite Ht, L in I6.
      rewrite HookFacts.lastn_app_lastn, <- app_assoc.
      split; [lia|]. split; [lia|]. split.
      * symmetry. apply last_cons_default.
      * repeat split; try reflexivity; assumption.
Qed.

(** X10. On a new optimizer every admission attempt is counted exactly
    once: [frameCount] is the number of admitted attempts and
    [droppedFramesCount] the number of rejected ones; [frameHistory] holds
    the last 10 admitted times, [lastFrameTime] is the last admitted time
    (0 while none is), and [targetFps] is untouched. *)
Theorem shouldDropFrame_accounting (target : float) (attempts : list float) :
  let s' := attemptAll (new target) attempts in
  let adm := admissions (new target) attempts in
  frameCount s' = N.of_nat (length adm)
  /\ (droppedFramesCount s' + frameCount s' = N.of_nat (length attempts))%N
  /\ lastFrameTime s' = last adm 0%float
  /\ frameHistory s' = lastn 10 adm
  /\ (length (frameHistory s') <= 10)%nat
  /\ targetFps s' = target.
Proof.
  cbv zeta.
  destruct (accounting_from attempts (new target) eq_refl)
    as (A & B & C & D & E & _); [cbn; lia|].
  cbv zeta in *. cbn [new frameCount droppedFramesCount lastFrameTime
                      frameHistory targetFps app] in *.
  rewrite A, C, D, E. repeat split; try reflexivity; try lia.
  rewrite MonitorFacts.lastn_length. lia.
Qed.

(** X11. The frames that [shouldDropFrame] admits are never closer
    together than the minimum interval: for each admitted time, the time
    since the previous admitted one (since 0 for the first) is not below
    [1000 / targetFps]. *)
Theorem shouldDropFrame_spacing (target : float) (attempts : list float) :
  spaced (1000 / target) 0 (admissions (new target) attempts).
Proof.
  destruct (accounting_from attempts (new target) eq_refl)
    as (_ & _ & _ & _ & _ & S); [cbn; lia|].
  exact S.
Qed.

Example admitted_at_30_per_second :
  admissions default [1000; 1033; 1066; 1100; 1133; 1166; 1200]%float
  = [1000; 1100; 1200]%float.
Proof. vm_compute. reflexivity. Qed.

End FpsFacts.

(** ** Order of binary64 numbers *)

Module FloatOrder.

Lemma SFcompare_Lt_trans (x y z : spec_float) :
  SFcompare x y = Some Lt -> SFcompare y z = Some Lt ->
  SFcompare x z = Some Lt.
Proof.
  destruct x as [sx|sx| |sx mx ex], y as [sy|sy| |sy my ey],
      z as [sz|sz| |sz mz ez]; cbn;
    try discriminate; try reflexivity;
    repeat match goal with s : bool |- _ => destruct s end; cbn;
    try discriminate; try reflexivity.
  all: intros H1 H2; injection H1 as H1; injection H2 as H2; f_equal.
  all: change (Pos.compare_cont Eq) with Pos.compare in *.
  all: destruct (Z.compare_spec ex ey), (Z.compare_spec ey ez),
         (Z.compare_spec ex ez); try discriminate; try lia; try reflexivity.
  all: destruct (Pos.compare_spec mx my), (Pos.compare_spec my mz),
         (Pos.compare_spec mx mz); cbn in *;
       try discriminate; try reflexivity; lia.
Qed.

Lemma ltb_trans (a b c : float) :
  (a <? b)%float = true -> (b <? c)%float = true -> (a <? c)%float = true.
Proof.
  rewrite !ltb_spec. unfold SFltb. intros H1 H2.
  destruct (SFcompare (Prim2SF a) (Prim2SF b)) as [[]|] eqn:E1;
    try discriminate.
  destruct (SFcompare (Prim2SF b) (Prim2SF c)) as [[]|] eqn:E2;
    try discriminate.
  rewrite (SFcompare_Lt_trans _ _ _ E1 E2). reflexivity.
Qed.

End FloatOrder.

(** ** The frame rate as [PoseDetector] drives it *)

Module DetectorFacts.
Import FrameRateOptimizer FpsMeasurement PoseDetector ControlSpec.

#[local] Set Warnings "-inexact-float".

Lemma rate_times_1_5 (k : Z) :
  5 <= k <= 15 -> (float_of_Z k * 1.5 <? 5)%float = false.
Proof.
  intro H.
  destruct (OptimizerFacts.small_rate k H)
    as [E|[E|[E|[E|[E|[E|[E|[E|[E|[E|E]]]]]]]]]];
    rewrite E; vm_compute; reflexivity.
Qed.

(** Behind the guard of [updateFrameRate] the rule can only lower the rate. *)
Lemma gated_retune (s : state) (currentFps latency : float) (k : Z) :
  5 <= k <= 15 -> targetFps s = float_of_Z k ->
  ((currentFps <? 5) || (500 <? latency))%float = true ->
  retune k (poor s currentFps latency) (good s currentFps latency)
  = if poor s currentFps latency then Z.max 5 (k - 1) else k.
Proof.
  intros Hk Ht Hg. unfold retune.
  destruct (poor s currentFps latency) eqn:Ep; [reflexivity|].
  destruct (good s currentFps latency) eqn:Eg; [exfalso|reflexivity].
  unfold poor in Ep. unfold good in Eg.
  apply orb_false_iff in Ep as [_ E300].
  apply andb_true_iff in Eg as [E15 _].
  apply orb_true_iff in Hg as [H5|H500].
  - rewrite Ht in E15.
    pose proof (FloatOrder.ltb_trans _ _ _ E15 H5) as C.
    rewrite (rate_times_1_5 k Hk) in C. discriminate C.
  - assert (C : (300 <? latency)%float = true)
      by (apply (FloatOrder.ltb_trans 300 500 latency); [reflexivity|exact H500]).
    congruence.
Qed.

Lemma updateFrameRate_step (d : detector) (now averageLatency : float) (k : Z) :
  5 <= k <= 15 ->
  targetFps (optimizer (frameRateOptimizer d)) = float_of_Z k ->
  frameRate d = float_of_Z k ->
  exists k',
    (k' = k \/ k' = Z.max 5 (k - 1))
    /\ targetFps (optimizer (frameRateOptimizer
                               (updateFrameRate d now averageLatency)))
       = float_of_Z k'
    /\ frameRate (updateFrameRate d now averageLatency) = float_of_Z k'.
Proof.
  intros Hk Ht Hf. unfold updateFrameRate.
  destruct (FpsFacts.getCurrentFps_keeps (optimizer (frameRateOptimizer d)) now)
    as (_ & _ & Hkeep & _).
  destruct (FpsMeasurement.getCurrentFps (optimizer (frameRateOptimizer d)) now)
    as [currentFps o] eqn:E.
  cbn [snd] in Hkeep. rewrite Ht in Hkeep.
  destruct ((currentFps <? 5) || (500 <? averageLatency))%float eqn:G.
  - pose proof (OptimizerFacts.adjustFrameRate_integer o currentFps
                  averageLatency k Hk Hkeep) as Hi.
    pose proof (proj1 (OptimizerFacts.adjustFrameRate_rule o currentFps
                         averageLatency)) as Hr.
    rewrite (gated_retune o currentFps averageLatency k Hk Hkeep G) in Hi.
    destruct (adjustFrameRate o currentFps averageLatency) as [nf o'].
    cbn [fst snd frameRateOptimizer frameRate optimizer] in *.
    exists (if poor o currentFps averageLatency then Z.max 5 (k - 1) else k).
    split; [destruct (poor o currentFps averageLatency); tauto|].
    split; [exact Hi|]. rewrite Hr. exact Hi.
  - cbn [frameRateOptimizer frameRate optimizer]. exists k. tauto.
Qed.

Lemma act_step (d : detector) (a : action) (k : Z) :
  5 <= k <= 15 ->
  targetFps (optimizer (frameRateOptimizer d)) = float_of_Z k ->
  frameRate d = float_of_Z k ->
  exists k',
    (k' = k \/ k' = Z.max 5 (k - 1))
    /\ targetFps (optimizer (frameRateOptimizer (act d a))) = float_of_Z k'
    /\ frameRate (act d a) = float_of_Z k'.
Proof.
  intros Hk Ht Hf. destruct a as [now lat|now|uuid now|]; cbn [act].
  - apply updateFrameRate_step; assumption.
  - exists k. cbn [frameRateOptimizer optimizer frameRate].
    rewrite (proj1 (FpsFacts.attempt_step _ now)). tauto.
  - exists k. cbn [frameRateOptimizer frameRate]. unfold trackSentFrame.
    cbn [optimizer set_sentFrameTimes targetFps]. tauto.
  - exists k. cbn [frameRateOptimizer optimizer frameRate
                   resetDroppedFramesCount targetFps]. tauto.
Qed.

Lemma actAll_from (actions : list action) (d : detector) (k : Z) :
  5 <= k <= 15 ->
  targetFps (optimizer (frameRateOptimizer d)) = float_of_Z k ->
  frameRate d = float_of_Z k ->
  exists k',
    5 <= k' <= k
    /\ targetFps (optimizer (frameRateOptimizer (actAll d actions)))
       = float_of_Z k'
    /\ frameRate (actAll d actions) = float_of_Z k'.
Proof.
  revert d k. induction actions as [|a actions IH]; intros d k Hk Ht Hf.
  - exists k. cbn. repeat split; try assumption; lia.
  - cbn [actAll fold_left].
    destruct (act_step d a k Hk Ht Hf) as (k1 & H1 & T1 & F1).
    destruct (IH (act d a) k1) as (k2 & H2 & T2 & F2);
      try assumption; [lia|].
    exists k2. unfold actAll in *. repeat split; try assumption; lia.
Qed.

(** X12. As [PoseDetector] calls it, only when the measured rate is under
    5 fps or the latency over 500 ms, [adjustFrameRate] can never raise the
    target. Whatever the component does (ticks of [updateFrameRate] at any
    rate and latency, frames checked and tracked, streams started), from
    the initial 10 the target and the [frameRate] state stay equal, stay
    integers between 5 and 10, and never increase from one moment to a
    later one. *)
Theorem updateFrameRate_never_raises (actions later : list action) :
  exists k k',
    5 <= k' <= k /\ k <= 10
    /\ targetFps (optimizer (frameRateOptimizer (actAll initial actions)))
       = float_of_Z k
    /\ frameRate (actAll initial actions) = float_of_Z k
    /\ targetFps (optimizer (frameRateOptimizer
                               (actAll initial (actions ++ later))))
       = float_of_Z k'
    /\ frameRate (actAll initial (actions ++ later)) = float_of_Z k'.
Proof.
  destruct (actAll_from actions initial 10) as (k & Hk & T & F);
    [lia|reflexivity|reflexivity|].
  destruct (actAll_from later (actAll initial actions) k)
    as (k' & Hk' & T' & F'); [lia|exact T|exact F|].
  exists k, k'. unfold actAll in *. rewrite fold_left_app.
  repeat split; try assumption; lia.
Qed.

(** One tick with a good rate but a latency of 600 ms lowers the target. *)
Example slow_network_lowers_rate :
  frameRate (updateFrameRate initial 1000 600) = 9%float.
Proof. vm_compute. reflexivity. Qed.

Lemma rate_times_0_4 (k : Z) :
  5 <= k <= 15 -> (0 <? float_of_Z k * 0.4)%float = true.
Proof.
  intro H.
  destruct (OptimizerFacts.small_rate k H)
    as [E|[E|[E|[E|[E|[E|[E|[E|[E|[E|E]]]]]]]]]];
    rewrite E; vm_compute; reflexivity.
Qed.

Lemma idle_tick (d : detector) (now averageLatency : float) (k : Z) :
  5 <= k <= 15 ->
  sentFrameTimes (optimizer (frameRateOptimizer d)) = [] ->
  targetFps (optimizer (frameRateOptimizer d)) = float_of_Z k ->
  let d' := updateFrameRate d now averageLatency in
  sentFrameTimes (optimizer (frameRateOptimizer d')) = []
  /\ targetFps (optimizer (frameRateOptimizer d')) = float_of_Z (Z.max 5 (k - 1))
  /\ frameRate d' = float_of_Z (Z.max 5 (k - 1)).
Proof.
  intros Hk He Ht. cbv zeta. unfold updateFrameRate.
  destruct (FpsFacts.getCurrentFps_keeps (optimizer (frameRateOptimizer d)) now)
    as (Hv & Hs & Hkeep & _).
  destruct (FpsMeasurement.getCurrentFps (optimizer (frameRateOptimizer d)) now)
    as [currentFps o] eqn:E.
  cbn [fst snd] in *. rewrite Ht in Hkeep. rewrite He in Hs.
  assert (H0 : currentFps = 0%float).
  { rewrite Hv. unfold FpsMeasurement._calculateFps. rewrite He. reflexivity. }
  clear Hv E. subst currentFps.
  change (0 <? 5)%float with true. cbn [orb].
  pose proof (OptimizerFacts.adjustFrameRate_integer o 0 averageLatency k
                Hk Hkeep) as Hi.
  pose proof (proj1 (OptimizerFacts.adjustFrameRate_rule o 0 averageLatency))
    as Hr.
  assert (Hp : poor o 0 averageLatency = true).
  { unfold poor. rewrite Hkeep, (rate_times_0_4 k Hk). reflexivity. }
  rewrite Hp in Hi. unfold retune in Hi.
  assert (Hk' : sentFrameTimes (snd (adjustFrameRate o 0 averageLatency))
                = sentFrameTimes o) by reflexivity.
  destruct (adjustFrameRate o 0 averageLatency) as [nf o'].
  cbn [fst snd frameRateOptimizer frameRate optimizer] in *.
  rewrite Hk', Hs, Hr. repeat split; assumption.
Qed.

(** X13. While no frame has been sent the measured rate is 0, so every
    tick of [updateFrameRate] lowers the target by one, whatever the
    latency: after [n] ticks on the new component the target and the
    [frameRate] state are [max 5 (10 - n)]. *)
Theorem updateFrameRate_idle (ticks : list (float * float)) :
  targetFps (optimizer (frameRateOptimizer (updateAll initial ticks)))
  = float_of_Z (Z.max 5 (10 - Z.of_nat (length ticks)))
  /\ frameRate (updateAll initial ticks)
     = float_of_Z (Z.max 5 (10 - Z.of_nat (length ticks))).
Proof.
  assert (G : forall ticks d k,
             5 <= k <= 15 ->
             sentFrameTimes (optimizer (frameRateOptimizer d)) = [] ->
             targetFps (optimizer (frameRateOptimizer d)) = float_of_Z k ->
             frameRate d = float_of_Z k ->
             targetFps (optimizer (frameRateOptimizer (updateAll d ticks)))
             = float_of_Z (Z.max 5 (k - Z.of_nat (length ticks)))
             /\ frameRate (updateAll d ticks)
                = float_of_Z (Z.max 5 (k - Z.of_nat (length ticks)))).
  { clear. induction ticks as [|[now lat] ticks IH]; intros d k Hk He Ht Hf.
    - cbn [updateAll fold_left length]. rewrite Ht, Hf.
      replace (Z.max 5 (k - Z.of_nat 0)) with k by lia. tauto.
    - cbn [updateAll fold_left fst snd length].
      destruct (idle_tick d now lat k Hk He Ht) as (E1 & T1 & F1).
      destruct (IH (updateFrameRate d now lat) (Z.max 5 (k - 1)))
        as (T2 & F2); try assumption; [lia|].
      unfold updateAll in *. rewrite T2, F2.
      replace (Z.max 5 (Z.max 5 (k - 1) - Z.of_nat (length ticks)))
        with (Z.max 5 (k - Z.of_nat (S (length ticks)))) by lia.
      tauto. }
  apply (G ticks initial 10); [lia|reflexivity|reflexivity|reflexivity].
Qed.

End DetectorFacts.

(** ** The connection hook, further *)

Module ConnectionFacts.
Import UseWebSocket Connection ControlSpec QueueSpec HookSpec.

Lemma sendAll_open (now : Z) (msgs : list message) (s : state) :
  socketOpen s = true ->
  sent (sendAll now s msgs) = (sent s ++ map (frameOf now) msgs)%list
  /\ messageQueue (sendAll now s msgs) = messageQueue s
  /\ messageQueueSize (sendAll now s msgs) = messageQueueSize s
  /\ warnings (sendAll now s msgs) = warnings s.
Proof.
  revert s. induction msgs as [|m msgs IH]; intros s Ho.
  - cbn. rewrite app_nil_r. tauto.
  - cbn [sendAll fold_left map].
    assert (E : sendMessage now s m = ws_send s (frameOf now m)).
    { unfold sendMessage. rewrite Ho. destruct m; reflexivity. }
    rewrite E. destruct (IH (ws_send s (frameOf now m)) Ho) as (A & B & C & D).
    unfold sendAll in *. rewrite A, B, C, D. unfold ws_send, push.
    cbn [sent messageQueue messageQueueSize warnings].
    rewrite <- app_assoc. tauto.
Qed.

Lemma flushEffect_not_open (now : Z) (s : state) :
  (length (messageQueue s) <= 50)%nat ->
  isConnected s = true -> socketOpen s = false ->
  sent (flushEffect now s) = sent s
  /\ messageQueue (flushEffect now s) = messageQueue s
  /\ warnings (flushEffect now s) = warnings s.
Proof.
  intros Hq Hc Ho. unfold flushEffect. rewrite Hc.
  destruct (messageQueue s) as [|m q] eqn:E.
  - cbn. rewrite E. tauto.
  - cbn [length Nat.ltb Nat.leb andb].
    destruct (HookFacts.sendAll_closed now (m :: q)
                (setMessageQueueSize (set_queue s []) 0) Ho)
      as (A & B & C); [cbn; lia|].
    unfold sendAll in *. rewrite A, B, C.
    cbn [setMessageQueueSize set_queue messageQueue sent warnings app].
    rewrite HookFacts.lastn_all by exact Hq.
    replace (length (m :: q) - capacity)%nat with 0%nat
      by (unfold capacity; lia).
    cbn [repeat]. rewrite app_nil_r. tauto.
Qed.

(** X14. The flush effect loses and reorders nothing. When the hook is
    connected and the socket is open, every queued message is given to the
    socket, oldest first, after the frames sent before, and the queue is
    left empty; when the socket is not open the messages go back into the
    queue in the same order and nothing is sent; when the hook is not
    connected the effect does nothing. *)
Theorem flushEffect_order (now : Z) (s : state) :
  (length (messageQueue s) <= 50)%nat ->
  (isConnected s = true -> socketOpen s = true ->
   sent (flushEffect now s)
   = (sent s ++ map (frameOf now) (messageQueue s))%list
   /\ messageQueue (flushEffect now s) = [])
  /\ (isConnected s = true -> socketOpen s = false ->
      sent (flushEffect now s) = sent s
      /\ messageQueue (flushEffect now s) = messageQueue s
      /\ warnings (flushEffect now s) = warnings s)
  /\ (isConnected s = false -> flushEffect now s = s).
Proof.
  intro Hq. split; [|split].
  - intros Hc Ho. unfold flushEffect. rewrite Hc.
    destruct (messageQueue s) as [|m q] eqn:E.
    + cbn. rewrite app_nil_r, E. tauto.
    + cbn [length Nat.ltb Nat.leb andb].
      destruct (sendAll_open now (m :: q)
                  (setMessageQueueSize (set_queue s []) 0) Ho) as (A & B & _).
      unfold sendAll in *. rewrite A, B. split; reflexivity.
  - intros Hc Ho. apply flushEffect_not_open; assumption.
  - intro Hc. unfold flushEffect. rewrite Hc. reflexivity.
Qed.

Lemma flushEffect_order_witness :
  let s :=
    mkState true None 2 connected (Some OPEN)
      [BinaryData [x01]; ObjectData (js "{}")] None true 0 [] [] in
  sent (flushEffect 9 s) = [BinaryFrame [x01]; JsonFrame (js "{}") 9]
  /\ messageQueue (flushEffect 9 s) = [].
Proof.
  exact (proj1 (flushEffect_order 9
                  (mkState true None 2 connected (Some OPEN)
                     [BinaryData [x01]; ObjectData (js "{}")] None true 0
                     [] [])
                  ltac:(cbn; lia)) eq_refl eq_refl).
Defined.

(** *** Invariants of the hook *)

Lemma invariant_initial : invariant initial.
Proof.
  constructor; cbn; try lia; try discriminate; try reflexivity.
Qed.

Lemma invariant_sent (s : state) (f : frame) :
  invariant s -> invariant (ws_send s f).
Proof.
  intros [Hq Hs Ho Hc Hr]. constructor; assumption.
Qed.

Lemma invariant_send (now : Z) (s : state) (data : message) :
  invariant s -> invariant (sendMessage now s data).
Proof.
  intro H. pose proof H as [Hq Hs Ho Hc Hr].
  destruct (socketOpen s) eqn:E.
  - assert (Es : sendMessage now s data = ws_send s (frameOf now data)).
    { unfold sendMessage. rewrite E. destruct data; reflexivity. }
    rewrite Es. apply invariant_sent, H.
  - destruct (HookFacts.sendMessage_closed now s data E Hq)
      as (A & B & _ & D & _).
    assert (Ek : connectionStatus (sendMessage now s data) = connectionStatus s
                 /\ isConnected (sendMessage now s data) = isConnected s
                 /\ error (sendMessage now s data) = error s
                 /\ (messageQueueSize (sendMessage now s data) <= 51)%nat).
    { unfold sendMessage. rewrite E. unfold push.
      cbn [set_queue setMessageQueueSize messageQueue].
      rewrite length_app. cbn [length].
      destruct (50 <? length (messageQueue s) + 1)%nat;
        cbn; repeat split; lia. }
    destruct Ek as (K1 & K2 & K3 & K4).
    constructor; rewrite ?K1, ?K2, ?K3; try assumption. congruence.
Qed.

Lemma invariant_flush (now : Z) (s : state) :
  invariant s -> invariant (flushEffect now s).
Proof.
  intro H. pose proof H as [Hq Hs Ho Hc Hr].
  unfold flushEffect.
  destruct (isConnected s && (0 <? length (messageQueue s))%nat) eqn:E;
    [|exact H].
  assert (G : forall msgs s0, invariant s0 ->
                invariant (fold_left (sendMessage now) msgs s0)).
  { clear. induction msgs as [|m msgs IH]; intros s0 H0; [exact H0|].
    cbn [fold_left]. apply IH, invariant_send, H0. }
  apply G. constructor; cbn; try lia; try assumption.
  intros _. split; reflexivity.
Qed.

Lemma invariant_step (s : state) (e : event) :
  invariant s -> invariant (step s e).
Proof.
  intro H. pose proof H as [Hq Hs Ho Hc Hr].
  destruct e; cbn [step].
  - constructor; cbn; try assumption; discriminate.
  - constructor; cbn; try assumption. discriminate.
  - constructor; cbn; try lia; try reflexivity; try discriminate.
    intros _. split; reflexivity.
  - constructor; cbn; try assumption; discriminate.
  - constructor; cbn; try assumption; discriminate.
  - constructor; cbn; try assumption; discriminate.
  - constructor; cbn; try assumption; discriminate.
  - apply invariant_send, H.
  - unfold heartbeat. destruct (heartbeatRef s && socketOpen s); [|exact H].
    apply invariant_sent, H.
  - apply invariant_flush, H.
  - unfold reconnectEffect.
    destruct (negb (isConnected s)
              && match error s with Some _ => false | None => true end
              && (reconnectAttempts s <? maxReconnectAttempts)%nat) eqn:E.
    + apply andb_true_iff in E as [E _]. apply andb_true_iff in E as [E1 E2].
      constructor; cbn; try assumption; try discriminate.
      intros _. split.
      * destruct (isConnected s); [discriminate E1|reflexivity].
      * destruct (error s); [discriminate E2|reflexivity].
    + destruct (maxReconnectAttempts <=? reconnectAttempts s)%nat; [|exact H].
      constructor; cbn; try assumption; discriminate.
  - constructor; cbn; try assumption; discriminate.
Qed.

Lemma invariant_run (events : list event) (s : state) :
  invariant s -> invariant (run s events).
Proof.
  revert s. induction events as [|e events IH]; intros s H; [exact H|].
  cbn [run fold_left]. apply IH, invariant_step, H.
Qed.

(** X15. Whatever happens to the hook after its first render, the queue
    never holds more than 50 messages and the reported size never exceeds
    51; whenever the socket is open the queue is empty and the reported
    size is 0; the status
    [connected] is shown only while [isConnected] holds, and
    [reconnecting] only while the hook is disconnected with no error. *)
Theorem hook_invariants (events : list event) :
  let s := run initial events in
  (length (messageQueue s) <= 50)%nat
  /\ (messageQueueSize s <= 51)%nat
  /\ (socketOpen s = true -> messageQueue s = [] /\ messageQueueSize s = 0%nat)
  /\ (connectionStatus s = connected -> isConnected s = true)
  /\ (connectionStatus s = reconnecting ->
      isConnected s = false /\ error s = None).
Proof.
  destruct (invariant_run events initial invariant_initial)
    as [Hq Hs Ho Hc Hr].
  cbv zeta. tauto.
Qed.

(** X16. The flush effect never transmits anything. In every state the
    hook can reach from its first render, a run of the effect gives no
    frame to the socket and leaves the queue and the warnings as they
    were: a message is queued only while the socket is not open, and the
    queue is emptied by [onopen] when it opens. *)
Theorem flushEffect_never_sends (events : list event) (now : Z) :
  let s := run initial events in
  sent (flushEffect now s) = sent s
  /\ messageQueue (flushEffect now s) = messageQueue s
  /\ warnings (flushEffect now s) = warnings s.
Proof.
  cbv zeta.
  destruct (invariant_run events initial invariant_initial)
    as [Hq Hs Ho Hc Hr].
  set (s := run initial events) in *.
  destruct (isConnected s) eqn:Ec.
  - destruct (socketOpen s) eqn:Eo.
    + unfold flushEffect. rewrite Ec, (proj1 (Ho eq_refl)). cbn.
      rewrite (proj1 (Ho eq_refl)). tauto.
    + apply flushEffect_not_open; assumption.
  - unfold flushEffect. rewrite Ec. cbn. tauto.
Qed.

(** *** After an error *)

Lemma failed_send (now : Z) (s : state) (data : message) :
  error (sendMessage now s data) = error s
  /\ connectionStatus (sendMessage now s data) = connectionStatus s.
Proof.
  unfold sendMessage. destruct (socketOpen s).
  - destruct data; split; reflexivity.
  - cbn [set_queue setMessageQueueSize messageQueue].
    destruct (50 <? length (push (messageQueue s) data))%nat;
      split; reflexivity.
Qed.

Lemma failed_sendAll (now : Z) (msgs : list message) (s : state) :
  error (fold_left (sendMessage now) msgs s) = error s
  /\ connectionStatus (fold_left (sendMessage now) msgs s)
     = connectionStatus s.
Proof.
  revert s. induction msgs as [|m msgs IH]; intro s; [split; reflexivity|].
  cbn [fold_left]. destruct (IH (sendMessage now s m)) as [A B].
  destruct (failed_send now s m) as [C D]. rewrite A, B, C, D.
  split; reflexivity.
Qed.

Lemma failed_step (s : state) (e : event) :
  notOpening e = true -> failed s -> failed (step s e).
Proof.
  intros Hn [He Hs]. destruct e; try discriminate Hn; cbn [step].
  - constructor; cbn; [exact He|discriminate].
  - constructor; cbn; assumption.
  - constructor; cbn; assumption.
  - constructor; cbn; [exact He|discriminate].
  - constructor; cbn; [exact He|discriminate].
  - constructor; cbn; discriminate.
  - destruct (failed_send now s data) as [A B].
    constructor; rewrite ?A, ?B; assumption.
  - unfold heartbeat. destruct (heartbeatRef s && socketOpen s);
      constructor; cbn; assumption.
  - unfold flushEffect.
    destruct (isConnected s && (0 <? length (messageQueue s))%nat);
      [|constructor; assumption].
    destruct (failed_sendAll now (messageQueue s)
                (setMessageQueueSize (set_queue s []) 0)) as [A B].
    constructor; rewrite ?A, ?B; cbn; assumption.
  - unfold reconnectEffect.
    destruct (error s) as [msg|] eqn:E; [|contradiction He; reflexivity].
    rewrite andb_false_r. cbn [andb].
    destruct (maxReconnectAttempts <=? reconnectAttempts s)%nat.
    + constructor; cbn; discriminate.
    + constructor; [rewrite E; discriminate|exact Hs].
  - constructor; cbn; [exact He|discriminate].
Qed.

Lemma failed_run (events : list event) (s : state) :
  forallb notOpening events = true -> failed s -> failed (run s events).
Proof.
  revert s. induction events as [|e events IH]; intros s Hn H; [exact H|].
  cbn [forallb] in Hn. apply andb_true_iff in Hn as [Hn1 Hn2].
  cbn [run fold_left]. apply (IH _ Hn2), failed_step; assumption.
Qed.

(** X17. After [ws.onerror] the hook does not retry. Whatever happens
    next, short of a socket opening, the error stays set, the status never
    becomes [reconnecting], and a run of the reconnect effect arms no
    timer: the backoff applies only to a close that no error came with. *)
Theorem no_retry_after_error (s : state) (events : list event) :
  forallb notOpening events = true ->
  let s' := run (onerror s) events in
  error s' <> None
  /\ connectionStatus s' <> reconnecting
  /\ reconnectTimeoutRef (reconnectEffect s') = reconnectTimeoutRef s'.
Proof.
  intros Hn s'.
  assert (F : failed s').
  { apply failed_run; [exact Hn|]. constructor; cbn; discriminate. }
  destruct F as [He Hs]. split; [exact He|]. split; [exact Hs|].
  unfold reconnectEffect.
  destruct (error s') as [msg|]; [|contradiction He; reflexivity].
  rewrite andb_false_r. cbn [andb].
  destruct (maxReconnectAttempts <=? reconnectAttempts s')%nat; reflexivity.
Qed.

Lemma no_retry_after_error_witness :
  let s' :=
    run (onerror (connect initial))
      [SocketCloses; ReconnectEffect; Send 1 (BinaryData [x01]);
       ReconnectEffect] in
  error s' <> None
  /\ connectionStatus s' <> reconnecting
  /\ reconnectTimeoutRef (reconnectEffect s') = reconnectTimeoutRef s'.
Proof.
  exact (no_retry_after_error (connect initial)
           [SocketCloses; ReconnectEffect; Send 1 (BinaryData [x01]);
            ReconnectEffect] eq_refl).
Defined.

(** *** The retries *)

(** Running the reconnect effect twice gives what running it once gives:
    the render that its own [setError] or [setConnectionStatus] causes
    changes nothing more. *)
Lemma reconnectEffect_idempotent (s : state) :
  reconnectEffect (reconnectEffect s) = reconnectEffect s.
Proof.
  unfold reconnectEffect at 2 3.
  destruct (negb (isConnected s)
            && match error s with Some _ => false | None => true end
            && (reconnectAttempts s <? maxReconnectAttempts)%nat) eqn:E.
  - unfold reconnectEffect.
    cbn [isConnected error reconnectAttempts messageQueueSize wsRef
         messageQueue heartbeatRef sent warnings].
    rewrite E. reflexivity.
  - destruct (maxReconnectAttempts <=? reconnectAttempts s)%nat eqn:E5;
      unfold reconnectEffect.
    + cbn [isConnected error reconnectAttempts messageQueueSize wsRef
           messageQueue heartbeatRef sent warnings reconnectTimeoutRef].
      rewrite andb_false_r, E5. reflexivity.
    + rewrite E, E5. reflexivity.
Qed.

(** X23. A retry that fails quietly is the last one. In any state, once
    the socket has opened and then closes, the reconnect effect runs
    ([isConnected] has changed) and arms the first retry, at 1000 ms.
    When the timer fires the counter becomes 1 and the hook connects;
    when that socket closes without having opened and without an error,
    no dependency of the effect has changed, so the effect does not run:
    the hook stays [disconnected] with no error and no new timer, and a
    further close changes nothing. The next retry, at 2000 ms, is armed
    only when a message is queued, which changes [messageQueueSize]. *)
Theorem retry_stalls (s : state) :
  let up := onopen (set_readyState s OPEN) in
  let down := afterRender up (onclose (set_readyState up CLOSED)) in
  let retry := afterRender down (reconnectTimeout down) in
  let failed := afterRender retry (onclose (set_readyState retry CLOSED)) in
  (reconnectTimeoutRef down = Some 1000
   /\ connectionStatus down = reconnecting
   /\ reconnectAttempts down = 0%nat)
  /\ (retry = reconnectTimeout down
      /\ reconnectAttempts retry = 1%nat
      /\ connectionStatus retry = connecting)
  /\ (failed = onclose (set_readyState retry CLOSED)
      /\ isConnected failed = false
      /\ error failed = None
      /\ connectionStatus failed = disconnected
      /\ reconnectAttempts failed = 1%nat
      /\ reconnectTimeoutRef failed = reconnectTimeoutRef down)
  /\ afterRender failed (onclose failed) = failed
  /\ (forall now data,
        let queued := afterRender failed (sendMessage now failed data) in
        messageQueueSize queued = 1%nat
        /\ reconnectTimeoutRef queued = Some 2000
        /\ connectionStatus queued = reconnecting
        /\ reconnectAttempts queued = 1%nat).
Proof.
  cbv zeta.
  split; [repeat split; reflexivity|].
  split; [repeat split; reflexivity|].
  split; [repeat split; reflexivity|].
  split; [reflexivity|].
  intros now data. repeat split; reflexivity.
Qed.

Lemma armed_step (s : state) (e : event) :
  armed (reconnectTimeoutRef s) -> armed (reconnectTimeoutRef (step s e)).
Proof.
  intro H. destruct e; cbn [step]; try exact H.
  - exact I.
  - assert (E : reconnectTimeoutRef (sendMessage now s data)
                = reconnectTimeoutRef s).
    { unfold sendMessage. destruct (socketOpen s); [destruct data; reflexivity|].
      cbn [set_queue setMessageQueueSize messageQueue].
      destruct (50 <? length (push (messageQueue s) data))%nat; reflexivity. }
    rewrite E. exact H.
  - unfold heartbeat. destruct (heartbeatRef s && socketOpen s); exact H.
  - unfold flushEffect.
    destruct (isConnected s && (0 <? length (messageQueue s))%nat); [|exact H].
    assert (G : forall msgs s0,
               reconnectTimeoutRef (fold_left (sendMessage now) msgs s0)
               = reconnectTimeoutRef s0).
    { clear. induction msgs as [|m msgs IH]; intro s0; [reflexivity|].
      cbn [fold_left]. rewrite IH. unfold sendMessage.
      destruct (socketOpen s0); [destruct m; reflexivity|].
      cbn [set_queue setMessageQueueSize messageQueue].
      destruct (50 <? length (push (messageQueue s0) m))%nat; reflexivity. }
    rewrite G. exact H.
  - unfold reconnectEffect.
    destruct (negb (isConnected s)
              && match error s with Some _ => false | None => true end
              && (reconnectAttempts s <? maxReconnectAttempts)%nat) eqn:E.
    + apply andb_true_iff in E as [_ E]. apply Nat.ltb_lt in E.
      cbn [reconnectTimeoutRef armed]. exists (reconnectAttempts s).
      split; [exact E|]. unfold backoffTime.
      assert (P : 2 ^ Z.of_nat (reconnectAttempts s) <= 2 ^ 4)
        by (apply Z.pow_le_mono_r; unfold maxReconnectAttempts in E; lia).
      change (2 ^ 4) with 16 in P. lia.
    + destruct (maxReconnectAttempts <=? reconnectAttempts s)%nat; exact H.
Qed.

(** X24. The 30 s ceiling of the backoff is never used. Whatever happens
    to the hook after its first render, [reconnectTimeoutRef] is empty or
    holds a timer that was armed with one of 1000, 2000, 4000, 8000 and
    16000 ms, so no retry is ever scheduled more than 16 s ahead. *)
Theorem backoff_ceiling_unused (events : list event) :
  armed (reconnectTimeoutRef (run initial events))
  /\ forall delay,
       reconnectTimeoutRef (run initial events) = Some delay ->
       1000 <= delay <= 16000.
Proof.
  assert (G : forall events s,
             armed (reconnectTimeoutRef s) ->
             armed (reconnectTimeoutRef (run s events))).
  { clear. induction events as [|e events IH]; intros s H; [exact H|].
    cbn [run fold_left]. apply IH, armed_step, H. }
  pose proof (G events initial I) as H. split; [exact H|].
  intros delay E. rewrite E in H. destruct H as (n & Hn & ->).
  assert (P : 2 ^ 0 <= 2 ^ Z.of_nat n <= 2 ^ 4)
    by (split; apply Z.pow_le_mono_r; lia).
  change (2 ^ 0) with 1 in P. change (2 ^ 4) with 16 in P. lia.
Qed.

End ConnectionFacts.

(** ** Messages from the server *)

Module InboundFacts.
Import UseWebSocket Inbound ControlSpec MonitorSpec HookSpec.

Section WithParser.

Variable parse : jsstring -> parsed.

Lemma onmessage_step (b : inbox) (data : jsstring) (now : Z) :
  (length (latencyHistory b) <= 10)%nat ->
  let b' := onmessage parse b data now in
  lastMessage b'
  = (if isControl (parse data) then lastMessage b else Some data)
  /\ sent (hook b')
     = (sent (hook b)
        ++ if isPing (parse data) then [JsonFrame pongObject now] else [])%list
  /\ latencyHistory b'
     = lastn 10 (latencyHistory b ++ sampleOf (parse data) now)
  /\ (settled b -> settled b').
Proof.
  intros Hl b'. subst b'. unfold onmessage, sampleOf, isControl, isPing.
  assert (Same : lastn 10 (latencyHistory b ++ []) = latencyHistory b).
  { rewrite app_nil_r. apply HookFacts.lastn_all, Hl. }
  destruct (parse data) as [| |type_ timestamp].
  - cbn. rewrite app_nil_r, Same. tauto.
  - cbn. rewrite app_nil_r, Same. tauto.
  - destruct type_ as [t|].
    + destruct (UuidUtils.strictEq t (js "ping")) eqn:Ep.
      * cbn. rewrite Same. tauto.
      * destruct (UuidUtils.strictEq t (js "heartbeat_response")) eqn:Eh.
        -- cbn. rewrite app_nil_r, Same. tauto.
        -- cbn [orb]. destruct timestamp as [ts|].
           ++ cbn [filter]. unfold reasonable.
              destruct ((0 <? float_of_Z now - ts)
                        && (float_of_Z now - ts <? 10000))%float.
              ** cbn [setLastMessage lastMessage hook latencyHistory
                      averageLatency].
                 rewrite app_nil_r.
                 split; [reflexivity|]. split; [reflexivity|].
                 assert (E : (if (10 <? length (push (latencyHistory b)
                                                  (float_of_Z now - ts)%float))%nat
                              then shift (push (latencyHistory b)
                                            (float_of_Z now - ts)%float)
                              else push (latencyHistory b)
                                     (float_of_Z now - ts)%float)
                             = lastn 10 (latencyHistory b
                                         ++ [(float_of_Z now - ts)%float])).
                 { unfold push, shift. rewrite length_app. cbn [length].
                   destruct (Nat.ltb_spec 10 (length (latencyHistory b) + 1)).
                   - symmetry. apply HookFacts.lastn_push_full. lia.
                   - symmetry. apply HookFacts.lastn_all.
                     rewrite length_app. cbn [length]. lia. }
                 rewrite E. split; [reflexivity|]. intros _. unfold settled.
                 cbn [averageLatency latencyHistory].
                 destruct (lastn 10 (latencyHistory b
                                     ++ [(float_of_Z now - ts)%float]))
                   as [|x w] eqn:Ew; [|reflexivity].
                 exfalso.
                 apply (f_equal (@length float)) in Ew.
                 rewrite MonitorFacts.lastn_length, length_app in Ew.
                 cbn [length] in Ew. lia.
              ** cbn. rewrite app_nil_r, Same. tauto.
           ++ cbn. rewrite app_nil_r, Same. tauto.
    + cbn [orb]. destruct timestamp as [ts|].
      * cbn [filter]. unfold reasonable.
        destruct ((0 <? float_of_Z now - ts)
                  && (float_of_Z now - ts <? 10000))%float.
        -- cbn [setLastMessage lastMessage hook latencyHistory
                averageLatency].
           rewrite app_nil_r.
           split; [reflexivity|]. split; [reflexivity|].
           assert (E : (if (10 <? length (push (latencyHistory b)
                                            (float_of_Z now - ts)%float))%nat
                        then shift (push (latencyHistory b)
                                      (float_of_Z now - ts)%float)
                        else push (latencyHistory b)
                               (float_of_Z now - ts)%float)
                       = lastn 10 (latencyHistory b
                                   ++ [(float_of_Z now - ts)%float])).
           { unfold push, shift. rewrite length_app. cbn [length].
             destruct (Nat.ltb_spec 10 (length (latencyHistory b) + 1)).
             - symmetry. apply HookFacts.lastn_push_full. lia.
             - symmetry. apply HookFacts.lastn_all.
               rewrite length_app. cbn [length]. lia. }
           rewrite E. split; [reflexivity|]. intros _. unfold settled.
           cbn [averageLatency latencyHistory].
           destruct (lastn 10 (latencyHistory b
                               ++ [(float_of_Z now - ts)%float]))
             as [|x w] eqn:Ew; [|reflexivity].
           exfalso.
           apply (f_equal (@length float)) in Ew.
           rewrite MonitorFacts.lastn_length, length_app in Ew.
           cbn [length] in Ew. lia.
        -- cbn. rewrite app_nil_r, Same. tauto.
      * cbn. rewrite app_nil_r, Same. tauto.
Qed.

Lemma receiveAll_from (messages : list (jsstring * Z)) (b : inbox) :
  (length (latencyHistory b) <= 10)%nat -> settled b ->
  let b' := receiveAll parse b messages in
  lastMessage b'
  = last (map (fun m => Some (fst m))
            (filter (fun m => negb (isControl (parse (fst m)))) messages))
      (lastMessage b)
  /\ sent (hook b') = (sent (hook b) ++ pongs parse messages)%list
  /\ latencyHistory b' = lastn 10 (latencyHistory b ++ samples parse messages)
  /\ settled b'.
Proof.
  revert b. induction messages as [|[data now] messages IH]; intros b Hl Hs.
  - cbn. rewrite !app_nil_r. rewrite HookFacts.lastn_all by exact Hl. tauto.
  - cbv zeta. unfold receiveAll. cbn [fold_left fst snd].
    destruct (onmessage_step b data now Hl) as (A & B & C & D).
    cbv zeta in A, B, C, D.
    assert (Hl' : (length (latencyHistory (onmessage parse b data now)) <= 10)%nat).
    { rewrite C, MonitorFacts.lastn_length. lia. }
    destruct (IH (onmessage parse b data now) Hl' (D Hs)) as (A' & B' & C' & D').
    cbv zeta in A', B', C', D'. unfold receiveAll in A', B', C', D'.
    split; [|split; [|split]].
    + rewrite A', A. cbn [filter fst].
      destruct (isControl (parse data)); cbn [negb map]; [reflexivity|].
      rewrite FpsFacts.last_cons_default. reflexivity.
    + rewrite B', B. unfold pongs. cbn [filter fst snd].
      destruct (isPing (parse data)); cbn [map].
      * rewrite <- app_assoc. reflexivity.
      * rewrite app_nil_r. reflexivity.
    + rewrite C', C. rewrite HookFacts.lastn_app_lastn, <- app_assoc.
      reflexivity.
    + exact D'.
Qed.

(** X18. Control messages stay inside the hook. After any messages from
    the server, [lastMessage] is the text of the last message that is no
    ping and no heartbeat response (a message that is not JSON counts),
    and it is still [null] when there was none; and the hook has sent
    exactly one pong for each ping, in order, stamped with the time the
    ping arrived. *)
Theorem onmessage_control (messages : list (jsstring * Z)) :
  let b := receiveAll parse Inbound.initial messages in
  lastMessage b = displayed parse messages
  /\ sent (hook b) = pongs parse messages.
Proof.
  destruct (receiveAll_from messages Inbound.initial) as (A & B & _).
  - cbn. lia.
  - reflexivity.
  - cbv zeta in *. rewrite A, B. split; reflexivity.
Qed.

(** X19. The latency the hook reports. After any messages from the
    server the hook holds the 10 most recent latency samples, where a
    message yields a sample when it is no control message, has a truthy
    [timestamp] and arrived more than 0 and less than 10000 ms after it;
    [averageLatency] is the mean of the held samples, and 0 while there is
    none. *)
Theorem onmessage_latency (messages : list (jsstring * Z)) :
  let b := receiveAll parse Inbound.initial messages in
  latencyHistory b = lastn 10 (samples parse messages)
  /\ averageLatency b
     = match latencyHistory b with
       | [] => 0%float
       | _ :: _ => mean (latencyHistory b)
       end.
Proof.
  destruct (receiveAll_from messages Inbound.initial) as (_ & _ & C & D).
  - cbn. lia.
  - reflexivity.
  - cbv zeta in *. rewrite C. split; [reflexivity|].
    rewrite <- C. exact D.
Qed.

End WithParser.

End InboundFacts.

(** ** The coordinate transformer *)

Module ClampFacts.

Lemma not_nan (a : float) : is_nan a = false -> Prim2SF a <> S754_nan.
Proof.
  unfold is_nan. rewrite eqb_spec. intros H E. rewrite E in H.
  discriminate H.
Qed.

(** Of two numbers, when the first is not below the second, the second is
    at most the first. *)
Lemma not_ltb_leb (a b : float) :
  is_nan a = false -> is_nan b = false ->
  (a <? b)%float = false -> (b <=? a)%float = true.
Proof.
  intros Ha Hb. apply not_nan in Ha. apply not_nan in Hb.
  rewrite ltb_spec, leb_spec. unfold SFltb, SFleb.
  rewrite (FloatFacts.SFcompare_antisym (Prim2SF a) (Prim2SF b)).
  destruct (Prim2SF a) as [sa|sa| |sa ma ea]; try (contradiction Ha; reflexivity);
    destruct (Prim2SF b) as [sb|sb| |sb mb eb];
    try (contradiction Hb; reflexivity);
    destruct (SFcompare _ _) as [[]|] eqn:E; cbn; try congruence;
    cbn in E; repeat match goal with
                     | s : bool |- _ => destruct s
                     end; discriminate E.
Qed.

Lemma ltb_leb (a b : float) :
  (a <? b)%float = true -> (a <=? b)%float = true.
Proof.
  rewrite ltb_spec, leb_spec. unfold SFltb, SFleb.
  destruct (SFcompare (Prim2SF a) (Prim2SF b)) as [[]|]; congruence.
Qed.

Lemma ltb_not_nan (a b : float) :
  (a <? b)%float = true -> is_nan a = false /\ is_nan b = false.
Proof.
  unfold is_nan. rewrite ltb_spec, !eqb_spec. unfold SFltb.
  destruct (Prim2SF a) as [sa|sa| |sa ma ea];
    destruct (Prim2SF b) as [sb|sb| |sb mb eb]; cbn; try discriminate;
    intros _; rewrite ?Z.compare_refl, ?Pos.compare_cont_refl;
    repeat match goal with
           | s : bool |- _ => destruct s
           end; cbn; rewrite ?Z.compare_refl, ?Pos.compare_cont_refl;
    split; reflexivity.
Qed.

End ClampFacts.

Module TransformerFacts.
Import CoordinateTransformer SceneSpec.

#[local] Set Warnings "-inexact-float".

Lemma clamp_range (v : float) :
  let r := Math_max MIN_Z (Math_min MAX_Z v) in
  (is_nan v = true -> is_nan r = true)
  /\ (is_nan v = false -> inRange r = true).
Proof.
  cbv zeta. unfold MIN_Z, MAX_Z. split; intro Hv.
  - unfold Math_min. rewrite Hv, orb_true_r. reflexivity.
  - assert (Em : Math_min 7 v = if (7 <? v)%float then 7%float else v).
    { unfold Math_min. rewrite Hv.
      change (is_nan 7 || false) with false. cbv iota.
      destruct (7 <? v)%float; [reflexivity|].
      destruct (v <? 7)%float; reflexivity. }
    rewrite Em. destruct (7 <? v)%float eqn:E7; [reflexivity|].
    assert (H7 : (v <=? 7)%float = true)
      by (apply ClampFacts.not_ltb_leb; [reflexivity|exact Hv|exact E7]).
    unfold Math_max. rewrite Hv.
    change (is_nan (-6) || false) with false. cbv iota.
    unfold inRange.
    destruct (-6 <? v)%float eqn:E6.
    + rewrite (ClampFacts.ltb_leb _ _ E6), H7. reflexivity.
    + destruct (v <? -6)%float eqn:E6'; [reflexivity|].
      change (get_sign (-6)) with true. cbv iota.
      rewrite (ClampFacts.not_ltb_leb v (-6) Hv eq_refl E6'), H7.
      reflexivity.
Qed.

Section WithMath.

Variables Math_tan Math_atan : float -> float.

Lemma depth_range (this : t) (keypoints : list CameraPoint.t) :
  let pose := getPoseCenterAndZ Math_tan Math_atan this keypoints in
  is_nan (z pose) = true \/ inRange (z pose) = true.
Proof.
  cbv zeta. unfold getPoseCenterAndZ. cbn [z].
  match goal with
  | |- is_nan (Math_max MIN_Z (Math_min MAX_Z ?v)) = true \/ _ =>
      destruct (clamp_range v) as [A B]; destruct (is_nan v) eqn:E
  end.
  - left. apply A. reflexivity.
  - right. apply B. reflexivity.
Qed.

(** X20. The depth of a pose never leaves the room. Whatever the keypoints
    and whatever [Math.tan] and [Math.atan] return, the depth that
    [getPoseCenterAndZ] gives is a number from -6 to 7, or [NaN]; the centre
    it gives lies on the floor at that depth; and the depth is -4 when
    neither both ankles nor both hips are found with a confidence above
    0.3. *)
Theorem getPoseCenterAndZ_range (this : t) (keypoints : list CameraPoint.t) :
  let pose := getPoseCenterAndZ Math_tan Math_atan this keypoints in
  (is_nan (z pose) = true \/ inRange (z pose) = true)
  /\ Vector3.y (center pose) = 0%float
  /\ Vector3.z (center pose) = z pose
  /\ (bothConfident (findByName keypoints (js "left_ankle"))
        (findByName keypoints (js "right_ankle")) = None ->
      bothConfident (findByName keypoints (js "left_hip"))
        (findByName keypoints (js "right_hip")) = None ->
      z pose = (-4)%float).
Proof.
  cbv zeta. split; [apply depth_range|].
  unfold getPoseCenterAndZ.
  cbn [z center Vector3.y Vector3.z transformKeypoint MuseumPoint.z].
  split; [reflexivity|split; [reflexivity|]].
  intros Ha Hh. rewrite Ha, Hh. vm_compute. reflexivity.
Qed.

(** X21. The skeleton is drawn in one plane. [updateFromKeypoints] gives
    one point for each keypoint whose confidence is above 0.3, in the
    order of the keypoints and under the same names, and drops the others
    (a [NaN] confidence included); every point it gives lies at the depth
    of the pose, which is a number from -6 to 7 or [NaN]. *)
Theorem updateFromKeypoints_plane (this : t) (keypoints : list CameraPoint.t) :
  let points := updateFromKeypoints Math_tan Math_atan this keypoints in
  map MuseumPoint.name points
  = map CameraPoint.name
      (filter (fun kp => confident (CameraPoint.confidence kp)) keypoints)
  /\ (forall q, In q points ->
      MuseumPoint.z q = z (getPoseCenterAndZ Math_tan Math_atan this keypoints)
      /\ confident (MuseumPoint.confidence q) = true
      /\ (is_nan (MuseumPoint.z q) = true \/ inRange (MuseumPoint.z q) = true))
  /\ confident nan = false.
Proof.
  cbv zeta. unfold updateFromKeypoints, transformKeypoints.
  split; [|split; [|reflexivity]].
  - rewrite map_map. reflexivity.
  - intros q Hq. apply in_map_iff in Hq as (kp & <- & Hkp).
    apply filter_In in Hkp as [_ Hc].
    cbn [transformKeypoint MuseumPoint.z MuseumPoint.confidence].
    split; [reflexivity|]. split; [exact Hc|]. apply depth_range.
Qed.

End WithMath.

(** *** The skeleton *)

Lemma get_set {V : Type} (m : StringMap.t V) (key key' : jsstring) (value : V) :
  StringMap.get (StringMap.set m key value) key'
  = if UuidUtils.strictEq key key' then Some value else StringMap.get m key'.
Proof.
  induction m as [|[k v] rest IH]; [reflexivity|].
  cbn [StringMap.set StringMap.get].
  destruct (UuidUtils.strictEq k key) eqn:Ek.
  - apply FpsFacts.strictEq_eq in Ek. subst k. cbn [StringMap.get].
    destruct (UuidUtils.strictEq key key'); reflexivity.
  - cbn [StringMap.get]. rewrite IH.
    destruct (UuidUtils.strictEq k key') eqn:Ek'; [|reflexivity].
    apply FpsFacts.strictEq_eq in Ek'. subst k.
    destruct (UuidUtils.strictEq key key') eqn:E2; [|reflexivity].
    apply FpsFacts.strictEq_eq in E2. subst key'.
    rewrite UuidFacts.strictEq_refl in Ek. discriminate Ek.
Qed.

Lemma get_entries {V : Type} (entries : list (jsstring * V))
    (m : StringMap.t V) (key : jsstring) (value : V) :
  StringMap.get
    (fold_left (fun m e => StringMap.set m (fst e) (snd e)) entries m) key
  = Some value ->
  In (key, value) entries \/ StringMap.get m key = Some value.
Proof.
  revert m. induction entries as [|[k v] entries IH]; intros m H.
  - right. exact H.
  - cbn [fold_left fst snd] in H. destruct (IH _ H) as [Hin|Hget].
    + left. right. exact Hin.
    + rewrite get_set in Hget.
      destruct (UuidUtils.strictEq k key) eqn:Ek.
      * apply FpsFacts.strictEq_eq in Ek. subst k.
        injection Hget as ->. left. left. reflexivity.
      * right. exact Hget.
Qed.

Lemma get_other {V : Type} (entries : list (jsstring * V))
    (m : StringMap.t V) (key : jsstring) :
  ~ In key (map fst entries) ->
  StringMap.get
    (fold_left (fun m e => StringMap.set m (fst e) (snd e)) entries m) key
  = StringMap.get m key.
Proof.
  revert m. induction entries as [|[k v] entries IH]; intros m H.
  - reflexivity.
  - cbn [fold_left fst snd]. cbn [map fst] in H.
    rewrite IH by (intro Hin; apply H; right; exact Hin).
    rewrite get_set.
    destruct (UuidUtils.strictEq k key) eqn:Ek; [|reflexivity].
    apply FpsFacts.strictEq_eq in Ek. contradiction H. left. exact Ek.
Qed.

Lemma get_unique {V : Type} (entries : list (jsstring * V))
    (m : StringMap.t V) (key : jsstring) (value : V) :
  NoDup (map fst entries) -> In (key, value) entries ->
  StringMap.get
    (fold_left (fun m e => StringMap.set m (fst e) (snd e)) entries m) key
  = Some value.
Proof.
  revert m. induction entries as [|[k v] entries IH]; intros m Hn Hin.
  - contradiction Hin.
  - cbn [map fst] in Hn. inversion Hn as [|? ? Hk Hn']. subst.
    cbn [fold_left fst snd]. destruct Hin as [E|Hin].
    + injection E as -> ->. rewrite get_other by exact Hk.
      rewrite get_set, UuidFacts.strictEq_refl. reflexivity.
    + apply IH; assumption.
Qed.

Lemma fold_push {A B : Type} (g : A -> list B) (f : list B -> A -> list B)
    (l : list A) (acc : list B) :
  (forall acc a, f acc a = (acc ++ g a)%list) ->
  fold_left f l acc = (acc ++ flat_map g l)%list.
Proof.
  intro H. revert acc. induction l as [|a l IH]; intro acc.
  - cbn. rewrite app_nil_r. reflexivity.
  - cbn [fold_left flat_map]. rewrite IH, H, <- app_assoc. reflexivity.
Qed.

(** The connections, one table entry after the other. *)
Lemma createSkeletonConnections_table (keypoints : list MuseumPoint.t) :
  let keypointMap :=
    StringMap.new (map (fun kp => (MuseumPoint.name kp, kp)) keypoints) in
  createSkeletonConnections keypoints
  = flat_map
      (fun c =>
         match StringMap.get keypointMap (fst c),
               StringMap.get keypointMap (snd c) with
         | Some a, Some b => connectionOf a b
         | _, _ => []
         end)
      connections.
Proof.
  cbv zeta. unfold createSkeletonConnections.
  rewrite (fold_push
             (fun c =>
                match StringMap.get
                        (StringMap.new
                           (map (fun kp => (MuseumPoint.name kp, kp)) keypoints))
                        (fst c),
                      StringMap.get
                        (StringMap.new
                           (map (fun kp => (MuseumPoint.name kp, kp)) keypoints))
                        (snd c) with
                | Some a, Some b => connectionOf a b
                | _, _ => []
                end)); [reflexivity|].
  intros acc c. unfold connectionOf, confident, push.
  destruct (StringMap.get _ (fst c)) as [a|]; [|rewrite app_nil_r; reflexivity].
  destruct (StringMap.get _ (snd c)) as [b|]; [|rewrite app_nil_r; reflexivity].
  destruct ((0.3 <? MuseumPoint.confidence a)
            && (0.3 <? MuseumPoint.confidence b))%float;
    [reflexivity|rewrite app_nil_r; reflexivity].
Qed.

Lemma get_keypoint (keypoints : list MuseumPoint.t) (key : jsstring)
    (kp : MuseumPoint.t) :
  StringMap.get
    (StringMap.new (map (fun kp => (MuseumPoint.name kp, kp)) keypoints)) key
  = Some kp ->
  In kp keypoints /\ MuseumPoint.name kp = key.
Proof.
  intro H. unfold StringMap.new in H.
  destruct (get_entries _ _ _ _ H) as [Hin|Hget]; [|discriminate Hget].
  apply in_map_iff in Hin as (kp' & E & Hin). injection E as E1 E2.
  subst kp'. split; assumption.
Qed.

Lemma flat_map_length_le {A B : Type} (g : A -> list B) (l : list A) :
  (forall a, (length (g a) <= 1)%nat) ->
  (length (flat_map g l) <= length l)%nat.
Proof.
  intro H. induction l as [|a l IH]; [cbn; lia|].
  cbn [flat_map length]. rewrite length_app. specialize (H a). lia.
Qed.

(** X22. The skeleton connects only what was detected. Every connection
    that [createSkeletonConnections] gives joins two keypoints of the
    input, both with a confidence above 0.3, whose names are a pair of the
    skeleton table; there are at most 16 connections. When no two
    keypoints share a name, every pair of the table whose two keypoints are
    present with a confidence above 0.3 is connected. *)
Theorem createSkeletonConnections_sound (keypoints : list MuseumPoint.t) :
  (forall c, In c (createSkeletonConnections keypoints) ->
     In (start c) keypoints /\ In (end_ c) keypoints
     /\ In (MuseumPoint.name (start c), MuseumPoint.name (end_ c)) connections
     /\ confident (MuseumPoint.confidence (start c)) = true
     /\ confident (MuseumPoint.confidence (end_ c)) = true)
  /\ (length (createSkeletonConnections keypoints) <= 16)%nat
  /\ (NoDup (map MuseumPoint.name keypoints) ->
      forall a b, In a keypoints -> In b keypoints ->
        In (MuseumPoint.name a, MuseumPoint.name b) connections ->
        confident (MuseumPoint.confidence a) = true ->
        confident (MuseumPoint.confidence b) = true ->
        In (mkConnection a b) (createSkeletonConnections keypoints)).
Proof.
  rewrite createSkeletonConnections_table. cbv zeta.
  split; [|split].
  - intros c Hc. apply in_flat_map in Hc as ([n1 n2] & Ht & Hc).
    cbn [fst snd] in Hc.
    destruct (StringMap.get _ n1) as [a|] eqn:Ea; [|contradiction Hc].
    destruct (StringMap.get _ n2) as [b|] eqn:Eb; [|contradiction Hc].
    apply get_keypoint in Ea as [Ia Na]. apply get_keypoint in Eb as [Ib Nb].
    unfold connectionOf in Hc.
    destruct (confident (MuseumPoint.confidence a)) eqn:Ca; [|contradiction Hc].
    destruct (confident (MuseumPoint.confidence b)) eqn:Cb; [|contradiction Hc].
    destruct Hc as [<-|[]]. cbn [start end_]. rewrite Na, Nb. tauto.
  - change 16%nat with (length connections). apply flat_map_length_le.
    intros [n1 n2]. cbn [fst snd].
    destruct (StringMap.get _ n1) as [a|]; [|cbn; lia].
    destruct (StringMap.get _ n2) as [b|]; [|cbn; lia].
    unfold connectionOf. destruct (_ && _); cbn; lia.
  - intros Hn a b Ia Ib Ht Ca Cb. apply in_flat_map.
    exists (MuseumPoint.name a, MuseumPoint.name b). split; [exact Ht|].
    cbn [fst snd].
    assert (G : forall kp, In kp keypoints ->
                  StringMap.get
                    (StringMap.new
                       (map (fun kp => (MuseumPoint.name kp, kp)) keypoints))
                    (MuseumPoint.name kp) = Some kp).
    { intros kp Hkp. apply get_unique.
      - rewrite map_map. exact Hn.
      - apply in_map_iff. exists kp. split; [reflexivity|exact Hkp]. }
    rewrite (G a Ia), (G b Ib). unfold connectionOf. rewrite Ca, Cb.
    left. reflexivity.
Qed.

End TransformerFacts.
